(** * GPT-5 Prompt Designer: the prompt assembler of [gpt5_prompt_designer.py]

    A shallow embedding of the text utilities ([clamp_text], [replace_vars]),
    of the [PromptOptions] dataclass and of [PromptBuilder], followed by the
    properties of the assembled prompt.

    Python strings are sequences of Unicode code points; they are modelled as
    lists of code points ([list N]).  The two places where the program depends
    on the host ([str.lower], whose Unicode tables are not part of the
    program, and [os.linesep]) are collected in the class [Runtime]. *)

From Stdlib Require Import NArith Strings.String Strings.Ascii Numbers.DecimalString Lia.
From stdpp Require Import gmap list sorting.

Local Open Scope N_scope.

(** ** Python strings *)

Module PyStr.

Abbreviation pystr := (list N).

(** An ASCII literal as a Python string. *)
Definition str (s : string) : pystr :=
  List.map N_of_ascii (list_ascii_of_string s).

Definition nl : N := 10.
Definition lbrace : N := 123.
Definition rbrace : N := 125.
Definition dquote : N := 34.

Definition is_nl (c : N) : bool := c =? nl.

(** [str.isspace] on one code point: the characters [str.strip] removes. *)
Definition isspace (c : N) : bool :=
  ((9 <=? c) && (c <=? 13)) || ((28 <=? c) && (c <=? 32))
  || (c =? 133) || (c =? 160) || (c =? 5760)
  || ((8192 <=? c) && (c <=? 8202))
  || (c =? 8232) || (c =? 8233) || (c =? 8239) || (c =? 8287) || (c =? 12288).

(** The character class [[A-Za-z0-9_]]. *)
Definition is_ident (c : N) : bool :=
  ((65 <=? c) && (c <=? 90)) || ((97 <=? c) && (c <=? 122))
  || ((48 <=? c) && (c <=? 57)) || (c =? 95).

Fixpoint take_while (p : N -> bool) (s : pystr) : pystr :=
  match s with
  | c :: s' => if p c then c :: take_while p s' else []
  | [] => []
  end.

Fixpoint drop_while (p : N -> bool) (s : pystr) : pystr :=
  match s with
  | c :: s' => if p c then drop_while p s' else s
  | [] => []
  end.

Definition lstrip (s : pystr) : pystr := drop_while isspace s.
Definition rstrip (s : pystr) : pystr := rev (drop_while isspace (rev s)).
Definition strip (s : pystr) : pystr := rstrip (lstrip s).

(** Truthiness of a string: [if s:]. *)
Definition truthy (s : pystr) : bool :=
  match s with [] => false | _ :: _ => true end.

Definition eqb (a b : pystr) : bool := bool_decide (a = b).

(** [sep.join(parts)]. *)
Fixpoint join (sep : pystr) (parts : list pystr) : pystr :=
  match parts with
  | [] => []
  | [p] => p
  | p :: ps => p ++ sep ++ join sep ps
  end.

Fixpoint startswith (s pre : pystr) {struct pre} : bool :=
  match pre, s with
  | [], _ => true
  | p :: pre', c :: s' => (c =? p) && startswith s' pre'
  | _ :: _, [] => false
  end.

(** [s.replace(old, new)]: every non-overlapping occurrence, left to right.
    [skip] counts the characters of an occurrence that is being passed. *)
Fixpoint replace_go (old new : pystr) (skip : nat) (s : pystr) : pystr :=
  match s with
  | [] => []
  | c :: s' =>
      match skip with
      | S k => replace_go old new k s'
      | O => if startswith s old
             then new ++ replace_go old new (Nat.pred (length old)) s'
             else c :: replace_go old new O s'
      end
  end.

Definition replace (s old new : pystr) : pystr :=
  match old with
  | [] => new ++ concat (List.map (fun c => c :: new) s)
  | _ :: _ => replace_go old new O s
  end.

(** [str(i)] for a natural number: its decimal digits. *)
Definition str_of_nat (n : nat) : pystr :=
  str (NilZero.string_of_uint (Nat.to_uint n)).

End PyStr.
Export PyStr.

(** ** [re.sub] *)

Module Re.

(** A pattern is given by its matcher anchored at the current position: the
    match object and the text after the match.  [sub_fuel] is the scan of
    [re.sub]: at a match the replacement is emitted and the scan goes on after
    the match, otherwise one character is copied. *)
Fixpoint sub_fuel {M : Type} (pat : pystr -> option (M * pystr))
    (repl : M -> pystr) (fuel : nat) (s : pystr) : pystr :=
  match fuel with
  | O => s
  | S f =>
      match pat s with
      | Some (m, rest) => repl m ++ sub_fuel pat repl f rest
      | None =>
          match s with
          | [] => []
          | c :: s' => c :: sub_fuel pat repl f s'
          end
      end
  end.

Definition sub {M : Type} (pat : pystr -> option (M * pystr))
    (repl : M -> pystr) (s : pystr) : pystr :=
  sub_fuel pat repl (length s) s.

(** A matcher that only matches non-empty text. *)
Definition consuming {M : Type} (pat : pystr -> option (M * pystr)) : Prop :=
  forall s m rest, pat s = Some (m, rest) -> (length rest < length s)%nat.

(** [\n{3,}]: a maximal run of at least three newlines. *)
Definition pat_newlines (s : pystr) : option (pystr * pystr) :=
  let run := take_while is_nl s in
  if (3 <=? length run)%nat then Some (run, drop_while is_nl s) else None.

(** [\{([A-Za-z0-9_]+)\}]: the match object is (group 0, group 1).  The
    greedy class takes the maximal run of identifier characters; a shorter
    run is never followed by the closing brace, so no backtracking applies. *)
Definition pat_var (s : pystr) : option ((pystr * pystr) * pystr) :=
  match s with
  | c :: s1 =>
      if c =? lbrace then
        let key := take_while is_ident s1 in
        match key, drop_while is_ident s1 with
        | _ :: _, c' :: rest =>
            if c' =? rbrace
            then Some ((lbrace :: key ++ [rbrace], key), rest)
            else None
        | _, _ => None
        end
      else None
  | [] => None
  end.

End Re.

(** ** Utilities *)

Definition clamp_text (s : pystr) : pystr :=
  strip (Re.sub Re.pat_newlines (fun _ => [nl; nl]) s).

(** The inner function [repl] of [replace_vars]; a match object is the
    pair of [m.group(0)] and [m.group(1)]. *)
Definition repl (mapping : gmap (list N) (list N)) (m : pystr * pystr) : pystr :=
  let key := snd m in
  match mapping !! key with
  | Some v => v
  | None => fst m
  end.

Definition replace_vars (text : pystr) (mapping : gmap (list N) (list N)) : pystr :=
  Re.sub Re.pat_var (repl mapping) text.

(** [str.lower] restricted to ASCII letters, for the concrete runtime. *)
Definition ascii_lower (s : pystr) : pystr :=
  List.map (fun c => if (65 <=? c) && (c <=? 90) then c + 32 else c) s.

(** What the program takes from its host: [str.lower] and [os.linesep]. *)
Class Runtime := {
  lower : pystr -> pystr;
  linesep : pystr
}.

(** A POSIX host; [lower] is exact on ASCII text. *)
Definition posix : Runtime := {| lower := ascii_lower; linesep := [nl] |}.

(** ** Prompt assembly *)

Record PromptOptions := {
  (* Basics *)
  role : pystr;
  custom_role : pystr;
  task : pystr;
  audience : pystr;
  constraints : pystr;
  delimiters : pystr;
  output_format : pystr;
  json_schema : pystr;
  additional_context : pystr;
  (* Agentic *)
  eagerness : pystr;
  reasoning_effort : pystr;
  include_tool_preamble : bool;
  include_persistence : bool;
  include_progress_narration : bool;
  include_tool_disambiguation : bool;
  tool_context : pystr;
  (* Coding *)
  coding_mode : bool;
  include_planning : bool;
  planning_snippet : pystr;
  include_apply_patch_instr : bool;
  include_tool_defs : bool;
  coding_notes : pystr;
  (* Intelligence *)
  verbosity : pystr;
  verbosity_override : pystr;
  markdown_guidance : bool;
  ask_brief_rationale : bool;
  (* Metaprompting *)
  meta_mode : bool;
  meta_prompt : pystr;
  meta_desired : pystr;
  meta_undesired : pystr;
  (* Few-shot: list of (user, assistant) *)
  examples : list (pystr * pystr);
  (* Variables *)
  variables : gmap (list N) (list N);
  (* Appendices *)
  include_swe_bench : bool;
  include_retail_min_reason : bool
}.

(** [PromptOptions()]: every field at its declared default. *)
Definition default_options : PromptOptions := {|
  role := str "General assistant";
  custom_role := [];
  task := [];
  audience := [];
  constraints := [];
  delimiters := str "triple backticks";
  output_format := str "Plain text";
  json_schema := [];
  additional_context := [];
  eagerness := str "Medium";
  reasoning_effort := str "Default";
  include_tool_preamble := false;
  include_persistence := false;
  include_progress_narration := false;
  include_tool_disambiguation := false;
  tool_context := [];
  coding_mode := false;
  include_planning := false;
  planning_snippet := [];
  include_apply_patch_instr := false;
  include_tool_defs := false;
  coding_notes := [];
  verbosity := str "Default";
  verbosity_override := [];
  markdown_guidance := false;
  ask_brief_rationale := false;
  meta_mode := false;
  meta_prompt := [];
  meta_desired := [];
  meta_undesired := [];
  examples := [];
  variables := ∅;
  include_swe_bench := false;
  include_retail_min_reason := false
|}.

Module PromptBuilder.

Section Builder.
Context {R : Runtime}.
Variable o : PromptOptions.

Definition _delim : pystr * pystr :=
  let d := delimiters o in
  if eqb d (str "triple backticks") then (str "```", str "```")
  else if eqb d (str "triple quotes") then ([dquote; dquote; dquote], [dquote; dquote; dquote])
  else if eqb d (str "XML tags") then (str "<content>", str "</content>")
  else (str "```", str "```").

Definition _role_line : pystr :=
  let r := if eqb (role o) (str "Custom") then strip (custom_role o) else role o in
  let r := if truthy r then r else str "General assistant" in
  str "You are " ++ r ++ str ".".

Definition _audience_line : pystr :=
  let aud := strip (audience o) in
  if truthy aud then str "Target audience: " ++ aud ++ str "." else [].

Definition _constraints_block : pystr :=
  let cons := clamp_text (constraints o) in
  if truthy cons
  then str "Constraints:" ++ [nl] ++ str "- " ++ replace cons linesep (linesep ++ str "- ")
  else [].

Definition _formatting_block : pystr :=
  let parts := [] in
  let parts :=
    if eqb (output_format o) (str "Markdown") || markdown_guidance o then
      parts ++
      [str "Format the final answer in Markdown where semantically correct. Use inline code, fenced code blocks, lists, and tables appropriately.";
       str "When naming files or code elements, use backticks; use \( \) for inline math and \[ \] for block math."]
    else parts in
  let parts :=
    if eqb (output_format o) (str "JSON") then
      let schema := clamp_text (json_schema o) in
      if truthy schema then
        parts ++ [str "Return a single JSON object that exactly follows this JSON Schema:"; schema]
      else
        parts ++ [str "Return a single valid JSON object with keys appropriate to the task. No extra commentary."]
    else parts in
  join [nl] parts.

Definition _verbosity_block : pystr :=
  let v := verbosity o in
  if eqb v (str "Default") then strip (verbosity_override o)
  else str "Verbosity: " ++ lower v ++ str "." ++
       (if truthy (strip (verbosity_override o))
        then str " " ++ strip (verbosity_override o) else []).

Definition _reasoning_block : pystr :=
  let r := reasoning_effort o in
  if eqb r (str "Default") then []
  else str "Reasoning effort: " ++ lower r ++ str ".".

Definition _agentic_controls : pystr :=
  let e := eagerness o in
  let lines :=
    if eqb e (str "Low") then
      [str "Agentic eagerness: low. Avoid tangential tool calls. Ask at most one clarifying question only if blocking."]
    else if eqb e (str "High") then
      [str "Agentic eagerness: high. Be proactive. Decompose the task and use available tools when helpful."]
    else
      [str "Agentic eagerness: medium. Balance proactivity with directness."] in
  let lines :=
    if include_tool_preamble o then
      lines ++ [str "Before tools: emit a short tool preamble that restates the goal, the plan, and the next action."]
    else lines in
  let lines :=
    if include_progress_narration o then
      lines ++ [str "During long tasks: include brief progress updates and what remains."]
    else lines in
  let lines :=
    if include_persistence o then
      lines ++ [str "Agentic persistence: continue until the user's goal is fully achieved. Do not stop early."]
    else lines in
  let lines :=
    if include_tool_disambiguation o then
      let tc := clamp_text (tool_context o) in
      if truthy tc then
        lines ++ [str "Tool instructions: follow these disambiguated tool rules:"; tc]
      else lines
    else lines in
  join [nl] lines.

Definition _planning_block : pystr :=
  if negb (include_planning o) then []
  else
    let snippet :=
      clamp_text (if truthy (planning_snippet o) then planning_snippet o
                  else str "Plan the steps before producing the final answer. Verify each step. Do not yield until all sub-tasks are complete.") in
    str "Planning:" ++ [nl] ++ snippet.

Definition _coding_block : pystr :=
  if negb (coding_mode o) then []
  else
    let lines := [str "Coding mode: enabled. Prefer small, verifiable steps and runnable outputs."] in
    let lines :=
      if include_apply_patch_instr o then
        lines ++ [str "For code edits, prefer unified diffs in an apply_patch block: begin with '*** Begin Patch' and end with '*** End Patch'."]
      else lines in
    let lines :=
      if include_tool_defs o then
        lines ++ [str "Assume standard code tools are available as defined by the host environment. Use them when appropriate."]
      else lines in
    let notes := clamp_text (coding_notes o) in
    let lines := if truthy notes then lines ++ [notes] else lines in
    join [nl] lines.

(** The loop body of [_examples_block]; [i] is the number [enumerate] gives
    to the first remaining example. *)
Fixpoint example_lines (open_d close_d : pystr) (i : nat)
    (exs : list (pystr * pystr)) : list pystr :=
  match exs with
  | [] => []
  | (u, a) :: exs' =>
      let u := clamp_text u in
      let a := clamp_text a in
      (str "Example " ++ str_of_nat i ++ str " - user " ++ open_d ++ [nl] ++ u ++ [nl] ++ close_d)
      :: (str "Example " ++ str_of_nat i ++ str " - assistant " ++ open_d ++ [nl] ++ a ++ [nl] ++ close_d)
      :: example_lines open_d close_d (S i) exs'
  end.

Definition _examples_block : pystr :=
  match examples o with
  | [] => []
  | _ :: _ =>
      let '(open_d, close_d) := _delim in
      join [nl] (str "Few-shot examples:" :: example_lines open_d close_d 1 (examples o))
  end.

Definition _appendix_block : pystr :=
  let lines := [] in
  let lines :=
    if include_swe_bench o then
      lines ++ [str "Appendix: When editing code, use an apply_patch block with a unified diff. Verify changes thoroughly and consider hidden tests."]
    else lines in
  let lines :=
    if include_retail_min_reason o then
      lines ++ [str "Appendix: Retail domain guardrails. Authenticate the user first. Only act for the authenticated user. Before database changes, summarize the action and get explicit confirmation."]
    else lines in
  join [nl] lines.

Definition _meta_prompt : pystr :=
  let '(open_d, close_d) := _delim in
  let base := clamp_text (meta_prompt o) in
  let desired := clamp_text (meta_desired o) in
  let undesired := clamp_text (meta_undesired o) in
  let lines :=
    [str "Optimize the following prompt. Explain what minimal edits or additions would encourage the desired behavior and reduce undesired behavior.";
     if truthy desired then str "Desired behavior: " ++ desired
     else str "Desired behavior: (not provided)";
     if truthy undesired then str "Undesired behavior: " ++ undesired
     else str "Undesired behavior: (not provided)";
     str "Prompt " ++ open_d ++ [nl] ++ base ++ [nl] ++ close_d] in
  join [nl] lines.

(** The list [parts] as it stands before the final join of [build]. *)
Definition build_parts : list pystr :=
  let parts := [_role_line] in
  let parts :=
    if truthy (strip (task o)) then
      let '(open_d, close_d) := _delim in
      parts ++ [str "Task " ++ open_d ++ [nl] ++ clamp_text (task o) ++ [nl] ++ close_d]
    else parts in
  let parts :=
    if truthy (strip (additional_context o)) then
      let '(open_d, close_d) := _delim in
      parts ++ [str "Context " ++ open_d ++ [nl] ++ clamp_text (additional_context o) ++ [nl] ++ close_d]
    else parts in
  let parts :=
    fold_left
      (fun parts piece => if truthy (strip piece) then parts ++ [strip piece] else parts)
      [_audience_line; _constraints_block; _verbosity_block; _reasoning_block;
       _agentic_controls; _planning_block; _coding_block; _examples_block;
       _formatting_block; _appendix_block]
      parts in
  if ask_brief_rationale o then
    parts ++ [str "Begin the final answer with 1-3 concise bullets summarizing key factors. Do not include private chain-of-thought."]
  else parts.

(** The text [composed] before normalization and substitution. *)
Definition joined : pystr :=
  join [nl; nl] (List.filter (fun p => truthy (strip p)) build_parts).

Definition build : pystr :=
  if meta_mode o then
    let composed := _meta_prompt in
    clamp_text (replace_vars composed (variables o))
  else
    let composed := clamp_text joined in
    let composed := replace_vars composed (variables o) in
    composed.

End Builder.

End PromptBuilder.
Import PromptBuilder.


(** ** Field updates ([o.f = v]) *)

Definition set_role (v : pystr) (o : PromptOptions) : PromptOptions :=
  {| role := v; custom_role := custom_role o; task := task o;
     audience := audience o; constraints := constraints o;
     delimiters := delimiters o; output_format := output_format o;
     json_schema := json_schema o; additional_context := additional_context o;
     eagerness := eagerness o; reasoning_effort := reasoning_effort o;
     include_tool_preamble := include_tool_preamble o;
     include_persistence := include_persistence o;
     include_progress_narration := include_progress_narration o;
     include_tool_disambiguation := include_tool_disambiguation o;
     tool_context := tool_context o; coding_mode := coding_mode o;
     include_planning := include_planning o;
     planning_snippet := planning_snippet o;
     include_apply_patch_instr := include_apply_patch_instr o;
     include_tool_defs := include_tool_defs o; coding_notes := coding_notes o;
     verbosity := verbosity o; verbosity_override := verbosity_override o;
     markdown_guidance := markdown_guidance o;
     ask_brief_rationale := ask_brief_rationale o; meta_mode := meta_mode o;
     meta_prompt := meta_prompt o; meta_desired := meta_desired o;
     meta_undesired := meta_undesired o; examples := examples o;
     variables := variables o; include_swe_bench := include_swe_bench o;
     include_retail_min_reason := include_retail_min_reason o |}.

Definition set_task (v : pystr) (o : PromptOptions) : PromptOptions :=
  {| role := role o; custom_role := custom_role o; task := v;
     audience := audience o; constraints := constraints o;
     delimiters := delimiters o; output_format := output_format o;
     json_schema := json_schema o; additional_context := additional_context o;
     eagerness := eagerness o; reasoning_effort := reasoning_effort o;
     include_tool_preamble := include_tool_preamble o;
     include_persistence := include_persistence o;
     include_progress_narration := include_progress_narration o;
     include_tool_disambiguation := include_tool_disambiguation o;
     tool_context := tool_context o; coding_mode := coding_mode o;
     include_planning := include_planning o;
     planning_snippet := planning_snippet o;
     include_apply_patch_instr := include_apply_patch_instr o;
     include_tool_defs := include_tool_defs o; coding_notes := coding_notes o;
     verbosity := verbosity o; verbosity_override := verbosity_override o;
     markdown_guidance := markdown_guidance o;
     ask_brief_rationale := ask_brief_rationale o; meta_mode := meta_mode o;
     meta_prompt := meta_prompt o; meta_desired := meta_desired o;
     meta_undesired := meta_undesired o; examples := examples o;
     variables := variables o; include_swe_bench := include_swe_bench o;
     include_retail_min_reason := include_retail_min_reason o |}.

Definition set_delimiters (v : pystr) (o : PromptOptions) : PromptOptions :=
  {| role := role o; custom_role := custom_role o; task := task o;
     audience := audience o; constraints := constraints o; delimiters := v;
     output_format := output_format o; json_schema := json_schema o;
     additional_context := additional_context o; eagerness := eagerness o;
     reasoning_effort := reasoning_effort o;
     include_tool_preamble := include_tool_preamble o;
     include_persistence := include_persistence o;
     include_progress_narration := include_progress_narration o;
     include_tool_disambiguation := include_tool_disambiguation o;
     tool_context := tool_context o; coding_mode := coding_mode o;
     include_planning := include_planning o;
     planning_snippet := planning_snippet o;
     include_apply_patch_instr := include_apply_patch_instr o;
     include_tool_defs := include_tool_defs o; coding_notes := coding_notes o;
     verbosity := verbosity o; verbosity_override := verbosity_override o;
     markdown_guidance := markdown_guidance o;
     ask_brief_rationale := ask_brief_rationale o; meta_mode := meta_mode o;
     meta_prompt := meta_prompt o; meta_desired := meta_desired o;
     meta_undesired := meta_undesired o; examples := examples o;
     variables := variables o; include_swe_bench := include_swe_bench o;
     include_retail_min_reason := include_retail_min_reason o |}.

Definition set_output_format (v : pystr) (o : PromptOptions) : PromptOptions :=
  {| role := role o; custom_role := custom_role o; task := task o;
     audience := audience o; constraints := constraints o;
     delimiters := delimiters o; output_format := v;
     json_schema := json_schema o; additional_context := additional_context o;
     eagerness := eagerness o; reasoning_effort := reasoning_effort o;
     include_tool_preamble := include_tool_preamble o;
     include_persistence := include_persistence o;
     include_progress_narration := include_progress_narration o;
     include_tool_disambiguation := include_tool_disambiguation o;
     tool_context := tool_context o; coding_mode := coding_mode o;
     include_planning := include_planning o;
     planning_snippet := planning_snippet o;
     include_apply_patch_instr := include_apply_patch_instr o;
     include_tool_defs := include_tool_defs o; coding_notes := coding_notes o;
     verbosity := verbosity o; verbosity_override := verbosity_override o;
     markdown_guidance := markdown_guidance o;
     ask_brief_rationale := ask_brief_rationale o; meta_mode := meta_mode o;
     meta_prompt := meta_prompt o; meta_desired := meta_desired o;
     meta_undesired := meta_undesired o; examples := examples o;
     variables := variables o; include_swe_bench := include_swe_bench o;
     include_retail_min_reason := include_retail_min_reason o |}.

Definition set_eagerness (v : pystr) (o : PromptOptions) : PromptOptions :=
  {| role := role o; custom_role := custom_role o; task := task o;
     audience := audience o; constraints := constraints o;
     delimiters := delimiters o; output_format := output_format o;
     json_schema := json_schema o; additional_context := additional_context o;
     eagerness := v; reasoning_effort := reasoning_effort o;
     include_tool_preamble := include_tool_preamble o;
     include_persistence := include_persistence o;
     include_progress_narration := include_progress_narration o;
     include_tool_disambiguation := include_tool_disambiguation o;
     tool_context := tool_context o; coding_mode := coding_mode o;
     include_planning := include_planning o;
     planning_snippet := planning_snippet o;
     include_apply_patch_instr := include_apply_patch_instr o;
     include_tool_defs := include_tool_defs o; coding_notes := coding_notes o;
     verbosity := verbosity o; verbosity_override := verbosity_override o;
     markdown_guidance := markdown_guidance o;
     ask_brief_rationale := ask_brief_rationale o; meta_mode := meta_mode o;
     meta_prompt := meta_prompt o; meta_desired := meta_desired o;
     meta_undesired := meta_undesired o; examples := examples o;
     variables := variables o; include_swe_bench := include_swe_bench o;
     include_retail_min_reason := include_retail_min_reason o |}.

Definition set_reasoning_effort (v : pystr) (o : PromptOptions) : PromptOptions :=
  {| role := role o; custom_role := custom_role o; task := task o;
     audience := audience o; constraints := constraints o;
     delimiters := delimiters o; output_format := output_format o;
     json_schema := json_schema o; additional_context := additional_context o;
     eagerness := eagerness o; reasoning_effort := v;
     include_tool_preamble := include_tool_preamble o;
     include_persistence := include_persistence o;
     include_progress_narration := include_progress_narration o;
     include_tool_disambiguation := include_tool_disambiguation o;
     tool_context := tool_context o; coding_mode := coding_mode o;
     include_planning := include_planning o;
     planning_snippet := planning_snippet o;
     include_apply_patch_instr := include_apply_patch_instr o;
     include_tool_defs := include_tool_defs o; coding_notes := coding_notes o;
     verbosity := verbosity o; verbosity_override := verbosity_override o;
     markdown_guidance := markdown_guidance o;
     ask_brief_rationale := ask_brief_rationale o; meta_mode := meta_mode o;
     meta_prompt := meta_prompt o; meta_desired := meta_desired o;
     meta_undesired := meta_undesired o; examples := examples o;
     variables := variables o; include_swe_bench := include_swe_bench o;
     include_retail_min_reason := include_retail_min_reason o |}.

Definition set_coding_mode (v : bool) (o : PromptOptions) : PromptOptions :=
  {| role := role o; custom_role := custom_role o; task := task o;
     audience := audience o; constraints := constraints o;
     delimiters := delimiters o; output_format := output_format o;
     json_schema := json_schema o; additional_context := additional_context o;
     eagerness := eagerness o; reasoning_effort := reasoning_effort o;
     include_tool_preamble := include_tool_preamble o;
     include_persistence := include_persistence o;
     include_progress_narration := include_progress_narration o;
     include_tool_disambiguation := include_tool_disambiguation o;
     tool_context := tool_context o; coding_mode := v;
     include_planning := include_planning o;
     planning_snippet := planning_snippet o;
     include_apply_patch_instr := include_apply_patch_instr o;
     include_tool_defs := include_tool_defs o; coding_notes := coding_notes o;
     verbosity := verbosity o; verbosity_override := verbosity_override o;
     markdown_guidance := markdown_guidance o;
     ask_brief_rationale := ask_brief_rationale o; meta_mode := meta_mode o;
     meta_prompt := meta_prompt o; meta_desired := meta_desired o;
     meta_undesired := meta_undesired o; examples := examples o;
     variables := variables o; include_swe_bench := include_swe_bench o;
     include_retail_min_reason := include_retail_min_reason o |}.

Definition set_include_apply_patch_instr (v : bool) (o : PromptOptions) : PromptOptions :=
  {| role := role o; custom_role := custom_role o; task := task o;
     audience := audience o; constraints := constraints o;
     delimiters := delimiters o; output_format := output_format o;
     json_schema := json_schema o; additional_context := additional_context o;
     eagerness := eagerness o; reasoning_effort := reasoning_effort o;
     include_tool_preamble := include_tool_preamble o;
     include_persistence := include_persistence o;
     include_progress_narration := include_progress_narration o;
     include_tool_disambiguation := include_tool_disambiguation o;
     tool_context := tool_context o; coding_mode := coding_mode o;
     include_planning := include_planning o;
     planning_snippet := planning_snippet o; include_apply_patch_instr := v;
     include_tool_defs := include_tool_defs o; coding_notes := coding_notes o;
     verbosity := verbosity o; verbosity_override := verbosity_override o;
     markdown_guidance := markdown_guidance o;
     ask_brief_rationale := ask_brief_rationale o; meta_mode := meta_mode o;
     meta_prompt := meta_prompt o; meta_desired := meta_desired o;
     meta_undesired := meta_undesired o; examples := examples o;
     variables := variables o; include_swe_bench := include_swe_bench o;
     include_retail_min_reason := include_retail_min_reason o |}.

Definition set_verbosity (v : pystr) (o : PromptOptions) : PromptOptions :=
  {| role := role o; custom_role := custom_role o; task := task o;
     audience := audience o; constraints := constraints o;
     delimiters := delimiters o; output_format := output_format o;
     json_schema := json_schema o; additional_context := additional_context o;
     eagerness := eagerness o; reasoning_effort := reasoning_effort o;
     include_tool_preamble := include_tool_preamble o;
     include_persistence := include_persistence o;
     include_progress_narration := include_progress_narration o;
     include_tool_disambiguation := include_tool_disambiguation o;
     tool_context := tool_context o; coding_mode := coding_mode o;
     include_planning := include_planning o;
     planning_snippet := planning_snippet o;
     include_apply_patch_instr := include_apply_patch_instr o;
     include_tool_defs := include_tool_defs o; coding_notes := coding_notes o;
     verbosity := v; verbosity_override := verbosity_override o;
     markdown_guidance := markdown_guidance o;
     ask_brief_rationale := ask_brief_rationale o; meta_mode := meta_mode o;
     meta_prompt := meta_prompt o; meta_desired := meta_desired o;
     meta_undesired := meta_undesired o; examples := examples o;
     variables := variables o; include_swe_bench := include_swe_bench o;
     include_retail_min_reason := include_retail_min_reason o |}.

Definition set_meta_mode (v : bool) (o : PromptOptions) : PromptOptions :=
  {| role := role o; custom_role := custom_role o; task := task o;
     audience := audience o; constraints := constraints o;
     delimiters := delimiters o; output_format := output_format o;
     json_schema := json_schema o; additional_context := additional_context o;
     eagerness := eagerness o; reasoning_effort := reasoning_effort o;
     include_tool_preamble := include_tool_preamble o;
     include_persistence := include_persistence o;
     include_progress_narration := include_progress_narration o;
     include_tool_disambiguation := include_tool_disambiguation o;
     tool_context := tool_context o; coding_mode := coding_mode o;
     include_planning := include_planning o;
     planning_snippet := planning_snippet o;
     include_apply_patch_instr := include_apply_patch_instr o;
     include_tool_defs := include_tool_defs o; coding_notes := coding_notes o;
     verbosity := verbosity o; verbosity_override := verbosity_override o;
     markdown_guidance := markdown_guidance o;
     ask_brief_rationale := ask_brief_rationale o; meta_mode := v;
     meta_prompt := meta_prompt o; meta_desired := meta_desired o;
     meta_undesired := meta_undesired o; examples := examples o;
     variables := variables o; include_swe_bench := include_swe_bench o;
     include_retail_min_reason := include_retail_min_reason o |}.

Definition set_meta_prompt (v : pystr) (o : PromptOptions) : PromptOptions :=
  {| role := role o; custom_role := custom_role o; task := task o;
     audience := audience o; constraints := constraints o;
     delimiters := delimiters o; output_format := output_format o;
     json_schema := json_schema o; additional_context := additional_context o;
     eagerness := eagerness o; reasoning_effort := reasoning_effort o;
     include_tool_preamble := include_tool_preamble o;
     include_persistence := include_persistence o;
     include_progress_narration := include_progress_narration o;
     include_tool_disambiguation := include_tool_disambiguation o;
     tool_context := tool_context o; coding_mode := coding_mode o;
     include_planning := include_planning o;
     planning_snippet := planning_snippet o;
     include_apply_patch_instr := include_apply_patch_instr o;
     include_tool_defs := include_tool_defs o; coding_notes := coding_notes o;
     verbosity := verbosity o; verbosity_override := verbosity_override o;
     markdown_guidance := markdown_guidance o;
     ask_brief_rationale := ask_brief_rationale o; meta_mode := meta_mode o;
     meta_prompt := v; meta_desired := meta_desired o;
     meta_undesired := meta_undesired o; examples := examples o;
     variables := variables o; include_swe_bench := include_swe_bench o;
     include_retail_min_reason := include_retail_min_reason o |}.

Definition set_meta_desired (v : pystr) (o : PromptOptions) : PromptOptions :=
  {| role := role o; custom_role := custom_role o; task := task o;
     audience := audience o; constraints := constraints o;
     delimiters := delimiters o; output_format := output_format o;
     json_schema := json_schema o; additional_context := additional_context o;
     eagerness := eagerness o; reasoning_effort := reasoning_effort o;
     include_tool_preamble := include_tool_preamble o;
     include_persistence := include_persistence o;
     include_progress_narration := include_progress_narration o;
     include_tool_disambiguation := include_tool_disambiguation o;
     tool_context := tool_context o; coding_mode := coding_mode o;
     include_planning := include_planning o;
     planning_snippet := planning_snippet o;
     include_apply_patch_instr := include_apply_patch_instr o;
     include_tool_defs := include_tool_defs o; coding_notes := coding_notes o;
     verbosity := verbosity o; verbosity_override := verbosity_override o;
     markdown_guidance := markdown_guidance o;
     ask_brief_rationale := ask_brief_rationale o; meta_mode := meta_mode o;
     meta_prompt := meta_prompt o; meta_desired := v;
     meta_undesired := meta_undesired o; examples := examples o;
     variables := variables o; include_swe_bench := include_swe_bench o;
     include_retail_min_reason := include_retail_min_reason o |}.

Definition set_examples (v : list (pystr * pystr)) (o : PromptOptions) : PromptOptions :=
  {| role := role o; custom_role := custom_role o; task := task o;
     audience := audience o; constraints := constraints o;
     delimiters := delimiters o; output_format := output_format o;
     json_schema := json_schema o; additional_context := additional_context o;
     eagerness := eagerness o; reasoning_effort := reasoning_effort o;
     include_tool_preamble := include_tool_preamble o;
     include_persistence := include_persistence o;
     include_progress_narration := include_progress_narration o;
     include_tool_disambiguation := include_tool_disambiguation o;
     tool_context := tool_context o; coding_mode := coding_mode o;
     include_planning := include_planning o;
     planning_snippet := planning_snippet o;
     include_apply_patch_instr := include_apply_patch_instr o;
     include_tool_defs := include_tool_defs o; coding_notes := coding_notes o;
     verbosity := verbosity o; verbosity_override := verbosity_override o;
     markdown_guidance := markdown_guidance o;
     ask_brief_rationale := ask_brief_rationale o; meta_mode := meta_mode o;
     meta_prompt := meta_prompt o; meta_desired := meta_desired o;
     meta_undesired := meta_undesired o; examples := v;
     variables := variables o; include_swe_bench := include_swe_bench o;
     include_retail_min_reason := include_retail_min_reason o |}.

Definition set_variables (v : gmap (list N) (list N)) (o : PromptOptions) : PromptOptions :=
  {| role := role o; custom_role := custom_role o; task := task o;
     audience := audience o; constraints := constraints o;
     delimiters := delimiters o; output_format := output_format o;
     json_schema := json_schema o; additional_context := additional_context o;
     eagerness := eagerness o; reasoning_effort := reasoning_effort o;
     include_tool_preamble := include_tool_preamble o;
     include_persistence := include_persistence o;
     include_progress_narration := include_progress_narration o;
     include_tool_disambiguation := include_tool_disambiguation o;
     tool_context := tool_context o; coding_mode := coding_mode o;
     include_planning := include_planning o;
     planning_snippet := planning_snippet o;
     include_apply_patch_instr := include_apply_patch_instr o;
     include_tool_defs := include_tool_defs o; coding_notes := coding_notes o;
     verbosity := verbosity o; verbosity_override := verbosity_override o;
     markdown_guidance := markdown_guidance o;
     ask_brief_rationale := ask_brief_rationale o; meta_mode := meta_mode o;
     meta_prompt := meta_prompt o; meta_desired := meta_desired o;
     meta_undesired := meta_undesired o; examples := examples o;
     variables := v; include_swe_bench := include_swe_bench o;
     include_retail_min_reason := include_retail_min_reason o |}.

(** ** Settings document *)

(** The values a settings document (and hence an attribute of a loaded
    record) can hold: what [json.load] produces, and tuples. *)
#[local] Unset Elimination Schemes.
Inductive pyval :=
| PNone
| PBool (b : bool)
| PInt (z : Z)
| PFloat (bits : N)
| PStr (s : pystr)
| PList (l : list pyval)
| PTuple (l : list pyval)
| PDict (items : list (pystr * pyval)).
#[local] Set Elimination Schemes.

(** The fields of the dataclass [PromptOptions] in declaration order, each
    with its default ([default_factory] evaluated). *)
Definition field_defaults : list (pystr * pyval) :=
  [ (str "role", PStr (str "General assistant"));
    (str "custom_role", PStr []);
    (str "task", PStr []);
    (str "audience", PStr []);
    (str "constraints", PStr []);
    (str "delimiters", PStr (str "triple backticks"));
    (str "output_format", PStr (str "Plain text"));
    (str "json_schema", PStr []);
    (str "additional_context", PStr []);
    (str "eagerness", PStr (str "Medium"));
    (str "reasoning_effort", PStr (str "Default"));
    (str "include_tool_preamble", PBool false);
    (str "include_persistence", PBool false);
    (str "include_progress_narration", PBool false);
    (str "include_tool_disambiguation", PBool false);
    (str "tool_context", PStr []);
    (str "coding_mode", PBool false);
    (str "include_planning", PBool false);
    (str "planning_snippet", PStr []);
    (str "include_apply_patch_instr", PBool false);
    (str "include_tool_defs", PBool false);
    (str "coding_notes", PStr []);
    (str "verbosity", PStr (str "Default"));
    (str "verbosity_override", PStr []);
    (str "markdown_guidance", PBool false);
    (str "ask_brief_rationale", PBool false);
    (str "meta_mode", PBool false);
    (str "meta_prompt", PStr []);
    (str "meta_desired", PStr []);
    (str "meta_undesired", PStr []);
    (str "examples", PList []);
    (str "variables", PDict []);
    (str "include_swe_bench", PBool false);
    (str "include_retail_min_reason", PBool false) ].

Definition field_names : list pystr := fst <$> field_defaults.

(** The generated [__init__]: an object is represented by its attribute
    dictionary.  A keyword that is not a field raises [TypeError] ([None]);
    otherwise every field is bound to the keyword's value when the keyword
    is given and to the field's default when it is not. *)
Definition PromptOptions_init (data : gmap (list N) pyval)
    : option (gmap (list N) pyval) :=
  if bool_decide (dom data ⊆ list_to_set field_names)
  then Some (list_to_map
               ((fun fd => (fst fd, match data !! fst fd with
                                    | Some v => v
                                    | None => snd fd
                                    end))
                <$> field_defaults))
  else None.

(** Reading an attribute dictionary as a well-typed record. *)
Definition as_str (v : option pyval) : option pystr :=
  match v with Some (PStr s) => Some s | _ => None end.

Definition as_bool (v : option pyval) : option bool :=
  match v with Some (PBool b) => Some b | _ => None end.

Definition as_pair (v : pyval) : option (pystr * pystr) :=
  match v with
  | PList [PStr u; PStr a] | PTuple [PStr u; PStr a] => Some (u, a)
  | _ => None
  end.

Definition as_examples (v : option pyval) : option (list (pystr * pystr)) :=
  match v with
  | Some (PList l) => mapM as_pair l
  | _ => None
  end.

Definition as_variables (v : option pyval) : option (gmap (list N) (list N)) :=
  match v with
  | Some (PDict items) =>
      kvs ← mapM (fun kv => match snd kv with
                            | PStr s => Some (fst kv, s)
                            | _ => None
                            end) items;
      Some (list_to_map (rev kvs))
  | _ => None
  end.

Definition as_options (d : gmap (list N) pyval) : option PromptOptions :=
  role ← as_str (d !! str "role");
  custom_role ← as_str (d !! str "custom_role");
  task ← as_str (d !! str "task");
  audience ← as_str (d !! str "audience");
  constraints ← as_str (d !! str "constraints");
  delimiters ← as_str (d !! str "delimiters");
  output_format ← as_str (d !! str "output_format");
  json_schema ← as_str (d !! str "json_schema");
  additional_context ← as_str (d !! str "additional_context");
  eagerness ← as_str (d !! str "eagerness");
  reasoning_effort ← as_str (d !! str "reasoning_effort");
  include_tool_preamble ← as_bool (d !! str "include_tool_preamble");
  include_persistence ← as_bool (d !! str "include_persistence");
  include_progress_narration ← as_bool (d !! str "include_progress_narration");
  include_tool_disambiguation ← as_bool (d !! str "include_tool_disambiguation");
  tool_context ← as_str (d !! str "tool_context");
  coding_mode ← as_bool (d !! str "coding_mode");
  include_planning ← as_bool (d !! str "include_planning");
  planning_snippet ← as_str (d !! str "planning_snippet");
  include_apply_patch_instr ← as_bool (d !! str "include_apply_patch_instr");
  include_tool_defs ← as_bool (d !! str "include_tool_defs");
  coding_notes ← as_str (d !! str "coding_notes");
  verbosity ← as_str (d !! str "verbosity");
  verbosity_override ← as_str (d !! str "verbosity_override");
  markdown_guidance ← as_bool (d !! str "markdown_guidance");
  ask_brief_rationale ← as_bool (d !! str "ask_brief_rationale");
  meta_mode ← as_bool (d !! str "meta_mode");
  meta_prompt ← as_str (d !! str "meta_prompt");
  meta_desired ← as_str (d !! str "meta_desired");
  meta_undesired ← as_str (d !! str "meta_undesired");
  examples ← as_examples (d !! str "examples");
  variables ← as_variables (d !! str "variables");
  include_swe_bench ← as_bool (d !! str "include_swe_bench");
  include_retail_min_reason ← as_bool (d !! str "include_retail_min_reason");
  Some (Build_PromptOptions role custom_role task audience constraints
          delimiters output_format json_schema additional_context eagerness
          reasoning_effort include_tool_preamble include_persistence
          include_progress_narration include_tool_disambiguation tool_context
          coding_mode include_planning planning_snippet
          include_apply_patch_instr include_tool_defs coding_notes verbosity
          verbosity_override markdown_guidance ask_brief_rationale meta_mode
          meta_prompt meta_desired meta_undesired examples variables
          include_swe_bench include_retail_min_reason).

(** ** Auxiliary notions for the statements *)

(** The first step of [clamp_text]: [re.sub(r'\n{3,}', '\n\n', s)]. *)
Definition collapse (s : pystr) : pystr :=
  Re.sub Re.pat_newlines (fun _ => [nl; nl]) s.

(** No three consecutive newlines. *)
Fixpoint no_triple_nl (s : pystr) : bool :=
  match s with
  | a :: s' =>
      negb (is_nl a && match s' with
                       | b :: c :: _ => is_nl b && is_nl c
                       | _ => false
                       end)
      && no_triple_nl s'
  | [] => true
  end.

(** [x in s] for strings. *)
Fixpoint contains (s x : pystr) : bool :=
  startswith s x || match s with
                    | _ :: s' => contains s' x
                    | [] => false
                    end.

(** The record of the coding scenario: the defaults with the role, the task,
    coding mode and the patch instruction set. *)
Definition coding_scenario (t : pystr) : PromptOptions :=
  set_role (str "Coding assistant")
    (set_task t
       (set_coding_mode true
          (set_include_apply_patch_instr true default_options))).

(** A part survives the final join when it is not blank. *)
Definition nonblank (p : pystr) : bool := truthy (strip p).

(** The sections of the prompt in the order of the specification, an absent
    section being the empty string: role line, task block, context block,
    audience line, constraints, verbosity, reasoning, agentic controls,
    planning, coding, examples, formatting, appendix, rationale. *)
Definition sections {R : Runtime} (o : PromptOptions) : list pystr :=
  [ _role_line o;
    (if truthy (strip (task o))
     then str "Task " ++ fst (_delim o) ++ [nl] ++ clamp_text (task o) ++ [nl] ++ snd (_delim o)
     else []);
    (if truthy (strip (additional_context o))
     then str "Context " ++ fst (_delim o) ++ [nl] ++ clamp_text (additional_context o)
          ++ [nl] ++ snd (_delim o)
     else []);
    strip (_audience_line o);
    strip (_constraints_block o);
    strip (_verbosity_block o);
    strip (_reasoning_block o);
    strip (_agentic_controls o);
    strip (_planning_block o);
    strip (_coding_block o);
    strip (_examples_block o);
    strip (_formatting_block o);
    strip (_appendix_block o);
    (if ask_brief_rationale o
     then str "Begin the final answer with 1-3 concise bullets summarizing key factors. Do not include private chain-of-thought."
     else []) ].

(** A record in meta mode, and two more records in meta mode with the same
    meta fields. *)
Definition meta_record : PromptOptions :=
  set_meta_mode true (set_meta_prompt (str "Summarize {DOC}.") default_options).

Definition meta_record_xml : PromptOptions :=
  set_delimiters (str "XML tags") meta_record.

Definition meta_record_doc : PromptOptions :=
  set_variables {[ str "DOC" := str "the report" ]} meta_record.

(** A record in meta mode whose variable holds three newlines. *)
Definition meta_record_gap : PromptOptions :=
  set_meta_mode true
    (set_meta_desired (str "{GAP}")
       (set_variables {[ str "GAP" := str "a" ++ [nl; nl; nl] ++ str "b" ]}
          default_options)).

(** The values the reasoning-effort selector offers. *)
Definition reasoning_levels : list pystr :=
  [str "Default"; str "Minimal"; str "Medium"; str "High"].

(** * The rest of the program *)

(** ** Further field updates *)

Definition set_meta_undesired (v : pystr) (o : PromptOptions) : PromptOptions :=
  {| role := role o; custom_role := custom_role o; task := task o;
     audience := audience o; constraints := constraints o;
     delimiters := delimiters o; output_format := output_format o;
     json_schema := json_schema o; additional_context := additional_context o;
     eagerness := eagerness o; reasoning_effort := reasoning_effort o;
     include_tool_preamble := include_tool_preamble o;
     include_persistence := include_persistence o;
     include_progress_narration := include_progress_narration o;
     include_tool_disambiguation := include_tool_disambiguation o;
     tool_context := tool_context o; coding_mode := coding_mode o;
     include_planning := include_planning o;
     planning_snippet := planning_snippet o;
     include_apply_patch_instr := include_apply_patch_instr o;
     include_tool_defs := include_tool_defs o; coding_notes := coding_notes o;
     verbosity := verbosity o; verbosity_override := verbosity_override o;
     markdown_guidance := markdown_guidance o;
     ask_brief_rationale := ask_brief_rationale o; meta_mode := meta_mode o;
     meta_prompt := meta_prompt o; meta_desired := meta_desired o;
     meta_undesired := v; examples := examples o; variables := variables o;
     include_swe_bench := include_swe_bench o;
     include_retail_min_reason := include_retail_min_reason o |}.

Definition set_markdown_guidance (v : bool) (o : PromptOptions) : PromptOptions :=
  {| role := role o; custom_role := custom_role o; task := task o;
     audience := audience o; constraints := constraints o;
     delimiters := delimiters o; output_format := output_format o;
     json_schema := json_schema o; additional_context := additional_context o;
     eagerness := eagerness o; reasoning_effort := reasoning_effort o;
     include_tool_preamble := include_tool_preamble o;
     include_persistence := include_persistence o;
     include_progress_narration := include_progress_narration o;
     include_tool_disambiguation := include_tool_disambiguation o;
     tool_context := tool_context o; coding_mode := coding_mode o;
     include_planning := include_planning o;
     planning_snippet := planning_snippet o;
     include_apply_patch_instr := include_apply_patch_instr o;
     include_tool_defs := include_tool_defs o; coding_notes := coding_notes o;
     verbosity := verbosity o; verbosity_override := verbosity_override o;
     markdown_guidance := v; ask_brief_rationale := ask_brief_rationale o;
     meta_mode := meta_mode o; meta_prompt := meta_prompt o;
     meta_desired := meta_desired o; meta_undesired := meta_undesired o;
     examples := examples o; variables := variables o;
     include_swe_bench := include_swe_bench o;
     include_retail_min_reason := include_retail_min_reason o |}.

Definition set_include_persistence (v : bool) (o : PromptOptions) : PromptOptions :=
  {| role := role o; custom_role := custom_role o; task := task o;
     audience := audience o; constraints := constraints o;
     delimiters := delimiters o; output_format := output_format o;
     json_schema := json_schema o; additional_context := additional_context o;
     eagerness := eagerness o; reasoning_effort := reasoning_effort o;
     include_tool_preamble := include_tool_preamble o;
     include_persistence := v;
     include_progress_narration := include_progress_narration o;
     include_tool_disambiguation := include_tool_disambiguation o;
     tool_context := tool_context o; coding_mode := coding_mode o;
     include_planning := include_planning o;
     planning_snippet := planning_snippet o;
     include_apply_patch_instr := include_apply_patch_instr o;
     include_tool_defs := include_tool_defs o; coding_notes := coding_notes o;
     verbosity := verbosity o; verbosity_override := verbosity_override o;
     markdown_guidance := markdown_guidance o;
     ask_brief_rationale := ask_brief_rationale o; meta_mode := meta_mode o;
     meta_prompt := meta_prompt o; meta_desired := meta_desired o;
     meta_undesired := meta_undesired o; examples := examples o;
     variables := variables o; include_swe_bench := include_swe_bench o;
     include_retail_min_reason := include_retail_min_reason o |}.

Definition set_include_tool_preamble (v : bool) (o : PromptOptions) : PromptOptions :=
  {| role := role o; custom_role := custom_role o; task := task o;
     audience := audience o; constraints := constraints o;
     delimiters := delimiters o; output_format := output_format o;
     json_schema := json_schema o; additional_context := additional_context o;
     eagerness := eagerness o; reasoning_effort := reasoning_effort o;
     include_tool_preamble := v; include_persistence := include_persistence o;
     include_progress_narration := include_progress_narration o;
     include_tool_disambiguation := include_tool_disambiguation o;
     tool_context := tool_context o; coding_mode := coding_mode o;
     include_planning := include_planning o;
     planning_snippet := planning_snippet o;
     include_apply_patch_instr := include_apply_patch_instr o;
     include_tool_defs := include_tool_defs o; coding_notes := coding_notes o;
     verbosity := verbosity o; verbosity_override := verbosity_override o;
     markdown_guidance := markdown_guidance o;
     ask_brief_rationale := ask_brief_rationale o; meta_mode := meta_mode o;
     meta_prompt := meta_prompt o; meta_desired := meta_desired o;
     meta_undesired := meta_undesired o; examples := examples o;
     variables := variables o; include_swe_bench := include_swe_bench o;
     include_retail_min_reason := include_retail_min_reason o |}.

Definition set_ask_brief_rationale (v : bool) (o : PromptOptions) : PromptOptions :=
  {| role := role o; custom_role := custom_role o; task := task o;
     audience := audience o; constraints := constraints o;
     delimiters := delimiters o; output_format := output_format o;
     json_schema := json_schema o; additional_context := additional_context o;
     eagerness := eagerness o; reasoning_effort := reasoning_effort o;
     include_tool_preamble := include_tool_preamble o;
     include_persistence := include_persistence o;
     include_progress_narration := include_progress_narration o;
     include_tool_disambiguation := include_tool_disambiguation o;
     tool_context := tool_context o; coding_mode := coding_mode o;
     include_planning := include_planning o;
     planning_snippet := planning_snippet o;
     include_apply_patch_instr := include_apply_patch_instr o;
     include_tool_defs := include_tool_defs o; coding_notes := coding_notes o;
     verbosity := verbosity o; verbosity_override := verbosity_override o;
     markdown_guidance := markdown_guidance o; ask_brief_rationale := v;
     meta_mode := meta_mode o; meta_prompt := meta_prompt o;
     meta_desired := meta_desired o; meta_undesired := meta_undesired o;
     examples := examples o; variables := variables o;
     include_swe_bench := include_swe_bench o;
     include_retail_min_reason := include_retail_min_reason o |}.

Definition set_include_progress_narration (v : bool) (o : PromptOptions) : PromptOptions :=
  {| role := role o; custom_role := custom_role o; task := task o;
     audience := audience o; constraints := constraints o;
     delimiters := delimiters o; output_format := output_format o;
     json_schema := json_schema o; additional_context := additional_context o;
     eagerness := eagerness o; reasoning_effort := reasoning_effort o;
     include_tool_preamble := include_tool_preamble o;
     include_persistence := include_persistence o;
     include_progress_narration := v;
     include_tool_disambiguation := include_tool_disambiguation o;
     tool_context := tool_context o; coding_mode := coding_mode o;
     include_planning := include_planning o;
     planning_snippet := planning_snippet o;
     include_apply_patch_instr := include_apply_patch_instr o;
     include_tool_defs := include_tool_defs o; coding_notes := coding_notes o;
     verbosity := verbosity o; verbosity_override := verbosity_override o;
     markdown_guidance := markdown_guidance o;
     ask_brief_rationale := ask_brief_rationale o; meta_mode := meta_mode o;
     meta_prompt := meta_prompt o; meta_desired := meta_desired o;
     meta_undesired := meta_undesired o; examples := examples o;
     variables := variables o; include_swe_bench := include_swe_bench o;
     include_retail_min_reason := include_retail_min_reason o |}.

Definition set_include_tool_disambiguation (v : bool) (o : PromptOptions) : PromptOptions :=
  {| role := role o; custom_role := custom_role o; task := task o;
     audience := audience o; constraints := constraints o;
     delimiters := delimiters o; output_format := output_format o;
     json_schema := json_schema o; additional_context := additional_context o;
     eagerness := eagerness o; reasoning_effort := reasoning_effort o;
     include_tool_preamble := include_tool_preamble o;
     include_persistence := include_persistence o;
     include_progress_narration := include_progress_narration o;
     include_tool_disambiguation := v; tool_context := tool_context o;
     coding_mode := coding_mode o; include_planning := include_planning o;
     planning_snippet := planning_snippet o;
     include_apply_patch_instr := include_apply_patch_instr o;
     include_tool_defs := include_tool_defs o; coding_notes := coding_notes o;
     verbosity := verbosity o; verbosity_override := verbosity_override o;
     markdown_guidance := markdown_guidance o;
     ask_brief_rationale := ask_brief_rationale o; meta_mode := meta_mode o;
     meta_prompt := meta_prompt o; meta_desired := meta_desired o;
     meta_undesired := meta_undesired o; examples := examples o;
     variables := variables o; include_swe_bench := include_swe_bench o;
     include_retail_min_reason := include_retail_min_reason o |}.

Definition set_include_planning (v : bool) (o : PromptOptions) : PromptOptions :=
  {| role := role o; custom_role := custom_role o; task := task o;
     audience := audience o; constraints := constraints o;
     delimiters := delimiters o; output_format := output_format o;
     json_schema := json_schema o; additional_context := additional_context o;
     eagerness := eagerness o; reasoning_effort := reasoning_effort o;
     include_tool_preamble := include_tool_preamble o;
     include_persistence := include_persistence o;
     include_progress_narration := include_progress_narration o;
     include_tool_disambiguation := include_tool_disambiguation o;
     tool_context := tool_context o; coding_mode := coding_mode o;
     include_planning := v; planning_snippet := planning_snippet o;
     include_apply_patch_instr := include_apply_patch_instr o;
     include_tool_defs := include_tool_defs o; coding_notes := coding_notes o;
     verbosity := verbosity o; verbosity_override := verbosity_override o;
     markdown_guidance := markdown_guidance o;
     ask_brief_rationale := ask_brief_rationale o; meta_mode := meta_mode o;
     meta_prompt := meta_prompt o; meta_desired := meta_desired o;
     meta_undesired := meta_undesired o; examples := examples o;
     variables := variables o; include_swe_bench := include_swe_bench o;
     include_retail_min_reason := include_retail_min_reason o |}.

Definition set_include_tool_defs (v : bool) (o : PromptOptions) : PromptOptions :=
  {| role := role o; custom_role := custom_role o; task := task o;
     audience := audience o; constraints := constraints o;
     delimiters := delimiters o; output_format := output_format o;
     json_schema := json_schema o; additional_context := additional_context o;
     eagerness := eagerness o; reasoning_effort := reasoning_effort o;
     include_tool_preamble := include_tool_preamble o;
     include_persistence := include_persistence o;
     include_progress_narration := include_progress_narration o;
     include_tool_disambiguation := include_tool_disambiguation o;
     tool_context := tool_context o; coding_mode := coding_mode o;
     include_planning := include_planning o;
     planning_snippet := planning_snippet o;
     include_apply_patch_instr := include_apply_patch_instr o;
     include_tool_defs := v; coding_notes := coding_notes o;
     verbosity := verbosity o; verbosity_override := verbosity_override o;
     markdown_guidance := markdown_guidance o;
     ask_brief_rationale := ask_brief_rationale o; meta_mode := meta_mode o;
     meta_prompt := meta_prompt o; meta_desired := meta_desired o;
     meta_undesired := meta_undesired o; examples := examples o;
     variables := variables o; include_swe_bench := include_swe_bench o;
     include_retail_min_reason := include_retail_min_reason o |}.

Definition set_planning_snippet (v : pystr) (o : PromptOptions) : PromptOptions :=
  {| role := role o; custom_role := custom_role o; task := task o;
     audience := audience o; constraints := constraints o;
     delimiters := delimiters o; output_format := output_format o;
     json_schema := json_schema o; additional_context := additional_context o;
     eagerness := eagerness o; reasoning_effort := reasoning_effort o;
     include_tool_preamble := include_tool_preamble o;
     include_persistence := include_persistence o;
     include_progress_narration := include_progress_narration o;
     include_tool_disambiguation := include_tool_disambiguation o;
     tool_context := tool_context o; coding_mode := coding_mode o;
     include_planning := include_planning o; planning_snippet := v;
     include_apply_patch_instr := include_apply_patch_instr o;
     include_tool_defs := include_tool_defs o; coding_notes := coding_notes o;
     verbosity := verbosity o; verbosity_override := verbosity_override o;
     markdown_guidance := markdown_guidance o;
     ask_brief_rationale := ask_brief_rationale o; meta_mode := meta_mode o;
     meta_prompt := meta_prompt o; meta_desired := meta_desired o;
     meta_undesired := meta_undesired o; examples := examples o;
     variables := variables o; include_swe_bench := include_swe_bench o;
     include_retail_min_reason := include_retail_min_reason o |}.

Definition set_constraints (v : pystr) (o : PromptOptions) : PromptOptions :=
  {| role := role o; custom_role := custom_role o; task := task o;
     audience := audience o; constraints := v; delimiters := delimiters o;
     output_format := output_format o; json_schema := json_schema o;
     additional_context := additional_context o; eagerness := eagerness o;
     reasoning_effort := reasoning_effort o;
     include_tool_preamble := include_tool_preamble o;
     include_persistence := include_persistence o;
     include_progress_narration := include_progress_narration o;
     include_tool_disambiguation := include_tool_disambiguation o;
     tool_context := tool_context o; coding_mode := coding_mode o;
     include_planning := include_planning o;
     planning_snippet := planning_snippet o;
     include_apply_patch_instr := include_apply_patch_instr o;
     include_tool_defs := include_tool_defs o; coding_notes := coding_notes o;
     verbosity := verbosity o; verbosity_override := verbosity_override o;
     markdown_guidance := markdown_guidance o;
     ask_brief_rationale := ask_brief_rationale o; meta_mode := meta_mode o;
     meta_prompt := meta_prompt o; meta_desired := meta_desired o;
     meta_undesired := meta_undesired o; examples := examples o;
     variables := variables o; include_swe_bench := include_swe_bench o;
     include_retail_min_reason := include_retail_min_reason o |}.

(** ** [safe_json] *)





(** ** Reading the tables of the window *)

(** A table row: the two cells, each holding an item or not. *)
Definition cell_text (item : option pystr) : pystr :=
  match item with
  | Some t => t
  | None => []
  end.

(** The few-shot loop of [_collect_options]: its body and the loop. *)
Definition collect_example (exs : list (pystr * pystr))
    (row : option pystr * option pystr) : list (pystr * pystr) :=
  let u := cell_text (fst row) in
  let a := cell_text (snd row) in
  if truthy (strip u) || truthy (strip a) then exs ++ [(u, a)] else exs.

Definition collect_examples (rows : list (option pystr * option pystr))
    : list (pystr * pystr) :=
  fold_left collect_example rows [].

(** The variables loop of [_collect_options]: its body and the loop. *)
Definition collect_variable (vars : gmap (list N) (list N))
    (row : option pystr * option pystr) : gmap (list N) (list N) :=
  match row with
  | (Some k_text, Some v) =>
      let k := strip k_text in
      if truthy k then <[k := v]> vars else vars
  | _ => vars
  end.

Definition collect_variables (rows : list (option pystr * option pystr))
    : gmap (list N) (list N) :=
  fold_left collect_variable rows ∅.

(** The rows [_apply_options] writes into the two tables. *)
Definition example_rows (exs : list (pystr * pystr))
    : list (option pystr * option pystr) :=
  (fun ex => (Some (fst ex), Some (snd ex))) <$> exs.

Definition variable_rows (vars : gmap (list N) (list N))
    : list (option pystr * option pystr) :=
  (fun kv => (Some (fst kv), Some (snd kv))) <$> map_to_list vars.

(** [_del_example_row] and [_del_var_row]: the selected row numbers, each
    once and in descending order, are removed one after the other. *)
Definition selected_rows (sel : list nat) : list nat :=
  @merge_sort nat ge (fun a b => decide (b <= a)%nat) (remove_dups sel).

Definition _del_rows {A : Type} (sel : list nat) (table : list A) : list A :=
  fold_left (fun t r => delete r t) (selected_rows sel) table.

(** ** Presets *)

(** The record [_apply_preset] hands to [_apply_options]. *)
Definition _apply_preset (which : pystr) : PromptOptions :=
  let o := default_options in
  if eqb which (str "General task") then
    let o := set_role (str "General assistant") o in
    let o := set_markdown_guidance true o in
    let o := set_verbosity (str "Medium") o in
    let o := set_eagerness (str "Medium") o in
    let o := set_delimiters (str "triple backticks") o in
    o
  else if eqb which (str "Agentic low-eagerness") then
    let o := set_include_persistence true o in
    let o := set_include_tool_preamble true o in
    let o := set_eagerness (str "Low") o in
    let o := set_reasoning_effort (str "Minimal") o in
    let o := set_ask_brief_rationale false o in
    let o := set_markdown_guidance true o in
    let o := set_verbosity (str "Low") o in
    o
  else if eqb which (str "Agentic high-eagerness") then
    let o := set_include_persistence true o in
    let o := set_include_tool_preamble true o in
    let o := set_include_progress_narration true o in
    let o := set_include_tool_disambiguation true o in
    let o := set_eagerness (str "High") o in
    let o := set_reasoning_effort (str "Medium") o in
    let o := set_markdown_guidance true o in
    let o := set_verbosity (str "Medium") o in
    o
  else if eqb which (str "Coding workflow") then
    let o := set_role (str "Coding assistant") o in
    let o := set_coding_mode true o in
    let o := set_include_planning true o in
    let o := set_include_apply_patch_instr true o in
    let o := set_include_tool_defs true o in
    let o := set_markdown_guidance true o in
    let o := set_verbosity (str "Medium") o in
    let o := set_reasoning_effort (str "Medium") o in
    let o := set_include_persistence true o in
    let o := set_eagerness (str "Medium") o in
    o
  else if eqb which (str "Metaprompt optimizer") then
    let o := set_meta_mode true o in
    let o := set_verbosity (str "Low") o in
    let o := set_markdown_guidance false o in
    let o := set_eagerness (str "Low") o in
    o
  else o.

(** The values the selectors of the window offer. *)
Definition role_choices : list pystr :=
  [str "General assistant"; str "Coding assistant"; str "Data analyst";
   str "Writing coach"; str "Custom"].
Definition delimiter_choices : list pystr :=
  [str "triple backticks"; str "triple quotes"; str "XML tags"].
Definition output_format_choices : list pystr :=
  [str "Plain text"; str "Markdown"; str "JSON"].
Definition eagerness_choices : list pystr := [str "Low"; str "Medium"; str "High"].
Definition verbosity_choices : list pystr :=
  [str "Default"; str "Low"; str "Medium"; str "High"].

(** ** Auxiliary notions for the further statements *)

(** A Windows host, where [os.linesep] is a carriage return and a newline. *)
Definition windows : Runtime := {| lower := ascii_lower; linesep := [13; 10] |}.

Definition nonspace (c : N) : bool := negb (isspace c).

(** An example with a text that is not blank. *)
Definition keeps_example (ex : pystr * pystr) : bool :=
  nonblank (fst ex) || nonblank (snd ex).

(** The lines of a text: [s.split("\n")]. *)
Fixpoint split_lines (s : pystr) : list pystr :=
  match s with
  | [] => [[]]
  | c :: s' =>
      if is_nl c then [] :: split_lines s'
      else match split_lines s' with
           | l :: ls => (c :: l) :: ls
           | [] => [[c]]
           end
  end.

(** The rows of a table that stay when the rows numbered in [sel] go;
    [i] is the number of the first row of [table]. *)
Fixpoint unselected {A : Type} (sel : list nat) (i : nat) (table : list A) : list A :=
  match table with
  | [] => []
  | x :: table' =>
      if bool_decide (i ∈ sel) then unselected sel (S i) table'
      else x :: unselected sel (S i) table'
  end.



(** * Properties *)

(** ** The embedding on concrete inputs *)

Example clamp_text_example :
  clamp_text (str "  a" ++ [nl; nl; nl; nl] ++ str "b " ++ [nl])
  = str "a" ++ [nl; nl] ++ str "b".
Proof. vm_compute. reflexivity. Qed.

Example replace_vars_example :
  replace_vars (str "{{X} and {Y} {} {Z {a-b}") {[ str "X" := str "{Y}" ]}
  = str "{{Y} and {Y} {} {Z {a-b}".
Proof. vm_compute. reflexivity. Qed.

Example replace_example :
  replace (str "a" ++ [nl] ++ str "b" ++ [nl] ++ str "c") [nl] ([nl] ++ str "- ")
  = str "a" ++ [nl] ++ str "- b" ++ [nl] ++ str "- c".
Proof. vm_compute. reflexivity. Qed.

Example examples_block_example :
  _examples_block
    (set_examples [(str " hi ", str "ho"); (str "x", [])]
       (set_delimiters (str "XML tags") default_options))
  = str "Few-shot examples:" ++ [nl]
    ++ str "Example 1 - user <content>" ++ [nl] ++ str "hi" ++ [nl] ++ str "</content>" ++ [nl]
    ++ str "Example 1 - assistant <content>" ++ [nl] ++ str "ho" ++ [nl] ++ str "</content>" ++ [nl]
    ++ str "Example 2 - user <content>" ++ [nl] ++ str "x" ++ [nl] ++ str "</content>" ++ [nl]
    ++ str "Example 2 - assistant <content>" ++ [nl] ++ [nl] ++ str "</content>".
Proof. vm_compute. reflexivity. Qed.

Example init_unknown_key_example :
  PromptOptions_init {[ str "tusk" := PStr (str "x") ]} = None.
Proof. vm_compute. reflexivity. Qed.

(** ** The scan of [re.sub] *)

Section ReSub.
Context {M : Type} (pat : pystr -> option (M * pystr)) (repl : M -> pystr).
Hypothesis pat_consuming : Re.consuming pat.

Lemma sub_fuel_irrelevant (f1 f2 : nat) (s : pystr) :
  (length s <= f1)%nat -> (length s <= f2)%nat ->
  Re.sub_fuel pat repl f1 s = Re.sub_fuel pat repl f2 s.
Proof.
  revert f2 s. induction f1 as [|f1 IH]; intros f2 s H1 H2.
  - destruct s; [|simpl in H1; lia].
    destruct f2; simpl; [reflexivity|].
    destruct (pat []) as [[m rest]|] eqn:E; [|reflexivity].
    apply pat_consuming in E. simpl in E. lia.
  - destruct f2 as [|f2].
    + destruct s; [|simpl in H2; lia]. simpl.
      destruct (pat []) as [[m rest]|] eqn:E; [|reflexivity].
      apply pat_consuming in E. simpl in E. lia.
    + simpl. destruct (pat s) as [[m rest]|] eqn:E.
      * apply pat_consuming in E. f_equal. apply IH; lia.
      * destruct s as [|c s']; [reflexivity|]. simpl in H1, H2.
        f_equal. apply IH; lia.
Qed.

(** The fuel [length s] is enough: [Re.sub] satisfies the equation of the
    scan. *)
Lemma sub_unfold (s : pystr) :
  Re.sub pat repl s =
  match pat s with
  | Some (m, rest) => repl m ++ Re.sub pat repl rest
  | None => match s with
            | [] => []
            | c :: s' => c :: Re.sub pat repl s'
            end
  end.
Proof.
  unfold Re.sub. destruct s as [|c s'].
  - simpl. destruct (pat []) as [[m rest]|] eqn:E; [|reflexivity].
    apply pat_consuming in E. simpl in E. lia.
  - simpl length. simpl Re.sub_fuel.
    destruct (pat (c :: s')) as [[m rest]|] eqn:E.
    + apply pat_consuming in E. simpl in E. f_equal.
      apply sub_fuel_irrelevant; lia.
    + reflexivity.
Qed.

End ReSub.

(** ** Prefixes and suffixes selected by a character class *)

Lemma take_drop_while (p : N -> bool) (s : pystr) :
  take_while p s ++ drop_while p s = s.
Proof.
  induction s as [|c s IH]; simpl; [reflexivity|].
  destruct (p c); simpl; [now rewrite IH | reflexivity].
Qed.

Lemma drop_while_head (p : N -> bool) (s : pystr) (c : N) (t : pystr) :
  drop_while p s = c :: t -> p c = false.
Proof.
  induction s as [|d s IH]; simpl; [discriminate|].
  destruct (p d) eqn:E; [exact IH|]. intros [= <- _]. exact E.
Qed.

Lemma drop_while_fixed (p : N -> bool) (s : pystr) :
  take_while p s = [] -> drop_while p s = s.
Proof. destruct s as [|c s]; simpl; [reflexivity|]. now destruct (p c). Qed.

Lemma take_while_drop_while (p : N -> bool) (s : pystr) :
  take_while p (drop_while p s) = [].
Proof.
  induction s as [|c s IH]; simpl; [reflexivity|].
  destruct (p c) eqn:E; [exact IH|]. simpl. now rewrite E.
Qed.

Lemma drop_while_idem (p : N -> bool) (s : pystr) :
  drop_while p (drop_while p s) = drop_while p s.
Proof. apply drop_while_fixed, take_while_drop_while. Qed.

Lemma take_while_nil_head (p : N -> bool) (c : N) (s : pystr) :
  take_while p (c :: s) = [] -> p c = false.
Proof. simpl. now destruct (p c). Qed.

Lemma take_while_app_stop (p : N -> bool) (a b : pystr) :
  take_while p b = [] -> take_while p (a ++ b) = take_while p a.
Proof.
  intros Hb. induction a as [|c a IH]; simpl; [exact Hb|].
  destruct (p c); [now rewrite IH | reflexivity].
Qed.

Lemma drop_while_app_stop (p : N -> bool) (a b : pystr) :
  take_while p b = [] -> drop_while p (a ++ b) = drop_while p a ++ b.
Proof.
  intros Hb. induction a as [|c a IH]; simpl.
  - now apply drop_while_fixed.
  - destruct (p c); [exact IH | reflexivity].
Qed.

Lemma take_while_all (p : N -> bool) (a : pystr) :
  forallb p a = true -> take_while p a = a /\ drop_while p a = [].
Proof.
  induction a as [|c a IH]; simpl; [now split|].
  destruct (p c); simpl; [|discriminate].
  intros H. destruct (IH H) as [-> ->]. now split.
Qed.

Lemma take_while_forallb (p : N -> bool) (s : pystr) :
  forallb p (take_while p s) = true.
Proof.
  induction s as [|c s IH]; simpl; [reflexivity|].
  destruct (p c) eqn:E; simpl; [now rewrite E | reflexivity].
Qed.

Lemma is_nl_true (c : N) : is_nl c = true -> c = nl.
Proof. unfold is_nl. apply N.eqb_eq. Qed.

Lemma take_while_nl_repeat (s : pystr) :
  take_while is_nl s = repeat nl (length (take_while is_nl s)).
Proof.
  induction s as [|c s IH]; simpl; [reflexivity|].
  destruct (is_nl c) eqn:E; simpl; [|reflexivity].
  apply is_nl_true in E. subst c. now rewrite <- IH.
Qed.

Lemma forallb_repeat_nl (n : nat) : forallb is_nl (repeat nl n) = true.
Proof. induction n; simpl; [reflexivity | exact IHn]. Qed.

(** Every string is empty, starts with a character that is not a newline,
    or starts with a maximal non-empty run of newlines. *)
Lemma newline_run_ind (P : pystr -> Prop) :
  P [] ->
  (forall c s, is_nl c = false -> P s -> P (c :: s)) ->
  (forall n rest, (1 <= n)%nat -> take_while is_nl rest = [] -> P rest ->
                  P (repeat nl n ++ rest)) ->
  forall s, P s.
Proof.
  intros Hnil Hcons Hrun s.
  remember (length s) as k eqn:Hk.
  revert s Hk. induction k as [k IH] using lt_wf_ind. intros s Hk.
  destruct s as [|c s']; [exact Hnil|].
  destruct (is_nl c) eqn:E.
  - pose proof (take_drop_while is_nl (c :: s')) as Hsplit.
    rewrite <- Hsplit, take_while_nl_repeat.
    assert (Hlen : (1 <= length (take_while is_nl (c :: s')))%nat).
    { simpl. rewrite E. simpl. lia. }
    apply Hrun; [exact Hlen | apply take_while_drop_while |].
    apply (IH (length (drop_while is_nl (c :: s')))); [|reflexivity].
    subst k. rewrite <- Hsplit at 2. rewrite length_app. lia.
  - apply Hcons; [exact E|].
    apply (IH (length s')); [subst k; simpl; lia | reflexivity].
Qed.

(** ** Collapsing runs of newlines *)

Lemma pat_newlines_consuming : Re.consuming Re.pat_newlines.
Proof.
  intros s m rest. unfold Re.pat_newlines.
  destruct (3 <=? length (take_while is_nl s))%nat eqn:E; [|discriminate].
  intros [= _ <-]. apply Nat.leb_le in E.
  rewrite <- (take_drop_while is_nl s) at 2. rewrite length_app. lia.
Qed.

Lemma collapse_unfold (s : pystr) :
  collapse s =
  match Re.pat_newlines s with
  | Some (_, rest) => [nl; nl] ++ collapse rest
  | None => match s with
            | [] => []
            | c :: s' => c :: collapse s'
            end
  end.
Proof.
  unfold collapse. rewrite (sub_unfold _ _ pat_newlines_consuming) at 1.
  destruct (Re.pat_newlines s) as [[m rest]|]; reflexivity.
Qed.

Lemma collapse_nil : collapse [] = [].
Proof. reflexivity. Qed.

Lemma collapse_cons (c : N) (s : pystr) :
  is_nl c = false -> collapse (c :: s) = c :: collapse s.
Proof.
  intros E. rewrite collapse_unfold. unfold Re.pat_newlines. simpl.
  now rewrite E.
Qed.

Lemma collapse_run (n : nat) (rest : pystr) :
  take_while is_nl rest = [] ->
  collapse (repeat nl n ++ rest) = repeat nl (Nat.min n 2) ++ collapse rest.
Proof.
  intros Hrest.
  assert (Hpat : forall k, Re.pat_newlines (repeat nl k ++ rest) =
                   if (3 <=? k)%nat then Some (repeat nl k, rest) else None).
  { intros k. unfold Re.pat_newlines.
    rewrite (take_while_app_stop _ _ _ Hrest), (drop_while_app_stop _ _ _ Hrest).
    destruct (take_while_all is_nl _ (forallb_repeat_nl k)) as [-> ->].
    rewrite repeat_length. reflexivity. }
  destruct n as [|[|[|n]]].
  - reflexivity.
  - rewrite (collapse_unfold (repeat nl 1 ++ rest)), (Hpat 1%nat). reflexivity.
  - rewrite (collapse_unfold (repeat nl 2 ++ rest)), (Hpat 2%nat).
    change (repeat nl 2 ++ rest) with (nl :: repeat nl 1 ++ rest). cbv iota beta.
    rewrite (collapse_unfold (repeat nl 1 ++ rest)), (Hpat 1%nat). reflexivity.
  - rewrite (collapse_unfold (repeat nl (S (S (S n))) ++ rest)), (Hpat (S (S (S n)))).
    reflexivity.
Qed.

Lemma collapse_head (s : pystr) :
  take_while is_nl s = [] -> take_while is_nl (collapse s) = [].
Proof.
  destruct s as [|c s]; [reflexivity|]. intros H.
  apply take_while_nil_head in H. rewrite (collapse_cons _ _ H). simpl.
  now rewrite H.
Qed.

Lemma no_triple_nl_run (k : nat) (x : pystr) :
  (k <= 2)%nat -> take_while is_nl x = [] -> no_triple_nl x = true ->
  no_triple_nl (repeat nl k ++ x) = true.
Proof.
  intros Hk Hx Hnt.
  assert (Hhd : match x with c :: _ => is_nl c = false | [] => True end).
  { destruct x; [exact I|]. now apply take_while_nil_head in Hx. }
  destruct k as [|[|[|k]]]; [exact Hnt | | | lia];
    destruct x as [|c [|d x']]; simpl in *;
    rewrite ?Hhd in *; simpl in *; rewrite ?andb_false_r; simpl;
    try reflexivity; exact Hnt.
Qed.

Lemma no_triple_nl_collapse (s : pystr) : no_triple_nl (collapse s) = true.
Proof.
  induction s as [|c s E IH|n rest Hn Hrest IH] using newline_run_ind.
  - reflexivity.
  - rewrite (collapse_cons _ _ E). simpl. now rewrite E, IH.
  - rewrite (collapse_run _ _ Hrest).
    apply no_triple_nl_run; [lia | now apply collapse_head | exact IH].
Qed.

Lemma no_triple_nl_suffix (a b : pystr) :
  no_triple_nl (a ++ b) = true -> no_triple_nl b = true.
Proof.
  induction a as [|c a IH]; simpl; [tauto|].
  intros H. apply andb_true_iff in H. tauto.
Qed.

Lemma no_triple_nl_prefix (a b : pystr) :
  no_triple_nl (a ++ b) = true -> no_triple_nl a = true.
Proof.
  induction a as [|c a IH]; simpl; [reflexivity|].
  intros H. apply andb_true_iff in H. destruct H as [H1 H2].
  rewrite (IH H2), andb_true_r.
  destruct a as [|d [|e a]]; simpl in *; rewrite ?andb_false_r; try reflexivity.
  exact H1.
Qed.

Lemma collapse_fixed (s : pystr) : no_triple_nl s = true -> collapse s = s.
Proof.
  induction s as [|c s E IH|n rest Hn Hrest IH] using newline_run_ind.
  - reflexivity.
  - intros H. rewrite (collapse_cons _ _ E). f_equal. apply IH.
    simpl in H. apply andb_true_iff in H. tauto.
  - intros H. rewrite (collapse_run _ _ Hrest).
    rewrite (IH (no_triple_nl_suffix _ _ H)).
    destruct n as [|[|[|n]]]; try reflexivity.
    simpl in H. discriminate H.
Qed.

(** ** [strip] *)

Lemma rstrip_split (s : pystr) :
  rstrip s ++ rev (take_while isspace (rev s)) = s.
Proof.
  unfold rstrip. rewrite <- rev_app_distr, take_drop_while. apply rev_involutive.
Qed.

Lemma strip_split (s : pystr) :
  take_while isspace s ++ strip s ++ rev (take_while isspace (rev (lstrip s))) = s.
Proof.
  unfold strip. rewrite rstrip_split. apply take_drop_while.
Qed.

Lemma lstrip_fixed_head (c : N) (s : pystr) :
  isspace c = false -> lstrip (c :: s) = c :: s.
Proof. intros E. unfold lstrip. simpl. now rewrite E. Qed.

Lemma rstrip_idem (s : pystr) : rstrip (rstrip s) = rstrip s.
Proof. unfold rstrip. now rewrite rev_involutive, drop_while_idem. Qed.

Lemma lstrip_strip (s : pystr) : lstrip (strip s) = strip s.
Proof.
  unfold strip.
  destruct (rstrip (lstrip s)) as [|c t] eqn:E; [reflexivity|].
  apply lstrip_fixed_head.
  pose proof (rstrip_split (lstrip s)) as H. rewrite E in H. simpl in H.
  symmetry in H. apply (drop_while_head _ _ _ _ H).
Qed.

Lemma rstrip_strip (s : pystr) : rstrip (strip s) = strip s.
Proof. unfold strip. apply rstrip_idem. Qed.

Lemma strip_idem (s : pystr) : strip (strip s) = strip s.
Proof. unfold strip at 1. now rewrite lstrip_strip, rstrip_strip. Qed.

Lemma no_triple_nl_strip (s : pystr) :
  no_triple_nl s = true -> no_triple_nl (strip s) = true.
Proof.
  intros H. rewrite <- (strip_split s) in H.
  apply no_triple_nl_suffix in H. now apply no_triple_nl_prefix in H.
Qed.

(** ** [clamp_text] *)

Lemma clamp_text_eq (s : pystr) : clamp_text s = strip (collapse s).
Proof. reflexivity. Qed.

Lemma no_triple_nl_clamp (s : pystr) : no_triple_nl (clamp_text s) = true.
Proof. rewrite clamp_text_eq. apply no_triple_nl_strip, no_triple_nl_collapse. Qed.

Lemma clamp_text_fixed (s : pystr) :
  no_triple_nl s = true -> strip s = s -> clamp_text s = s.
Proof. intros H1 H2. now rewrite clamp_text_eq, (collapse_fixed _ H1). Qed.

(** C5. Normalization is idempotent: clamping an already clamped string
    returns it unchanged, for every string. *)
Theorem clamp_text_idempotent (s : pystr) :
  clamp_text (clamp_text s) = clamp_text s.
Proof.
  apply clamp_text_fixed; [apply no_triple_nl_clamp|].
  rewrite clamp_text_eq. apply strip_idem.
Qed.

(** ** Placeholder substitution *)

Lemma pat_var_Some (s g0 k rest : pystr) :
  Re.pat_var s = Some ((g0, k), rest) ->
  s = g0 ++ rest /\ g0 = lbrace :: k ++ [rbrace] /\ k <> [] /\
  forallb is_ident k = true.
Proof.
  unfold Re.pat_var. destruct s as [|c s1]; [discriminate|].
  destruct (c =? lbrace) eqn:Ec; [|discriminate].
  apply N.eqb_eq in Ec. subst c.
  pose proof (take_drop_while is_ident s1) as Hsplit.
  pose proof (take_while_forallb is_ident s1) as Hall.
  destruct (take_while is_ident s1) as [|k0 k'] eqn:Ek; [discriminate|].
  destruct (drop_while is_ident s1) as [|c' rest'] eqn:Ed; [discriminate|].
  destruct (c' =? rbrace) eqn:Er; [|discriminate].
  apply N.eqb_eq in Er. subst c'.
  intros [= <- <- <-]. repeat split; try done.
  rewrite <- Hsplit. simpl. now rewrite <- app_assoc.
Qed.

Lemma pat_var_consuming : Re.consuming Re.pat_var.
Proof.
  intros s [g0 k] rest H. apply pat_var_Some in H.
  destruct H as (-> & -> & _ & _). simpl. rewrite !length_app. simpl. lia.
Qed.

Lemma replace_vars_unfold (s : pystr) (mapping : gmap (list N) (list N)) :
  replace_vars s mapping =
  match Re.pat_var s with
  | Some (m, rest) => repl mapping m ++ replace_vars rest mapping
  | None => match s with
            | [] => []
            | c :: s' => c :: replace_vars s' mapping
            end
  end.
Proof.
  unfold replace_vars. rewrite (sub_unfold _ _ pat_var_consuming) at 1.
  reflexivity.
Qed.

Lemma is_ident_lbrace : is_ident lbrace = false.
Proof. reflexivity. Qed.

(** At a well-formed token the pattern matches. *)
Lemma pat_var_token (k b : pystr) :
  k <> [] -> forallb is_ident k = true ->
  Re.pat_var (lbrace :: k ++ rbrace :: b) = Some ((lbrace :: k ++ [rbrace], k), b).
Proof.
  intros Hk Hid. unfold Re.pat_var. rewrite N.eqb_refl.
  assert (Hstop : take_while is_ident (rbrace :: b) = []) by reflexivity.
  rewrite (take_while_app_stop _ _ _ Hstop), (drop_while_app_stop _ _ _ Hstop).
  destruct (take_while_all _ _ Hid) as [-> ->].
  destruct k; [congruence|]. simpl. reflexivity.
Qed.

(** A match that starts before an opening brace ends before it. *)
Lemma pat_var_app (a t : pystr) :
  a <> [] ->
  Re.pat_var (a ++ lbrace :: t) =
  match Re.pat_var a with
  | Some (m, rest) => Some (m, rest ++ lbrace :: t)
  | None => None
  end.
Proof.
  intros Ha. destruct a as [|c a']; [congruence|].
  unfold Re.pat_var. simpl.
  destruct (c =? lbrace); [|reflexivity].
  assert (Hstop : take_while is_ident (lbrace :: t) = []) by reflexivity.
  rewrite (take_while_app_stop _ _ _ Hstop), (drop_while_app_stop _ _ _ Hstop).
  destruct (take_while is_ident a') as [|k0 k'].
  - reflexivity.
  - destruct (drop_while is_ident a') as [|c' rest']; simpl; [reflexivity|].
    destruct (c' =? rbrace); reflexivity.
Qed.

(** Substitution is done token by token: the text before a well-formed
    token and the text after it are substituted independently, and the
    token's replacement is inserted as it is. *)
Lemma replace_vars_token (a k b : pystr) (mapping : gmap (list N) (list N)) :
  k <> [] -> forallb is_ident k = true ->
  replace_vars (a ++ lbrace :: k ++ rbrace :: b) mapping =
  replace_vars a mapping
  ++ repl mapping (lbrace :: k ++ [rbrace], k)
  ++ replace_vars b mapping.
Proof.
  intros Hk Hid.
  remember (length a) as n eqn:Hn. revert a Hn.
  induction n as [n IH] using lt_wf_ind. intros a Hn.
  destruct a as [|c a'].
  - simpl. rewrite (replace_vars_unfold (lbrace :: _)), (pat_var_token _ _ Hk Hid).
    reflexivity.
  - rewrite (replace_vars_unfold ((c :: a') ++ _)), (replace_vars_unfold (c :: a')).
    rewrite pat_var_app by discriminate.
    destruct (Re.pat_var (c :: a')) as [[m rest]|] eqn:E.
    + apply pat_var_consuming in E.
      rewrite (IH (length rest)); [|subst n; exact E|reflexivity].
      now rewrite <- app_assoc.
    + simpl. f_equal. apply (IH (length a')); [subst n; simpl; lia|reflexivity].
Qed.

(** With no variable bound nothing changes. *)
Lemma replace_vars_empty (s : pystr) : replace_vars s ∅ = s.
Proof.
  remember (length s) as n eqn:Hn. revert s Hn.
  induction n as [n IH] using lt_wf_ind. intros s Hn.
  rewrite replace_vars_unfold.
  destruct (Re.pat_var s) as [[[g0 k] rest]|] eqn:E.
  - pose proof (pat_var_consuming _ _ _ E) as Hlt.
    apply pat_var_Some in E. destruct E as (-> & _ & _ & _).
    unfold repl. rewrite lookup_empty. simpl. f_equal.
    apply (IH (length rest)); [subst n; exact Hlt|reflexivity].
  - destruct s as [|c s']; [reflexivity|]. f_equal.
    apply (IH (length s')); [subst n; simpl; lia|reflexivity].
Qed.



(** ** Shape of a normalized string *)

Lemma no_triple_nl_sound (s a b : pystr) :
  no_triple_nl s = true -> s <> a ++ [nl; nl; nl] ++ b.
Proof.
  intros H ->. apply no_triple_nl_suffix in H. simpl in H. discriminate H.
Qed.

Lemma strip_head (s : pystr) (c : N) (t : pystr) :
  strip s = c :: t -> isspace c = false.
Proof.
  intros H. pose proof (lstrip_strip s) as Hl. rewrite H in Hl.
  unfold lstrip in Hl. simpl in Hl.
  destruct (isspace c) eqn:E; [|reflexivity].
  pose proof (take_drop_while isspace t) as Hsplit.
  rewrite Hl in Hsplit. apply (f_equal length) in Hsplit.
  rewrite length_app in Hsplit. simpl in Hsplit. lia.
Qed.

Lemma strip_last (s : pystr) (c : N) (t : pystr) :
  strip s = t ++ [c] -> isspace c = false.
Proof.
  intros H. pose proof (rstrip_strip s) as Hr. rewrite H in Hr.
  unfold rstrip in Hr. rewrite rev_app_distr in Hr. simpl in Hr.
  destruct (isspace c) eqn:E; [|reflexivity].
  apply (f_equal (@rev N)) in Hr. rewrite rev_involutive, rev_app_distr in Hr.
  simpl in Hr.
  pose proof (take_drop_while isspace (rev t)) as Hsplit.
  rewrite Hr in Hsplit. apply (f_equal length) in Hsplit.
  rewrite length_app in Hsplit. simpl in Hsplit. lia.
Qed.

(** ** The assembled prompt *)

Section Assembler.
Context {R : Runtime}.

(** C1 (as the code has it). The default record does not build to the role
    line alone: the agentic-controls block always contributes its eagerness
    sentence, so the result is the role line, a blank line and the
    medium-eagerness sentence. *)
Theorem build_default_options :
  build default_options =
  str "You are General assistant." ++ [nl; nl]
  ++ str "Agentic eagerness: medium. Balance proactivity with directness.".
Proof. vm_compute. reflexivity. Qed.

(** C2 (as the code has it). In meta mode the result is determined by the
    meta fields together with the resolved delimiter pair and the variable
    mapping; no other field has any influence. *)
Theorem build_meta_mode_determined (o1 o2 : PromptOptions) :
  meta_mode o1 = true -> meta_mode o2 = true ->
  meta_prompt o1 = meta_prompt o2 ->
  meta_desired o1 = meta_desired o2 ->
  meta_undesired o1 = meta_undesired o2 ->
  _delim o1 = _delim o2 ->
  variables o1 = variables o2 ->
  build o1 = build o2.
Proof.
  intros M1 M2 Hp Hd Hu Hdel Hv. unfold build. rewrite M1, M2, Hv.
  unfold _meta_prompt. now rewrite Hp, Hd, Hu, Hdel.
Qed.

(** C4 (as the code has it). Outside meta mode the joined text is clamped
    and then substituted, with no normalization after the substitution; in
    meta mode the order is the opposite: the wrapper is substituted first
    and clamped last.  The last part shows a non-meta result that is not
    normalized because the inserted value is not clamped again. *)
Theorem build_final_steps (o : PromptOptions) :
  build o =
    (if meta_mode o
     then clamp_text (replace_vars (_meta_prompt o) (variables o))
     else replace_vars (clamp_text (joined o)) (variables o))
  /\ joined o = join [nl; nl] (List.filter (fun p => truthy (strip p)) (build_parts o))
  /\ no_triple_nl
       (build (set_task (str "{GAP}")
                 (set_variables {[ str "GAP" := [nl; nl; nl] ]} default_options)))
     = false.
Proof.
  split; [|split].
  - unfold build. destruct (meta_mode o); reflexivity.
  - reflexivity.
  - vm_compute. reflexivity.
Qed.

Lemma meta_prompt_embeds (o : PromptOptions) :
  (exists pre post, _meta_prompt o = pre ++ clamp_text (meta_prompt o) ++ post)
  /\ (exists pre post, _meta_prompt o = pre ++ clamp_text (meta_desired o) ++ post)
  /\ (exists pre post, _meta_prompt o = pre ++ clamp_text (meta_undesired o) ++ post).
Proof.
  unfold _meta_prompt. destruct (_delim o) as [open_d close_d].
  match goal with
  | |- context [join _ [?l0; ?d; ?u; ?p]] =>
      change (join [nl] [l0; d; u; p]) with (l0 ++ [nl] ++ d ++ [nl] ++ u ++ [nl] ++ p);
      generalize l0
  end.
  intros head.
  generalize (str "Prompt "), (str "Desired behavior: "), (str "Undesired behavior: "),
    (str "Desired behavior: (not provided)"), (str "Undesired behavior: (not provided)").
  intros lp ld lu nd nu.
  split; [|split].
  - match goal with
    | |- context [head ++ [nl] ++ ?d ++ [nl] ++ ?u ++ [nl] ++ _] =>
        exists (head ++ [nl] ++ d ++ [nl] ++ u ++ [nl] ++ lp ++ open_d ++ [nl]),
               ([nl] ++ close_d)
    end.
    repeat rewrite <- app_assoc. reflexivity.
  - destruct (clamp_text (meta_desired o)) as [|c x].
    + eexists [], _. reflexivity.
    + cbn [truthy].
      match goal with
      | |- context [head ++ [nl] ++ _ ++ [nl] ++ ?u ++ [nl] ++ ?p] =>
          exists (head ++ [nl] ++ ld), ([nl] ++ u ++ [nl] ++ p)
      end.
      repeat rewrite <- app_assoc. reflexivity.
  - destruct (clamp_text (meta_undesired o)) as [|c x].
    + eexists [], _. reflexivity.
    + cbn [truthy].
      match goal with
      | |- context [head ++ [nl] ++ ?d ++ [nl] ++ _ ++ [nl] ++ ?p] =>
          exists (head ++ [nl] ++ d ++ [nl] ++ lu), ([nl] ++ p)
      end.
      repeat rewrite <- app_assoc. reflexivity.
Qed.

(** C10. In meta mode the wrapper goes through the substitution pass and a
    final normalization: the wrapper holds the clamped meta prompt, desired
    and undesired texts, every placeholder in it is replaced when its name
    is bound, and the result neither starts nor ends with a whitespace
    character and has no three consecutive newlines. *)
Theorem build_meta_mode_normalized (o : PromptOptions) :
  meta_mode o = true ->
  build o = clamp_text (replace_vars (_meta_prompt o) (variables o))
  /\ (forall a k b,
        k <> [] -> forallb is_ident k = true ->
        _meta_prompt o = a ++ [lbrace] ++ k ++ [rbrace] ++ b ->
        build o = clamp_text (replace_vars a (variables o)
                              ++ match variables o !! k with
                                 | Some v => v
                                 | None => [lbrace] ++ k ++ [rbrace]
                                 end
                              ++ replace_vars b (variables o)))
  /\ ((exists pre post, _meta_prompt o = pre ++ clamp_text (meta_prompt o) ++ post)
      /\ (exists pre post, _meta_prompt o = pre ++ clamp_text (meta_desired o) ++ post)
      /\ (exists pre post, _meta_prompt o = pre ++ clamp_text (meta_undesired o) ++ post))
  /\ (forall c t, build o = c :: t -> isspace c = false)
  /\ (forall c t, build o = t ++ [c] -> isspace c = false)
  /\ (forall a b, build o <> a ++ [nl; nl; nl] ++ b)
  /\ clamp_text (build o) = build o.
Proof.
  intros M.
  assert (E : build o = clamp_text (replace_vars (_meta_prompt o) (variables o))).
  { unfold build. now rewrite M. }
  split; [exact E|]. split; [|split; [apply meta_prompt_embeds|]].
  - intros a k b Hk Hid Hw. rewrite E, Hw. f_equal.
    apply (replace_vars_token a k b (variables o) Hk Hid).
  - rewrite E. split; [|split; [|split]].
    + intros c t. apply strip_head.
    + intros c t. apply strip_last.
    + intros a b. apply no_triple_nl_sound, no_triple_nl_clamp.
    + apply clamp_text_fixed; [apply no_triple_nl_clamp|].
      rewrite clamp_text_eq. apply strip_idem.
Qed.

End Assembler.

(** ** Blank and non-blank parts *)

Lemma drop_while_snoc_stop (p : N -> bool) (a : pystr) (c : N) :
  p c = false -> drop_while p (a ++ [c]) <> [].
Proof.
  intros E. induction a as [|d a IH]; simpl.
  - now rewrite E.
  - destruct (p d); [exact IH | discriminate].
Qed.

Lemma nonblank_head (c : N) (s : pystr) :
  isspace c = false -> nonblank (c :: s) = true.
Proof.
  intros E. unfold nonblank, strip. rewrite (lstrip_fixed_head _ _ E).
  unfold rstrip. simpl rev.
  pose proof (drop_while_snoc_stop isspace (rev s) c E) as H.
  destruct (drop_while isspace (rev s ++ [c])) as [|d r]; [congruence|].
  simpl. now destruct (rev r ++ [d]) eqn:E'; [destruct (rev r); discriminate|].
Qed.

Lemma nonblank_prefix (a b : pystr) (c : N) (a' : pystr) :
  a = c :: a' -> isspace c = false -> nonblank (a ++ b) = true.
Proof. intros -> E. now apply nonblank_head. Qed.

Lemma nonblank_strip (p : pystr) : nonblank (strip p) = nonblank p.
Proof. unfold nonblank. now rewrite strip_idem. Qed.

Lemma build_parts_pieces (pieces acc : list pystr) :
  fold_left
    (fun parts piece => if truthy (strip piece) then parts ++ [strip piece] else parts)
    pieces acc
  = acc ++ List.filter nonblank (List.map strip pieces).
Proof.
  revert acc. induction pieces as [|p pieces IH]; intros acc; simpl.
  - now rewrite app_nil_r.
  - rewrite IH, nonblank_strip. unfold nonblank.
    destruct (truthy (strip p)); [now rewrite <- app_assoc | reflexivity].
Qed.

Section Sections.
Context {R : Runtime}.

Lemma nonblank_role_line (o : PromptOptions) : nonblank (_role_line o) = true.
Proof.
  unfold _role_line. eapply nonblank_prefix; reflexivity.
Qed.

(** The parts collected by [build] are the sections of the specification in
    their order, without the blank ones. *)
Lemma build_parts_sections (o : PromptOptions) :
  build_parts o = List.filter nonblank (sections o).
Proof.
  unfold build_parts, sections. rewrite build_parts_pieces.
  destruct (_delim o) as [open_d close_d]. cbn [fst snd].
  change (List.map strip ?l) with
    [strip (_audience_line o); strip (_constraints_block o);
     strip (_verbosity_block o); strip (_reasoning_block o);
     strip (_agentic_controls o); strip (_planning_block o);
     strip (_coding_block o); strip (_examples_block o);
     strip (_formatting_block o); strip (_appendix_block o)].
  set (pieces := [strip (_audience_line o); _; _; _; _; _; _; _; _; _]).
  set (rat := str "Begin the final answer with 1-3 concise bullets summarizing key factors. Do not include private chain-of-thought.").
  assert (Hrat : nonblank rat = true) by (vm_compute; reflexivity).
  assert (Htask : forall x, nonblank (str "Task " ++ x) = true)
    by (intros x; eapply nonblank_prefix; reflexivity).
  assert (Hctx : forall x, nonblank (str "Context " ++ x) = true)
    by (intros x; eapply nonblank_prefix; reflexivity).
  match goal with
  | |- _ = List.filter _ (?r :: ?t :: ?c :: ?rest) =>
      change (r :: t :: c :: rest) with ([r; t; c] ++ pieces ++ [if ask_brief_rationale o then rat else []])
  end.
  rewrite !List.filter_app. cbn [List.filter].
  rewrite nonblank_role_line.
  destruct (truthy (strip (task o))), (truthy (strip (additional_context o))),
    (ask_brief_rationale o);
    rewrite ?Htask, ?Hctx, ?Hrat; cbn [nonblank strip lstrip rstrip drop_while rev truthy app];
    rewrite <- ?app_assoc, ?app_nil_r; reflexivity.
Qed.

Lemma filter_nonblank_idem (l : list pystr) :
  List.filter nonblank (List.filter nonblank l) = List.filter nonblank l.
Proof.
  induction l as [|p l IH]; simpl; [reflexivity|].
  destruct (nonblank p) eqn:E; simpl; [now rewrite E, IH | exact IH].
Qed.

Lemma joined_sections (o : PromptOptions) :
  joined o = join [nl; nl] (List.filter nonblank (sections o)).
Proof.
  unfold joined. rewrite build_parts_sections.
  change (fun p => truthy (strip p)) with nonblank.
  now rewrite filter_nonblank_idem.
Qed.

End Sections.

(** ** Normalized text in a normalized frame *)

Lemma isspace_not_nl (c : N) : isspace c = false -> is_nl c = false.
Proof.
  intros H. destruct (is_nl c) eqn:E; [|reflexivity].
  apply is_nl_true in E. subst c. discriminate H.
Qed.

Lemma no_triple_nl_app_head (a : pystr) (c : N) (b : pystr) :
  is_nl c = false -> no_triple_nl a = true -> no_triple_nl (c :: b) = true ->
  no_triple_nl (a ++ c :: b) = true.
Proof.
  intros Ec Ha Hb. induction a as [|x a IH]; [exact Hb|].
  simpl in Ha. apply andb_true_iff in Ha. destruct Ha as [Hx Ha].
  change ((x :: a) ++ c :: b) with (x :: (a ++ c :: b)).
  cbn [no_triple_nl]. rewrite (IH Ha), andb_true_r.
  destruct a as [|y [|z a]]; cbn [app] in *; try exact Hx;
    destruct b; simpl; rewrite ?Ec; simpl; rewrite ?andb_false_r; reflexivity.
Qed.

Lemma no_triple_nl_app_last (a : pystr) (c : N) (b : pystr) :
  is_nl c = false -> no_triple_nl (a ++ [c]) = true -> no_triple_nl b = true ->
  no_triple_nl (a ++ c :: b) = true.
Proof.
  intros Ec Ha Hb. induction a as [|x a IH].
  - simpl. now rewrite Ec, Hb.
  - change ((x :: a) ++ [c]) with (x :: (a ++ [c])) in Ha.
    cbn [no_triple_nl] in Ha. apply andb_true_iff in Ha. destruct Ha as [Hx Ha].
    change ((x :: a) ++ c :: b) with (x :: (a ++ c :: b)).
    cbn [no_triple_nl]. rewrite (IH Ha), andb_true_r.
    destruct a as [|y [|z a]]; cbn [app] in *; try exact Hx;
      destruct b; simpl; rewrite ?Ec; simpl; rewrite ?andb_false_r; reflexivity.
Qed.

Lemma lstrip_head (c : N) (s : pystr) : lstrip (c :: s) = c :: s -> isspace c = false.
Proof. unfold lstrip. apply drop_while_head. Qed.

Lemma rstrip_last (s : pystr) (c : N) : rstrip (s ++ [c]) = s ++ [c] -> isspace c = false.
Proof.
  unfold rstrip. rewrite rev_app_distr. cbn [rev app]. intros H.
  apply (f_equal (@rev N)) in H. rewrite rev_involutive, rev_app_distr in H.
  cbn [rev app] in H. apply (drop_while_head _ _ _ _ H).
Qed.

Lemma rstrip_snoc (s : pystr) (c : N) : isspace c = false -> rstrip (s ++ [c]) = s ++ [c].
Proof.
  intros E. unfold rstrip. rewrite rev_app_distr. simpl. rewrite E.
  simpl. now rewrite rev_involutive.
Qed.

Lemma snoc_cases (s : pystr) : s = [] \/ exists s0 c, s = s0 ++ [c].
Proof.
  destruct s as [|c s] using rev_ind; [now left | right; eauto].
Qed.

Lemma no_triple_nl_wrap (a x b : pystr) :
  no_triple_nl (a ++ b) = true -> no_triple_nl x = true ->
  lstrip x = x -> rstrip x = x -> no_triple_nl (a ++ x ++ b) = true.
Proof.
  intros Hab Hx Hl Hr.
  destruct x as [|c x']; [exact Hab|].
  pose proof (isspace_not_nl _ (lstrip_head _ _ Hl)) as Ec.
  assert (Hxb : no_triple_nl ((c :: x') ++ b) = true).
  { destruct (snoc_cases (c :: x')) as [E|(x0 & d & E)]; [discriminate|].
    rewrite E in Hx, Hr |- *. rewrite <- app_assoc.
    apply no_triple_nl_app_last;
      [exact (isspace_not_nl _ (rstrip_last _ _ Hr)) | exact Hx |
       now apply no_triple_nl_suffix in Hab]. }
  apply (no_triple_nl_app_head a c (x' ++ b) Ec);
    [now apply no_triple_nl_prefix in Hab | exact Hxb].
Qed.

(** A clamped text between a prefix that starts with a non-space character
    and a suffix that ends with one is left alone by [clamp_text]. *)
Lemma clamp_text_wrap (c : N) (a x b : pystr) (d : N) :
  isspace c = false -> isspace d = false ->
  no_triple_nl ((c :: a) ++ b ++ [d]) = true ->
  clamp_text ((c :: a) ++ clamp_text x ++ b ++ [d]) = (c :: a) ++ clamp_text x ++ b ++ [d].
Proof.
  intros Ec Ed Hab. apply clamp_text_fixed.
  - apply no_triple_nl_wrap; [exact Hab | apply no_triple_nl_clamp | |].
    + rewrite clamp_text_eq. apply lstrip_strip.
    + rewrite clamp_text_eq. apply rstrip_strip.
  - unfold strip. simpl app. rewrite (lstrip_fixed_head _ _ Ec).
    change (c :: a ++ clamp_text x ++ b ++ [d]) with ((c :: a) ++ clamp_text x ++ b ++ [d]).
    rewrite !app_assoc. apply rstrip_snoc, Ed.
Qed.

(** ** Substrings *)

Lemma startswith_app (x post : pystr) : startswith (x ++ post) x = true.
Proof. induction x as [|c x IH]; simpl; [reflexivity|]. now rewrite N.eqb_refl. Qed.

Lemma contains_unfold (s x : pystr) :
  contains s x = startswith s x || match s with
                                   | _ :: s' => contains s' x
                                   | [] => false
                                   end.
Proof. destruct s; reflexivity. Qed.

Lemma contains_complete (pre x post : pystr) : contains (pre ++ x ++ post) x = true.
Proof.
  induction pre as [|c pre IH].
  - simpl app. now rewrite contains_unfold, startswith_app.
  - simpl. rewrite IH. apply orb_true_r.
Qed.

Lemma clamp_text_framed (a x b : pystr) :
  a <> [] -> lstrip a = a -> b <> [] -> rstrip b = b ->
  no_triple_nl (a ++ b) = true ->
  clamp_text (a ++ clamp_text x ++ b) = a ++ clamp_text x ++ b.
Proof.
  intros Ha Hl Hb Hr Hab.
  destruct a as [|c a']; [congruence|].
  destruct (snoc_cases b) as [->|(b' & d & ->)]; [congruence|].
  apply clamp_text_wrap;
    [exact (lstrip_head _ _ Hl) | exact (rstrip_last _ _ Hr) | exact Hab].
Qed.

(** ** Unknown selector values *)

Lemma eqb_false (a b : pystr) : a <> b -> eqb a b = false.
Proof. intros H. unfold eqb. now apply bool_decide_eq_false_2. Qed.

Section Selectors.
Context {R : Runtime}.

Lemma delim_fallback (d : pystr) (o : PromptOptions) :
  d <> str "triple quotes" -> d <> str "XML tags" ->
  _delim (set_delimiters d o) = (str "```", str "```").
Proof.
  intros H1 H2. unfold _delim. cbn [delimiters set_delimiters].
  rewrite (eqb_false _ _ H1), (eqb_false _ _ H2).
  now destruct (eqb d (str "triple backticks")).
Qed.

Lemma build_set_delimiters (d1 d2 : pystr) (o : PromptOptions) :
  _delim (set_delimiters d1 o) = _delim (set_delimiters d2 o) ->
  build (set_delimiters d1 o) = build (set_delimiters d2 o).
Proof.
  intros H. unfold build, joined, build_parts, _meta_prompt, _examples_block.
  rewrite H. reflexivity.
Qed.

Lemma agentic_controls_fallback (e : pystr) (o : PromptOptions) :
  e <> str "Low" -> e <> str "High" ->
  _agentic_controls (set_eagerness e o) = _agentic_controls (set_eagerness (str "Medium") o).
Proof.
  intros H1 H2. unfold _agentic_controls. cbn [eagerness set_eagerness].
  rewrite (eqb_false _ _ H1), (eqb_false _ _ H2). reflexivity.
Qed.

Lemma build_set_eagerness (e : pystr) (o : PromptOptions) :
  e <> str "Low" -> e <> str "High" ->
  build (set_eagerness e o) = build (set_eagerness (str "Medium") o).
Proof.
  intros H1 H2. unfold build, joined, build_parts.
  rewrite (agentic_controls_fallback e o H1 H2). reflexivity.
Qed.

Lemma formatting_block_fallback (f : pystr) (o : PromptOptions) :
  f <> str "Markdown" -> f <> str "JSON" ->
  _formatting_block (set_output_format f o)
  = _formatting_block (set_output_format (str "Plain text") o).
Proof.
  intros H1 H2. unfold _formatting_block. cbn [output_format set_output_format].
  rewrite (eqb_false _ _ H1), (eqb_false _ _ H2). reflexivity.
Qed.

Lemma build_set_output_format (f : pystr) (o : PromptOptions) :
  f <> str "Markdown" -> f <> str "JSON" ->
  build (set_output_format f o) = build (set_output_format (str "Plain text") o).
Proof.
  intros H1 H2. unfold build, joined, build_parts.
  rewrite (formatting_block_fallback f o H1 H2). reflexivity.
Qed.

(** C6. Delimiter resolution is total: the three named styles give their
    pairs, every other style gives the backtick fences, and building with an
    unrecognized style gives the result of the backtick-fence style. *)
Theorem delim_total_with_fallback (o : PromptOptions) (d : pystr) :
  d <> str "triple quotes" -> d <> str "XML tags" ->
  _delim (set_delimiters d o) = (str "```", str "```")
  /\ build (set_delimiters d o) = build (set_delimiters (str "triple backticks") o)
  /\ _delim (set_delimiters (str "triple backticks") o) = (str "```", str "```")
  /\ _delim (set_delimiters (str "triple quotes") o)
     = ([dquote; dquote; dquote], [dquote; dquote; dquote])
  /\ _delim (set_delimiters (str "XML tags") o) = (str "<content>", str "</content>").
Proof.
  intros H1 H2. split; [|split; [|repeat split]].
  - now apply delim_fallback.
  - apply build_set_delimiters. rewrite (delim_fallback d o H1 H2). reflexivity.
Qed.

(** C7 (as the code has it). [build] returns a string for every record: both
    scans end within their fuel, and an unknown delimiter style, eagerness or
    output format is treated as the default one.  An unknown verbosity or
    reasoning effort is not treated as unset: it is lower-cased and named in
    the directive. *)
Theorem build_total_unknown_selectors (o : PromptOptions) (d e f v r : pystr) :
  d <> str "triple quotes" -> d <> str "XML tags" ->
  e <> str "Low" -> e <> str "High" ->
  f <> str "Markdown" -> f <> str "JSON" ->
  v <> str "Default" -> r <> str "Default" ->
  (exists s, build o = s)
  /\ (forall s m n, (length s <= n)%nat ->
        Re.sub_fuel Re.pat_var (repl m) n s = replace_vars s m)
  /\ (forall s n, (length s <= n)%nat ->
        strip (Re.sub_fuel Re.pat_newlines (fun _ => [nl; nl]) n s) = clamp_text s)
  /\ build (set_delimiters d o) = build (set_delimiters (str "triple backticks") o)
  /\ build (set_eagerness e o) = build (set_eagerness (str "Medium") o)
  /\ build (set_output_format f o) = build (set_output_format (str "Plain text") o)
  /\ _verbosity_block (set_verbosity v o)
     = str "Verbosity: " ++ lower v ++ str "."
       ++ (if truthy (strip (verbosity_override o))
           then str " " ++ strip (verbosity_override o) else [])
  /\ _reasoning_block (set_reasoning_effort r o)
     = str "Reasoning effort: " ++ lower r ++ str ".".
Proof.
  intros Hd1 Hd2 He1 He2 Hf1 Hf2 Hv Hr.
  split; [eexists; reflexivity|].
  split; [intros s m n Hn; apply (sub_fuel_irrelevant _ _ pat_var_consuming); [exact Hn|lia]|].
  split; [intros s n Hn; unfold clamp_text, Re.sub; f_equal;
          apply (sub_fuel_irrelevant _ _ pat_newlines_consuming); [exact Hn|lia]|].
  split; [apply build_set_delimiters; rewrite (delim_fallback d o Hd1 Hd2); reflexivity|].
  split; [now apply build_set_eagerness|].
  split; [now apply build_set_output_format|].
  split.
  - unfold _verbosity_block. cbn [verbosity verbosity_override set_verbosity].
    now rewrite (eqb_false _ _ Hv).
  - unfold _reasoning_block. cbn [reasoning_effort set_reasoning_effort].
    now rewrite (eqb_false _ _ Hr).
Qed.

End Selectors.

(** ** The coding scenario *)

Section Scenario.
Context {R : Runtime}.

Lemma sections_coding_scenario (t : pystr) :
  nonblank t = true ->
  List.filter nonblank (sections (coding_scenario t)) =
  [ str "You are Coding assistant.";
    str "Task ```" ++ [nl] ++ clamp_text t ++ [nl] ++ str "```";
    str "Agentic eagerness: medium. Balance proactivity with directness.";
    str "Coding mode: enabled. Prefer small, verifiable steps and runnable outputs."
    ++ [nl]
    ++ str "For code edits, prefer unified diffs in an apply_patch block: begin with '*** Begin Patch' and end with '*** End Patch'." ].
Proof.
  intros Ht. unfold sections.
  change (task (coding_scenario t)) with t.
  change (truthy (strip t)) with (nonblank t). rewrite Ht.
  change (truthy (strip (additional_context (coding_scenario t)))) with false.
  change (ask_brief_rationale (coding_scenario t)) with false.
  cbv iota.
  replace (_delim (coding_scenario t)) with (str "```", str "```")
    by (vm_compute; reflexivity).
  replace (_role_line (coding_scenario t)) with (str "You are Coding assistant.")
    by (vm_compute; reflexivity).
  replace (strip (_audience_line (coding_scenario t))) with (@nil N)
    by (vm_compute; reflexivity).
  replace (strip (_constraints_block (coding_scenario t))) with (@nil N)
    by (vm_compute; reflexivity).
  replace (strip (_verbosity_block (coding_scenario t))) with (@nil N)
    by (vm_compute; reflexivity).
  replace (strip (_reasoning_block (coding_scenario t))) with (@nil N)
    by (vm_compute; reflexivity).
  replace (strip (_agentic_controls (coding_scenario t)))
    with (str "Agentic eagerness: medium. Balance proactivity with directness.")
    by (vm_compute; reflexivity).
  replace (strip (_planning_block (coding_scenario t))) with (@nil N)
    by (vm_compute; reflexivity).
  replace (strip (_coding_block (coding_scenario t)))
    with (str "Coding mode: enabled. Prefer small, verifiable steps and runnable outputs."
          ++ [nl]
          ++ str "For code edits, prefer unified diffs in an apply_patch block: begin with '*** Begin Patch' and end with '*** End Patch'.")
    by (vm_compute; reflexivity).
  replace (strip (_examples_block (coding_scenario t))) with (@nil N)
    by (vm_compute; reflexivity).
  replace (strip (_formatting_block (coding_scenario t))) with (@nil N)
    by (vm_compute; reflexivity).
  replace (strip (_appendix_block (coding_scenario t))) with (@nil N)
    by (vm_compute; reflexivity).
  cbn [fst snd List.filter].
  change (nonblank []) with false. cbv iota.
  assert (Htask : forall x, nonblank (str "Task " ++ x) = true)
    by (intros x; eapply nonblank_prefix; reflexivity).
  rewrite Htask.
  repeat match goal with
         | |- context [nonblank ?s] =>
             replace (nonblank s) with true by (vm_compute; reflexivity)
         end.
  reflexivity.
Qed.

Lemma coding_scenario_defaults_build (t : pystr) :
  nonblank t = true ->
  build (coding_scenario t) =
    str "You are Coding assistant." ++ [nl; nl]
    ++ str "Task ```" ++ [nl] ++ clamp_text t ++ [nl] ++ str "```" ++ [nl; nl]
    ++ str "Agentic eagerness: medium. Balance proactivity with directness." ++ [nl; nl]
    ++ str "Coding mode: enabled. Prefer small, verifiable steps and runnable outputs."
    ++ [nl]
    ++ str "For code edits, prefer unified diffs in an apply_patch block: begin with '*** Begin Patch' and end with '*** End Patch'.".
Proof.
  intros Ht.
  unfold build. change (meta_mode (coding_scenario t)) with false. cbv iota.
  change (variables (coding_scenario t)) with (∅ : gmap (list N) (list N)).
  rewrite replace_vars_empty, joined_sections, (sections_coding_scenario t Ht).
  cbn [join]. rewrite <- !app_assoc.
  apply (clamp_text_framed
           (str "You are Coding assistant." ++ [nl; nl] ++ str "Task ```" ++ [nl]) t);
    solve [discriminate | vm_compute; reflexivity].
Qed.

End Scenario.

(** ** Loading a settings document *)

Lemma field_names_NoDup : NoDup field_names.
Proof. apply (bool_decide_unpack (NoDup field_names)). vm_compute. exact I. Qed.

Lemma field_defaults_lookup (k : pystr) :
  k ∈ field_names -> exists d, (k, d) ∈ field_defaults.
Proof.
  unfold field_names. intros H. apply list_elem_of_fmap in H.
  destruct H as ([k' d] & -> & H). now exists d.
Qed.

(** C9. A document whose keys are fields loads without failure; every field
    the document does not mention has its declared default, every field it
    mentions has the document's value, and the empty document gives the
    default record. *)
Theorem PromptOptions_init_defaults (data : gmap (list N) pyval) :
  dom data ⊆ (list_to_set field_names : gset (list N)) ->
  exists obj,
    PromptOptions_init data = Some obj
    /\ (forall k d, (k, d) ∈ field_defaults -> data !! k = None -> obj !! k = Some d)
    /\ (forall k v, data !! k = Some v -> obj !! k = Some v)
    /\ (PromptOptions_init ∅ ≫= as_options) = Some default_options.
Proof.
  intros Hdom. unfold PromptOptions_init at 1.
  rewrite (bool_decide_eq_true_2 _ Hdom). eexists. split; [reflexivity|].
  assert (Hlook : forall k d, (k, d) ∈ field_defaults ->
            (list_to_map ((fun fd => (fst fd, match data !! fst fd with
                                              | Some v => v
                                              | None => snd fd
                                              end)) <$> field_defaults)
               : gmap (list N) pyval) !! k
            = Some (match data !! k with Some v => v | None => d end)).
  { intros k d Hin. apply elem_of_list_to_map_1.
    - rewrite <- list_fmap_compose. exact field_names_NoDup.
    - apply list_elem_of_fmap. exists (k, d). split; [reflexivity | exact Hin]. }
  split; [|split].
  - intros k d Hin Hnone. rewrite (Hlook k d Hin), Hnone. reflexivity.
  - intros k v Hsome.
    assert (Hk : k ∈ field_names).
    { apply (elem_of_list_to_set (C:=gset (list N))), Hdom, elem_of_dom. eauto. }
    destruct (field_defaults_lookup k Hk) as [d Hin].
    rewrite (Hlook k d Hin), Hsome. reflexivity.
  - vm_compute. reflexivity.
Qed.

(** * Instances on a POSIX host *)

(** C1: the default record does not build to the role line alone. *)
Lemma build_default_options_counterexample :
  build (R:=posix) default_options <> str "You are General assistant.".
Proof. vm_compute. discriminate. Qed.

(** C2: two records in meta mode with the same meta fields build to
    different prompts when the delimiter style differs, and when the
    variable mapping differs. *)
Lemma build_meta_mode_counterexample :
  meta_mode meta_record = true /\ meta_mode meta_record_xml = true
  /\ meta_mode meta_record_doc = true
  /\ meta_prompt meta_record = meta_prompt meta_record_xml
  /\ meta_desired meta_record = meta_desired meta_record_xml
  /\ meta_undesired meta_record = meta_undesired meta_record_xml
  /\ meta_prompt meta_record = meta_prompt meta_record_doc
  /\ meta_desired meta_record = meta_desired meta_record_doc
  /\ meta_undesired meta_record = meta_undesired meta_record_doc
  /\ build (R:=posix) meta_record <> build (R:=posix) meta_record_xml
  /\ build (R:=posix) meta_record <> build (R:=posix) meta_record_doc.
Proof.
  repeat split; try reflexivity; vm_compute; discriminate.
Qed.

Lemma build_meta_mode_determined_witness :
  build (R:=posix) meta_record
  = build (R:=posix)
      (set_coding_mode true (set_examples [(str "input", str "output")] meta_record)).
Proof.
  apply (build_meta_mode_determined (R:=posix) meta_record
           (set_coding_mode true (set_examples [(str "input", str "output")] meta_record)));
    reflexivity.
Defined.

(** C4: in meta mode the result is not the substitution of the clamped
    text: the inserted value is clamped too. *)
Lemma build_final_steps_counterexample :
  meta_mode meta_record_gap = true
  /\ build (R:=posix) meta_record_gap
     <> replace_vars (clamp_text (_meta_prompt meta_record_gap)) (variables meta_record_gap)
  /\ build (R:=posix) meta_record_gap
     <> replace_vars (clamp_text (joined (R:=posix) meta_record_gap))
          (variables meta_record_gap).
Proof.
  repeat split; try reflexivity; vm_compute; discriminate.
Qed.

Lemma delim_total_with_fallback_witness :
  _delim (set_delimiters (str "square brackets") default_options) = (str "```", str "```")
  /\ build (R:=posix) (set_delimiters (str "square brackets") default_options)
     = build (R:=posix) (set_delimiters (str "triple backticks") default_options)
  /\ _delim (set_delimiters (str "triple backticks") default_options) = (str "```", str "```")
  /\ _delim (set_delimiters (str "triple quotes") default_options)
     = ([dquote; dquote; dquote], [dquote; dquote; dquote])
  /\ _delim (set_delimiters (str "XML tags") default_options)
     = (str "<content>", str "</content>").
Proof.
  apply (delim_total_with_fallback (R:=posix) default_options (str "square brackets"));
    discriminate.
Defined.

(** C7: a reasoning effort outside the offered values is not treated as
    unset; it appears in the prompt. *)
Lemma build_unknown_reasoning_effort_counterexample :
  ~ In (str "Extreme") reasoning_levels
  /\ build (R:=posix) (set_reasoning_effort (str "Extreme") default_options)
     <> build (R:=posix) (set_reasoning_effort (str "Default") default_options)
  /\ build (R:=posix) (set_reasoning_effort (str "Extreme") default_options)
     = str "You are General assistant." ++ [nl; nl]
       ++ str "Reasoning effort: extreme." ++ [nl; nl]
       ++ str "Agentic eagerness: medium. Balance proactivity with directness.".
Proof.
  split; [|split].
  - simpl. intros [H|[H|[H|[H|[]]]]]; discriminate H.
  - vm_compute. discriminate.
  - vm_compute. reflexivity.
Qed.

Lemma build_total_unknown_selectors_witness :
  (exists s, build (R:=posix) default_options = s)
  /\ (forall s m n, (length s <= n)%nat ->
        Re.sub_fuel Re.pat_var (repl m) n s = replace_vars s m)
  /\ (forall s n, (length s <= n)%nat ->
        strip (Re.sub_fuel Re.pat_newlines (fun _ => [nl; nl]) n s) = clamp_text s)
  /\ build (R:=posix) (set_delimiters (str "braces") default_options)
     = build (R:=posix) (set_delimiters (str "triple backticks") default_options)
  /\ build (R:=posix) (set_eagerness (str "Extreme") default_options)
     = build (R:=posix) (set_eagerness (str "Medium") default_options)
  /\ build (R:=posix) (set_output_format (str "YAML") default_options)
     = build (R:=posix) (set_output_format (str "Plain text") default_options)
  /\ _verbosity_block (R:=posix) (set_verbosity (str "Loud") default_options)
     = str "Verbosity: " ++ lower (Runtime:=posix) (str "Loud") ++ str "."
       ++ (if truthy (strip (verbosity_override default_options))
           then str " " ++ strip (verbosity_override default_options) else [])
  /\ _reasoning_block (R:=posix) (set_reasoning_effort (str "Extreme") default_options)
     = str "Reasoning effort: " ++ lower (Runtime:=posix) (str "Extreme") ++ str ".".
Proof.
  apply (build_total_unknown_selectors (R:=posix) default_options
           (str "braces") (str "Extreme") (str "YAML") (str "Loud") (str "Extreme"));
    discriminate.
Defined.

Lemma PromptOptions_init_defaults_witness :
  exists obj,
    PromptOptions_init {[ str "task" := PStr (str "Fix the failing test") ]} = Some obj
    /\ (forall k d, (k, d) ∈ field_defaults ->
          ({[ str "task" := PStr (str "Fix the failing test") ]} : gmap (list N) pyval) !! k = None ->
          obj !! k = Some d)
    /\ (forall k v,
          ({[ str "task" := PStr (str "Fix the failing test") ]} : gmap (list N) pyval) !! k = Some v ->
          obj !! k = Some v)
    /\ (PromptOptions_init ∅ ≫= as_options) = Some default_options.
Proof.
  apply (PromptOptions_init_defaults {[ str "task" := PStr (str "Fix the failing test") ]}).
  apply (bool_decide_unpack _). vm_compute. exact I.
Defined.

Lemma build_meta_mode_normalized_witness :
  build (R:=posix) meta_record_gap
  = clamp_text (replace_vars (_meta_prompt meta_record_gap) (variables meta_record_gap))
  /\ (forall a k b,
        k <> [] -> forallb is_ident k = true ->
        _meta_prompt meta_record_gap = a ++ [lbrace] ++ k ++ [rbrace] ++ b ->
        build (R:=posix) meta_record_gap
        = clamp_text (replace_vars a (variables meta_record_gap)
                      ++ match variables meta_record_gap !! k with
                         | Some v => v
                         | None => [lbrace] ++ k ++ [rbrace]
                         end
                      ++ replace_vars b (variables meta_record_gap)))
  /\ ((exists pre post,
         _meta_prompt meta_record_gap = pre ++ clamp_text (meta_prompt meta_record_gap) ++ post)
      /\ (exists pre post,
            _meta_prompt meta_record_gap = pre ++ clamp_text (meta_desired meta_record_gap) ++ post)
      /\ (exists pre post,
            _meta_prompt meta_record_gap = pre ++ clamp_text (meta_undesired meta_record_gap) ++ post))
  /\ (forall c t, build (R:=posix) meta_record_gap = c :: t -> isspace c = false)
  /\ (forall c t, build (R:=posix) meta_record_gap = t ++ [c] -> isspace c = false)
  /\ (forall a b, build (R:=posix) meta_record_gap <> a ++ [nl; nl; nl] ++ b)
  /\ clamp_text (build (R:=posix) meta_record_gap) = build (R:=posix) meta_record_gap.
Proof.
  apply (build_meta_mode_normalized (R:=posix) meta_record_gap). reflexivity.
Defined.

(** * Further properties *)

(** ** What [clamp_text] keeps and what it removes *)

Lemma isspace_nl : isspace nl = true.
Proof. reflexivity. Qed.

Lemma filter_nonspace_repeat_nl (n : nat) : List.filter nonspace (repeat nl n) = [].
Proof. induction n as [|n IH]; [reflexivity | exact IH]. Qed.

Lemma filter_nonspace_spaces (s : pystr) :
  forallb isspace s = true -> List.filter nonspace s = [].
Proof.
  induction s as [|c s IH]; simpl; [reflexivity|].
  unfold nonspace at 1. destruct (isspace c); simpl; [exact IH | discriminate].
Qed.

Lemma filter_nonspace_nil (s : pystr) :
  List.filter nonspace s = [] -> forallb isspace s = true.
Proof.
  induction s as [|c s IH]; simpl; [reflexivity|].
  unfold nonspace at 1. destruct (isspace c); simpl; [exact IH | discriminate].
Qed.

Lemma filter_nonspace_collapse (s : pystr) :
  List.filter nonspace (collapse s) = List.filter nonspace s.
Proof.
  induction s as [|c s E IH|n rest Hn Hrest IH] using newline_run_ind.
  - reflexivity.
  - rewrite (collapse_cons _ _ E). simpl. now rewrite IH.
  - rewrite (collapse_run _ _ Hrest), !List.filter_app, !filter_nonspace_repeat_nl.
    simpl. exact IH.
Qed.

Lemma filter_nonspace_strip (s : pystr) :
  List.filter nonspace (strip s) = List.filter nonspace s.
Proof.
  rewrite <- (strip_split s) at 2. rewrite !List.filter_app.
  rewrite (filter_nonspace_spaces (take_while isspace s))
    by apply take_while_forallb.
  rewrite (filter_nonspace_spaces (rev _)).
  - now rewrite app_nil_r.
  - rewrite forallb_forall. intros c Hc. apply in_rev in Hc.
    pose proof (take_while_forallb isspace (rev (lstrip s))) as H.
    rewrite forallb_forall in H. now apply H.
Qed.

Lemma sublist_repeat_le {A : Type} (x : A) (m n : nat) :
  (m <= n)%nat -> repeat x m `sublist_of` repeat x n.
Proof.
  intros H. replace n with ((n - m) + m)%nat by lia.
  rewrite repeat_app. apply sublist_inserts_l. reflexivity.
Qed.

Lemma sublist_collapse (s : pystr) : collapse s `sublist_of` s.
Proof.
  induction s as [|c s E IH|n rest Hn Hrest IH] using newline_run_ind.
  - reflexivity.
  - rewrite (collapse_cons _ _ E). now apply sublist_skip.
  - rewrite (collapse_run _ _ Hrest).
    apply sublist_app; [apply sublist_repeat_le; lia | exact IH].
Qed.

Lemma sublist_strip (s : pystr) : strip s `sublist_of` s.
Proof.
  rewrite <- (strip_split s) at 2.
  apply sublist_inserts_l, sublist_inserts_r. reflexivity.
Qed.

(** X1. [clamp_text] only deletes whitespace: its result is a subsequence of
    the input that still holds every character that is not whitespace, in
    the same order, and it is never longer than the input. *)
Theorem clamp_text_deletes_whitespace_only (s : pystr) :
  clamp_text s `sublist_of` s
  /\ List.filter nonspace (clamp_text s) = List.filter nonspace s
  /\ (length (clamp_text s) <= length s)%nat.
Proof.
  assert (H : clamp_text s `sublist_of` s).
  { rewrite clamp_text_eq. etransitivity; [apply sublist_strip | apply sublist_collapse]. }
  split; [exact H|]. split; [|now apply sublist_length].
  now rewrite clamp_text_eq, filter_nonspace_strip, filter_nonspace_collapse.
Qed.

Lemma strip_spaces (s : pystr) : forallb isspace s = true -> strip s = [].
Proof.
  intros H. unfold strip, lstrip. now destruct (take_while_all _ _ H) as [_ ->].
Qed.

Lemma clamp_text_blank (s : pystr) :
  forallb isspace s = true -> clamp_text s = [].
Proof.
  intros H. rewrite clamp_text_eq. apply strip_spaces, filter_nonspace_nil.
  rewrite filter_nonspace_collapse. now apply filter_nonspace_spaces.
Qed.

(** X2. [clamp_text] returns the empty string exactly for the inputs made
    of whitespace only (the empty input among them). *)
Theorem clamp_text_empty_iff_blank (s : pystr) :
  clamp_text s = [] <-> forallb isspace s = true.
Proof.
  split; [|apply clamp_text_blank].
  intros H. apply filter_nonspace_nil.
  rewrite <- filter_nonspace_collapse, <- filter_nonspace_strip, <- clamp_text_eq. now rewrite H.
Qed.

(** X3. The results of [clamp_text] are exactly its fixed points: a string
    is left unchanged if and only if it has no leading or trailing
    whitespace and no three consecutive newlines, and every result is such a
    string. *)
Theorem clamp_text_normal_form (s : pystr) :
  (clamp_text s = s <-> strip s = s /\ no_triple_nl s = true)
  /\ (forall c t, clamp_text s = c :: t -> isspace c = false)
  /\ (forall c t, clamp_text s = t ++ [c] -> isspace c = false)
  /\ (forall a b, clamp_text s <> a ++ [nl; nl; nl] ++ b).
Proof.
  split; [|split; [|split]].
  - split.
    + intros H. split.
      * rewrite <- H at 1. rewrite clamp_text_eq, strip_idem, <- clamp_text_eq. exact H.
      * rewrite <- H. apply no_triple_nl_clamp.
    + intros [H1 H2]. now apply clamp_text_fixed.
  - intros c t. rewrite clamp_text_eq. apply strip_head.
  - intros c t. rewrite clamp_text_eq. apply strip_last.
  - intros a b. apply no_triple_nl_sound, no_triple_nl_clamp.
Qed.

(** ** More on placeholder substitution *)

(** The result depends on the mapping only through the names that have the
    shape of an identifier. *)
Lemma replace_vars_agree (t : pystr) (m1 m2 : gmap (list N) (list N)) :
  (forall k, k <> [] -> forallb is_ident k = true -> m1 !! k = m2 !! k) ->
  replace_vars t m1 = replace_vars t m2.
Proof.
  intros Hagree.
  remember (length t) as n eqn:Hn. revert t Hn.
  induction n as [n IH] using lt_wf_ind. intros t Hn.
  rewrite (replace_vars_unfold t m1), (replace_vars_unfold t m2).
  destruct (Re.pat_var t) as [[[g0 k] rest]|] eqn:E.
  - pose proof (pat_var_consuming _ _ _ E) as Hlt.
    apply pat_var_Some in E. destruct E as (_ & _ & Hk & Hid).
    unfold repl. cbn [fst snd]. rewrite (Hagree k Hk Hid). f_equal.
    apply (IH (length rest)); [subst n; exact Hlt | reflexivity].
  - destruct t as [|c t']; [reflexivity|]. f_equal.
    apply (IH (length t')); [subst n; simpl; lia | reflexivity].
Qed.

(** X4. A variable whose name is empty or holds a character outside
    letters, digits and underscore is inert: binding it changes no result. *)
Theorem replace_vars_malformed_key_inert
    (t k v : pystr) (mapping : gmap (list N) (list N)) :
  k = [] \/ forallb is_ident k = false ->
  replace_vars t (<[k := v]> mapping) = replace_vars t mapping.
Proof.
  intros Hbad. apply replace_vars_agree. intros k' Hk' Hid'.
  apply lookup_insert_ne. intros <-. destruct Hbad as [->|Hbad]; congruence.
Qed.

Lemma replace_vars_no_lbrace_prefix (a b : pystr) (mapping : gmap (list N) (list N)) :
  forallb (fun c => negb (c =? lbrace)) a = true ->
  replace_vars (a ++ b) mapping = a ++ replace_vars b mapping.
Proof.
  induction a as [|c a IH]; intros H; [reflexivity|].
  simpl in H. apply andb_true_iff in H. destruct H as [Hc Ha].
  simpl app. rewrite replace_vars_unfold. unfold Re.pat_var.
  apply negb_true_iff in Hc. rewrite Hc. f_equal. now apply IH.
Qed.

Lemma pat_var_no_rbrace (s : pystr) :
  forallb (fun c => negb (c =? rbrace)) s = true -> Re.pat_var s = None.
Proof.
  intros H. destruct (Re.pat_var s) as [[[g0 k] rest]|] eqn:E; [|reflexivity].
  apply pat_var_Some in E. destruct E as (-> & -> & _ & _).
  change (lbrace :: k ++ [rbrace]) with ([lbrace] ++ k ++ [rbrace]) in H.
  rewrite !forallb_app in H.
  apply andb_true_iff in H. destruct H as [H _].
  apply andb_true_iff in H. destruct H as [_ H].
  apply andb_true_iff in H. destruct H as [_ H].
  discriminate H.
Qed.

Lemma replace_vars_no_rbrace (s : pystr) (mapping : gmap (list N) (list N)) :
  forallb (fun c => negb (c =? rbrace)) s = true -> replace_vars s mapping = s.
Proof.
  induction s as [|c s IH]; intros H; [reflexivity|].
  rewrite replace_vars_unfold, (pat_var_no_rbrace _ H).
  simpl in H. apply andb_true_iff in H. f_equal. now apply IH.
Qed.

(** X5. A text without an opening brace, or without a closing brace, is
    returned unchanged whatever the mapping binds. *)
Theorem replace_vars_without_braces (t : pystr) (mapping : gmap (list N) (list N)) :
  forallb (fun c => negb (c =? lbrace)) t = true
  \/ forallb (fun c => negb (c =? rbrace)) t = true ->
  replace_vars t mapping = t.
Proof.
  intros [H|H].
  - rewrite <- (app_nil_r t) at 1.
    rewrite (replace_vars_no_lbrace_prefix _ _ _ H). now rewrite app_nil_r.
  - now apply replace_vars_no_rbrace.
Qed.

(** ** More on the assembled prompt *)

Lemma collapse_no_nl_prefix (a b : pystr) :
  forallb (fun c => negb (is_nl c)) a = true -> collapse (a ++ b) = a ++ collapse b.
Proof.
  induction a as [|c a IH]; intros H; [reflexivity|].
  simpl in H. apply andb_true_iff in H. destruct H as [Hc Ha].
  apply negb_true_iff in Hc. simpl app. rewrite (collapse_cons _ _ Hc).
  f_equal. now apply IH.
Qed.

Lemma drop_while_app_keep (p : N -> bool) (x y : pystr) :
  drop_while p x <> [] -> drop_while p (x ++ y) = drop_while p x ++ y.
Proof.
  induction x as [|c x IH]; simpl; [congruence|].
  destruct (p c); [exact IH | reflexivity].
Qed.

Lemma rstrip_app_keep (a b : pystr) : rstrip b <> [] -> rstrip (a ++ b) = a ++ rstrip b.
Proof.
  unfold rstrip. intros H. rewrite rev_app_distr, drop_while_app_keep.
  - now rewrite rev_app_distr, rev_involutive.
  - intros E. apply H. now rewrite E.
Qed.

Lemma rstrip_app_last (a : pystr) (d : N) (y : pystr) :
  isspace d = false -> rstrip ((a ++ [d]) ++ y) = (a ++ [d]) ++ rstrip y.
Proof.
  intros E. unfold rstrip. rewrite !rev_app_distr. cbn [rev app].
  rewrite drop_while_app_stop by (simpl; now rewrite E).
  rewrite rev_app_distr. cbn [rev]. now rewrite rev_involutive.
Qed.

Lemma rstrip_nonempty (b : pystr) : List.filter nonspace b <> [] -> rstrip b <> [].
Proof.
  intros H E. apply H. rewrite <- (rstrip_split b), E. simpl.
  apply filter_nonspace_spaces. rewrite forallb_forall. intros c Hc.
  apply in_rev in Hc.
  pose proof (take_while_forallb isspace (rev b)) as Hall.
  rewrite forallb_forall in Hall. now apply Hall.
Qed.

(** A prefix without newlines that starts with a character that is not
    whitespace stays in front when the text after it is not blank. *)
Lemma clamp_text_prefix (a b : pystr) :
  a <> [] -> lstrip a = a -> forallb (fun c => negb (is_nl c)) a = true ->
  List.filter nonspace b <> [] ->
  clamp_text (a ++ b) = a ++ rstrip (collapse b).
Proof.
  intros Hne Hl Ha Hb. destruct a as [|c a]; [congruence|].
  pose proof (lstrip_head _ _ Hl) as Ec.
  rewrite clamp_text_eq, (collapse_no_nl_prefix _ _ Ha).
  unfold strip. simpl app. rewrite (lstrip_fixed_head _ _ Ec).
  change (c :: a ++ collapse b) with ((c :: a) ++ collapse b).
  apply rstrip_app_keep, rstrip_nonempty. now rewrite filter_nonspace_collapse.
Qed.

(** The same for a prefix that also ends with a character that is not
    whitespace, whatever follows. *)
Lemma clamp_text_prefix_closed (a b : pystr) :
  a <> [] -> lstrip a = a -> rstrip a = a ->
  forallb (fun c => negb (is_nl c)) a = true ->
  clamp_text (a ++ b) = a ++ rstrip (collapse b).
Proof.
  intros Hne Hl Hr Ha.
  rewrite clamp_text_eq, (collapse_no_nl_prefix _ _ Ha).
  unfold strip.
  assert (Hlead : lstrip (a ++ collapse b) = a ++ collapse b).
  { destruct a as [|c a']; [congruence|]. simpl app.
    apply lstrip_fixed_head, (lstrip_head _ _ Hl). }
  rewrite Hlead.
  destruct (snoc_cases a) as [->|(a0 & d & ->)]; [congruence|].
  apply rstrip_app_last, (rstrip_last _ _ Hr).
Qed.

Lemma join_cons (sep p : pystr) (l : list pystr) :
  join sep (p :: l) = p ++ match l with [] => [] | _ :: _ => sep ++ join sep l end.
Proof. destruct l; simpl; [now rewrite app_nil_r | reflexivity]. Qed.

Section Opening.
Context {R : Runtime}.

Lemma joined_opening (o : PromptOptions) :
  exists r tail, r = (if truthy (if eqb (role o) (str "Custom")
                                  then strip (custom_role o) else role o)
                      then (if eqb (role o) (str "Custom")
                            then strip (custom_role o) else role o)
                      else str "General assistant")
                 /\ joined o = str "You are " ++ r ++ str "." ++ tail.
Proof.
  rewrite joined_sections.
  assert (Hs : exists rest, sections o = _role_line o :: rest)
    by (eexists; reflexivity).
  destruct Hs as [rest ->]. cbn [List.filter].
  rewrite nonblank_role_line, join_cons.
  generalize (match List.filter nonblank rest with
              | [] => []
              | _ :: _ => [nl; nl] ++ join [nl; nl] (List.filter nonblank rest)
              end).
  intros tail. unfold _role_line.
  eexists _, tail. split; [reflexivity|]. rewrite <- !app_assoc. reflexivity.
Qed.

(** X6. No prompt is empty: in normal mode it opens with the words of the
    role line, in meta mode with the instruction line of the wrapper,
    whatever the fields and the variables hold. *)
Theorem build_opening (o : PromptOptions) :
  (exists rest,
     build o =
     (if meta_mode o
      then str "Optimize the following prompt. Explain what minimal edits or additions would encourage the desired behavior and reduce undesired behavior."
      else str "You are ") ++ rest)
  /\ build o <> [].
Proof.
  assert (H : exists rest,
     build o =
     (if meta_mode o
      then str "Optimize the following prompt. Explain what minimal edits or additions would encourage the desired behavior and reduce undesired behavior."
      else str "You are ") ++ rest).
  { unfold build. destruct (meta_mode o).
    - unfold _meta_prompt. destruct (_delim o) as [open_d close_d].
      rewrite join_cons.
      rewrite replace_vars_no_lbrace_prefix by (vm_compute; reflexivity).
      rewrite clamp_text_prefix_closed;
        [eexists; reflexivity | discriminate | vm_compute; reflexivity ..].
    - destruct (joined_opening o) as (r & tail & _ & ->).
      rewrite clamp_text_prefix;
        [| discriminate | vm_compute; reflexivity | vm_compute; reflexivity |].
      + rewrite replace_vars_no_lbrace_prefix by (vm_compute; reflexivity).
        eexists. reflexivity.
      + rewrite !List.filter_app. intros E.
        apply app_eq_nil in E. destruct E as [_ E].
        apply app_eq_nil in E. destruct E as [E _]. discriminate E. }
  split; [exact H|]. destruct H as [rest ->]. now destruct (meta_mode o).
Qed.

(** X7. With no variable bound the prompt is normalized in both modes:
    clamping it again changes nothing, it neither starts nor ends with
    whitespace, and it has no three consecutive newlines. *)
Theorem build_normalized_without_variables (o : PromptOptions) :
  variables o = ∅ ->
  clamp_text (build o) = build o
  /\ (forall c t, build o = c :: t -> isspace c = false)
  /\ (forall c t, build o = t ++ [c] -> isspace c = false)
  /\ (forall a b, build o <> a ++ [nl; nl; nl] ++ b).
Proof.
  intros Hv.
  assert (E : exists x, build o = clamp_text x).
  { unfold build. rewrite Hv. destruct (meta_mode o).
    - eexists. reflexivity.
    - rewrite replace_vars_empty. eexists. reflexivity. }
  destruct E as [x ->]. split; [|split; [|split]].
  - apply clamp_text_fixed; [apply no_triple_nl_clamp|].
    rewrite clamp_text_eq. apply strip_idem.
  - intros c t. rewrite clamp_text_eq. apply strip_head.
  - intros c t. rewrite clamp_text_eq. apply strip_last.
  - intros a b. apply no_triple_nl_sound, no_triple_nl_clamp.
Qed.

(** X8. Outside meta mode the three meta fields have no influence on the
    prompt. *)
Theorem build_ignores_meta_fields (o : PromptOptions) (p d u : pystr) :
  meta_mode o = false ->
  build (set_meta_prompt p (set_meta_desired d (set_meta_undesired u o))) = build o.
Proof.
  intros M. unfold build.
  change (meta_mode (set_meta_prompt p (set_meta_desired d (set_meta_undesired u o))))
    with (meta_mode o).
  rewrite M. reflexivity.
Qed.

End Opening.

(** ** The constraints list *)

Lemma split_lines_nonempty (s : pystr) : split_lines s <> [].
Proof.
  induction s as [|c s IH]; simpl; [discriminate|].
  destruct (is_nl c); [discriminate|]. now destruct (split_lines s).
Qed.

Lemma join_split_lines (s : pystr) : join [nl] (split_lines s) = s.
Proof.
  induction s as [|c s IH]; [reflexivity|]. cbn [split_lines].
  pose proof (split_lines_nonempty s) as Hne.
  destruct (is_nl c) eqn:E.
  - apply is_nl_true in E. subst c. rewrite join_cons.
    destruct (split_lines s); [congruence|]. rewrite IH. reflexivity.
  - destruct (split_lines s) as [|l ls]; [congruence|].
    rewrite join_cons in IH |- *. rewrite <- IH. reflexivity.
Qed.

Lemma split_lines_no_nl (s : pystr) :
  Forall (fun l => forallb (fun c => negb (is_nl c)) l = true) (split_lines s).
Proof.
  induction s as [|c s IH]; simpl; [repeat constructor|].
  destruct (is_nl c) eqn:E; [constructor; [reflexivity | exact IH]|].
  destruct (split_lines s) as [|l ls]; [repeat constructor; simpl; now rewrite E|].
  inversion IH; subst. constructor; [simpl; now rewrite E | assumption].
Qed.

Lemma replace_go_nl (new s : pystr) :
  replace_go [nl] new O s = join new (split_lines s).
Proof.
  induction s as [|c s IH]; [reflexivity|].
  pose proof (split_lines_nonempty s) as Hne.
  cbn [replace_go startswith length Nat.pred split_lines].
  change (c =? nl) with (is_nl c). rewrite andb_true_r.
  destruct (is_nl c) eqn:E.
  - rewrite IH, join_cons. destruct (split_lines s); [congruence | reflexivity].
  - rewrite IH. destruct (split_lines s) as [|l ls]; [congruence|].
    now rewrite !join_cons.
Qed.

Lemma join_prefixed (new : pystr) (ls : list pystr) :
  ls <> [] -> new ++ join new ls = concat (List.map (fun l => new ++ l) ls).
Proof.
  induction ls as [|l ls IH]; [congruence|]. intros _.
  rewrite join_cons. simpl. destruct ls as [|l' ls'].
  - now rewrite !app_nil_r.
  - rewrite <- IH by discriminate. now rewrite <- app_assoc.
Qed.

(** X9. On a POSIX host every line of the clamped constraints becomes one
    bullet under the header; blank constraints give no block. *)
Theorem constraints_block_bullets (o : PromptOptions) :
  _constraints_block (R:=posix) o =
    (if truthy (clamp_text (constraints o))
     then str "Constraints:"
          ++ concat (List.map (fun l => [nl] ++ str "- " ++ l)
                       (split_lines (clamp_text (constraints o))))
     else [])
  /\ join [nl] (split_lines (clamp_text (constraints o))) = clamp_text (constraints o)
  /\ Forall (fun l => forallb (fun c => negb (is_nl c)) l = true)
       (split_lines (clamp_text (constraints o)))
  /\ (forallb isspace (constraints o) = true -> _constraints_block (R:=posix) o = []).
Proof.
  split; [|split; [apply join_split_lines | split; [apply split_lines_no_nl|]]].
  - unfold _constraints_block. destruct (truthy (clamp_text (constraints o))); [|reflexivity].
    f_equal. change (linesep (Runtime:=posix)) with [nl].
    unfold replace. rewrite replace_go_nl.
    change ([nl] ++ str "- " ++ join ([nl] ++ str "- ") (split_lines (clamp_text (constraints o))))
      with (([nl] ++ str "- ") ++ join ([nl] ++ str "- ") (split_lines (clamp_text (constraints o)))).
    rewrite join_prefixed by apply split_lines_nonempty.
    reflexivity.
  - intros H. unfold _constraints_block. now rewrite (clamp_text_blank _ H).
Qed.

Lemma replace_go_absent (old new s : pystr) :
  contains s old = false -> replace_go old new O s = s.
Proof.
  induction s as [|c s IH]; [reflexivity|].
  rewrite contains_unfold. intros H. apply orb_false_iff in H. destruct H as [H1 H2].
  cbn [replace_go]. rewrite H1. f_equal. now apply IH.
Qed.

(** X10. On any host, when the line separator of the host does not occur in
    the clamped constraints, the text follows the first bullet as it is:
    only its first line is a bullet.  This is what happens on a host whose
    separator is a carriage return and a newline for a text whose lines are
    separated by newlines alone. *)
Theorem constraints_block_foreign_separator {R : Runtime} (o : PromptOptions) :
  linesep <> [] ->
  truthy (clamp_text (constraints o)) = true ->
  contains (clamp_text (constraints o)) linesep = false ->
  _constraints_block o = str "Constraints:" ++ [nl] ++ str "- " ++ clamp_text (constraints o).
Proof.
  intros Hsep Hcons Habs. unfold _constraints_block. rewrite Hcons.
  unfold replace. destruct linesep as [|c0 sep0] eqn:E; [congruence|].
  now rewrite (replace_go_absent _ _ _ Habs).
Qed.

(** ** The tables of the window *)

Lemma collect_examples_fold (rows : list (option pystr * option pystr))
    (acc : list (pystr * pystr)) :
  fold_left collect_example rows acc
  = acc ++ List.filter keeps_example
             (List.map (fun row => (cell_text (fst row), cell_text (snd row))) rows).
Proof.
  revert acc. induction rows as [|row rows IH]; intros acc; simpl.
  - now rewrite app_nil_r.
  - rewrite IH. unfold collect_example, keeps_example at 2, nonblank. cbn [fst snd].
    destruct (truthy (strip (cell_text (fst row))) || truthy (strip (cell_text (snd row))));
      [now rewrite <- app_assoc | reflexivity].
Qed.

Lemma collect_examples_filter (rows : list (option pystr * option pystr)) :
  collect_examples rows
  = List.filter keeps_example
      (List.map (fun row => (cell_text (fst row), cell_text (snd row))) rows).
Proof. unfold collect_examples. now rewrite collect_examples_fold. Qed.

Lemma example_rows_texts (exs : list (pystr * pystr)) :
  List.map (fun row => (cell_text (fst row), cell_text (snd row))) (example_rows exs) = exs.
Proof.
  induction exs as [|[u a] exs IH]; [reflexivity|].
  cbn. f_equal. exact IH.
Qed.

Lemma collect_example_rows (exs : list (pystr * pystr)) :
  collect_examples (example_rows exs) = List.filter keeps_example exs.
Proof. now rewrite collect_examples_filter, example_rows_texts. Qed.

Lemma filter_keeps_example_idem (exs : list (pystr * pystr)) :
  List.filter keeps_example (List.filter keeps_example exs)
  = List.filter keeps_example exs.
Proof.
  induction exs as [|ex exs IH]; simpl; [reflexivity|].
  destruct (keeps_example ex) eqn:E; simpl; [now rewrite E, IH | exact IH].
Qed.

(** X11. The few-shot table is read in row order; a row is kept when one of
    its two texts is not blank, a missing cell counting as empty.  Writing a
    list of examples into the table and reading it back keeps exactly the
    examples with a text that is not blank, so a list that was read from the
    table comes back unchanged. *)
Theorem collect_examples_round_trip
    (rows : list (option pystr * option pystr)) (exs : list (pystr * pystr)) :
  collect_examples rows
  = List.filter (fun ex => nonblank (fst ex) || nonblank (snd ex))
      (List.map (fun row => (cell_text (fst row), cell_text (snd row))) rows)
  /\ collect_examples (example_rows exs)
     = List.filter (fun ex => nonblank (fst ex) || nonblank (snd ex)) exs
  /\ collect_examples (example_rows (collect_examples rows)) = collect_examples rows
  /\ Forall (fun ex => nonblank (fst ex) = true \/ nonblank (snd ex) = true)
       (collect_examples rows).
Proof.
  split; [apply collect_examples_filter|]. split; [apply collect_example_rows|]. split.
  - rewrite collect_example_rows, collect_examples_filter.
    apply filter_keeps_example_idem.
  - rewrite collect_examples_filter. apply List.Forall_forall. intros ex Hin.
    apply List.filter_In in Hin. destruct Hin as [_ Hin].
    unfold keeps_example in Hin. now apply orb_true_iff in Hin.
Qed.

Lemma collect_variables_keys_fold (rows : list (option pystr * option pystr))
    (acc : gmap (list N) (list N)) :
  (forall k, is_Some (acc !! k) -> k <> [] /\ strip k = k) ->
  forall k, is_Some (fold_left collect_variable rows acc !! k) -> k <> [] /\ strip k = k.
Proof.
  revert acc. induction rows as [|row rows IH]; intros acc Hacc; [exact Hacc|].
  simpl. apply IH. intros k Hk.
  destruct row as [[kt|] [v|]]; simpl in Hk; try (now apply Hacc).
  destruct (truthy (strip kt)) eqn:E; [|now apply Hacc].
  destruct (decide (strip kt = k)) as [<-|Hne].
  - split; [|apply strip_idem]. intros E0. now rewrite E0 in E.
  - rewrite lookup_insert_ne in Hk by exact Hne. now apply Hacc.
Qed.

Lemma collect_variables_insert_fold (l : list (pystr * pystr))
    (acc : gmap (list N) (list N)) :
  NoDup (l.*1) ->
  Forall (fun kv => fst kv <> [] /\ strip (fst kv) = fst kv) l ->
  fold_left collect_variable ((fun kv => (Some (fst kv), Some (snd kv))) <$> l) acc
  = list_to_map l ∪ acc.
Proof.
  revert acc. induction l as [|[k v] l IH]; intros acc Hnd Hall.
  - simpl. now rewrite (left_id_L ∅ (∪)).
  - inversion Hnd as [|? ? Hk Hnd']; subst. inversion Hall as [|? ? [Hne Hst] Hall']; subst.
    cbn [fst snd] in *. cbn [fmap list_fmap fold_left collect_variable fst snd].
    rewrite Hst. destruct k as [|c k']; [congruence|]. cbn [truthy].
    rewrite (IH _ Hnd' Hall'). cbn [list_to_map foldr fst snd uncurry].
    symmetry. rewrite <- insert_union_l. apply insert_union_r.
    apply not_elem_of_list_to_map_1. exact Hk.
Qed.

(** X12. Every name read from the variables table is stripped and not
    empty; a row without a name or without a value cell is skipped; of two
    rows with the same name the later one wins.  Writing a mapping whose
    names are stripped and not empty into the table and reading it back
    gives the mapping again. *)
Theorem collect_variables_round_trip
    (rows : list (option pystr * option pystr)) (vars : gmap (list N) (list N))
    (k_text v : pystr) :
  (forall k, is_Some (vars !! k) -> k <> [] /\ strip k = k) ->
  strip k_text <> [] ->
  collect_variables (variable_rows vars) = vars
  /\ (forall k, is_Some (collect_variables rows !! k) -> k <> [] /\ strip k = k)
  /\ collect_variables (rows ++ [(Some k_text, Some v)]) !! strip k_text = Some v
  /\ collect_variables (rows ++ [(None, Some v)]) = collect_variables rows
  /\ collect_variables (rows ++ [(Some k_text, None)]) = collect_variables rows
  /\ collect_variables (rows ++ [(Some [], Some v)]) = collect_variables rows.
Proof.
  intros Hvars Hk.
  assert (Hfold : forall rs, collect_variables rs = fold_left collect_variable rs ∅)
    by reflexivity.
  split; [|split; [|split; [|repeat split]]].
  - rewrite Hfold. unfold variable_rows.
    rewrite collect_variables_insert_fold.
    + now rewrite (right_id_L ∅ (∪)), list_to_map_to_list.
    + apply NoDup_fst_map_to_list.
    + apply List.Forall_forall. intros [k x] Hin. cbn [fst].
      apply Hvars. exists x. apply elem_of_map_to_list. now apply list_elem_of_In.
  - rewrite Hfold. apply collect_variables_keys_fold. intros k [x Hx].
    now rewrite lookup_empty in Hx.
  - rewrite Hfold, fold_left_app. simpl.
    destruct (strip k_text) as [|c k'] eqn:E; [congruence|]. cbn [truthy].
    apply lookup_insert_eq.
  - rewrite !Hfold, fold_left_app. reflexivity.
  - rewrite !Hfold, fold_left_app. reflexivity.
  - rewrite !Hfold, fold_left_app. reflexivity.
Qed.

(** ** Presets *)

(** X13. Whatever name is applied, the preset record only holds selector
    values that the window offers, all its free texts, its examples and its
    variables are empty, it is in meta mode exactly for the preset
    "Metaprompt optimizer", and a name that is not a preset gives the
    default record. *)
Theorem apply_preset_well_formed (which : pystr) :
  (In (role (_apply_preset which)) role_choices
   /\ In (delimiters (_apply_preset which)) delimiter_choices
   /\ In (output_format (_apply_preset which)) output_format_choices
   /\ In (eagerness (_apply_preset which)) eagerness_choices
   /\ In (reasoning_effort (_apply_preset which)) reasoning_levels
   /\ In (verbosity (_apply_preset which)) verbosity_choices)
  /\ (custom_role (_apply_preset which) = [] /\ task (_apply_preset which) = []
      /\ audience (_apply_preset which) = [] /\ constraints (_apply_preset which) = []
      /\ json_schema (_apply_preset which) = []
      /\ additional_context (_apply_preset which) = []
      /\ tool_context (_apply_preset which) = []
      /\ planning_snippet (_apply_preset which) = []
      /\ coding_notes (_apply_preset which) = []
      /\ verbosity_override (_apply_preset which) = []
      /\ meta_prompt (_apply_preset which) = [] /\ meta_desired (_apply_preset which) = []
      /\ meta_undesired (_apply_preset which) = []
      /\ examples (_apply_preset which) = [] /\ variables (_apply_preset which) = ∅)
  /\ (meta_mode (_apply_preset which) = true <-> which = str "Metaprompt optimizer")
  /\ (~ In which [str "General task"; str "Agentic low-eagerness";
                  str "Agentic high-eagerness"; str "Coding workflow";
                  str "Metaprompt optimizer"] ->
      _apply_preset which = default_options).
Proof.
  assert (Hin : forall (x : pystr) (l : list pystr), existsb (eqb x) l = true -> In x l).
  { intros x l H. apply existsb_exists in H. destruct H as (y & Hy & E).
    unfold eqb in E. apply bool_decide_eq_true in E. now subst. }
  unfold _apply_preset, eqb.
  repeat case_bool_decide; subst.
  all: split; [repeat split; apply Hin; vm_compute; reflexivity|].
  all: split; [repeat split; reflexivity|].
  all: split;
    [split; intros Hm;
     first [reflexivity | contradiction | vm_compute in Hm; discriminate Hm]|].
  all: try (intros _; reflexivity).
  all: intros Hn; exfalso; apply Hn; apply Hin; vm_compute; reflexivity.
Qed.

(** ** [safe_json] *)






(** ** Removing the selected rows *)

Lemma unselected_ext {A : Type} (sel sel' : list nat) (i : nat) (table : list A) :
  (forall r, r ∈ sel <-> r ∈ sel') -> unselected sel i table = unselected sel' i table.
Proof.
  intros H. revert i. induction table as [|x table IH]; intros i; [reflexivity|].
  cbn [unselected]. rewrite (bool_decide_ext _ _ (H i)), !IH. reflexivity.
Qed.

Lemma unselected_below {A : Type} (sel : list nat) (i : nat) (table : list A) :
  (forall r, r ∈ sel -> (r < i)%nat) -> unselected sel i table = table.
Proof.
  revert i. induction table as [|x table IH]; intros i H; [reflexivity|].
  cbn [unselected]. rewrite bool_decide_eq_false_2.
  - f_equal. apply IH. intros r Hr. specialize (H r Hr). lia.
  - intros Hi. specialize (H i Hi). lia.
Qed.

Lemma unselected_delete {A : Type} (r : nat) (rs : list nat) (i : nat) (table : list A) :
  (forall x, x ∈ rs -> (x < r)%nat) -> (i <= r)%nat ->
  unselected rs i (delete (r - i)%nat table) = unselected (r :: rs) i table.
Proof.
  intros Hrs. revert i. induction table as [|x table IH]; intros i Hi; [reflexivity|].
  destruct (decide (i = r)) as [->|Hne].
  - rewrite Nat.sub_diag. cbn [delete list_delete unselected].
    rewrite bool_decide_eq_true_2 by (left).
    rewrite (unselected_below rs r) by exact Hrs.
    rewrite (unselected_below (r :: rs) (S r)); [reflexivity|].
    intros y Hy. apply elem_of_cons in Hy. destruct Hy as [->|Hy]; [lia|].
    specialize (Hrs y Hy). lia.
  - replace (r - i)%nat with (S (r - S i)) by lia.
    cbn [delete list_delete unselected].
    assert (Hmem : i ∈ rs <-> i ∈ r :: rs).
    { rewrite elem_of_cons. split; [tauto|]. intros [?|?]; [congruence | assumption]. }
    rewrite (bool_decide_ext _ _ Hmem).
    destruct (bool_decide (i ∈ r :: rs)); [|f_equal]; apply (IH (S i)); lia.
Qed.

Lemma fold_delete_descending {A : Type} (rs : list nat) (table : list A) :
  StronglySorted (fun a b => (b < a)%nat) rs ->
  fold_left (fun t r => delete r t) rs table = unselected rs 0 table.
Proof.
  intros Hs. revert table. induction Hs as [|r rs Hs IH Hall]; intros table.
  - simpl. symmetry. apply unselected_below. intros r Hr. now apply elem_of_nil in Hr.
  - cbn [fold_left]. rewrite IH.
    rewrite <- (unselected_delete r rs 0 table); [now rewrite Nat.sub_0_r | | lia].
    intros x Hx. rewrite List.Forall_forall in Hall. apply Hall.
    now apply list_elem_of_In.
Qed.

Lemma strictly_descending (rs : list nat) :
  StronglySorted ge rs -> NoDup rs -> StronglySorted (fun a b => (b < a)%nat) rs.
Proof.
  induction 1 as [|r rs Hs IH Hall]; intros Hnd; constructor.
  - apply IH. now inversion Hnd.
  - inversion Hnd as [|? ? Hnotin Hnd']; subst.
    rewrite List.Forall_forall in Hall |- *. intros x Hx.
    specialize (Hall x Hx). unfold ge in Hall.
    assert (x <> r) by (intros ->; apply Hnotin; now apply list_elem_of_In).
    lia.
Qed.

Lemma selected_rows_descending (sel : list nat) :
  StronglySorted (fun a b => (b < a)%nat) (selected_rows sel)
  /\ (forall r, r ∈ selected_rows sel <-> r ∈ sel).
Proof.
  unfold selected_rows.
  assert (Htrans : Transitive ge) by (intros x y z; unfold ge; lia).
  assert (Htotal : Total ge) by (intros x y; unfold ge; lia).
  split.
  - apply strictly_descending.
    + apply StronglySorted_merge_sort; assumption.
    + rewrite merge_sort_Permutation. apply NoDup_remove_dups.
  - intros r. rewrite merge_sort_Permutation. apply elem_of_remove_dups.
Qed.

(** X17. "Remove selected" removes exactly the selected rows: whatever
    rows are selected, in whatever order and however often each is
    reported, the table that is left holds the rows that were not selected,
    in their order; numbers beyond the table change nothing. *)
Theorem del_rows_removes_selected {A : Type} (sel : list nat) (table : list A) :
  _del_rows sel table = unselected sel 0 table
  /\ (forall i x, unselected sel 0 table !! i = Some x -> exists j, table !! j = Some x /\ j ∉ sel)
  /\ (length (_del_rows sel table) <= length table)%nat
  /\ ((forall r, r ∈ sel -> (length table <= r)%nat) -> _del_rows sel table = table).
Proof.
  destruct (selected_rows_descending sel) as [Hs Hmem].
  assert (E : _del_rows sel table = unselected sel 0 table).
  { unfold _del_rows. rewrite (fold_delete_descending _ _ Hs).
    now apply unselected_ext. }
  assert (Hgen : forall (t : list A) n i x,
            unselected sel n t !! i = Some x ->
            exists j, t !! j = Some x /\ (n + j)%nat ∉ sel).
  { induction t as [|y t IH]; intros n i x; [intros H; discriminate H|].
    cbn [unselected]. case_bool_decide as Hn.
    - intros H. destruct (IH _ _ _ H) as (j & Hj & Hnot).
      exists (S j). split; [exact Hj|]. now replace (n + S j)%nat with (S n + j)%nat by lia.
    - destruct i as [|i]; cbn.
      + intros [= ->]. exists 0%nat. split; [reflexivity|]. now rewrite Nat.add_0_r.
      + intros H. destruct (IH _ _ _ H) as (j & Hj & Hnot).
        exists (S j). split; [exact Hj|]. now replace (n + S j)%nat with (S n + j)%nat by lia. }
  assert (Hlen : forall (t : list A) n, (length (unselected sel n t) <= length t)%nat).
  { induction t as [|y t IH]; intros n; [reflexivity|].
    cbn [unselected]. case_bool_decide; cbn [length]; specialize (IH (S n)); lia. }
  split; [exact E|]. split; [|split].
  - intros i x H. destruct (Hgen _ _ _ _ H) as (j & Hj & Hnot). now exists j.
  - rewrite E. apply Hlen.
  - intros Hout. rewrite E.
    assert (Hkeep : forall (t : list A) n,
              (forall r, r ∈ sel -> (n + length t <= r)%nat) -> unselected sel n t = t).
    { induction t as [|y t IH]; intros n Hn; [reflexivity|].
      cbn [unselected]. rewrite bool_decide_eq_false_2.
      - f_equal. apply IH. intros r Hr. specialize (Hn r Hr). cbn [length] in Hn. lia.
      - intros Hin. specialize (Hn n Hin). cbn [length] in Hn. lia. }
    apply Hkeep. intros r Hr. specialize (Hout r Hr). lia.
Qed.

(** ** The planning block *)

(** X18. A planning snippet that is empty gives the default planning
    sentence, but a snippet made of whitespace only (and not empty) gives
    the bare header: the section of the prompt is then the word
    "Planning:" alone. *)
Theorem planning_block_blank_snippet (o : PromptOptions) :
  include_planning o = true ->
  forallb isspace (planning_snippet o) = true ->
  strip (_planning_block o)
  = (if truthy (planning_snippet o)
     then str "Planning:"
     else str "Planning:" ++ [nl]
          ++ str "Plan the steps before producing the final answer. Verify each step. Do not yield until all sub-tasks are complete.").
Proof.
  intros Hp Hblank. unfold _planning_block. rewrite Hp. cbn [negb].
  destruct (truthy (planning_snippet o)).
  - rewrite (clamp_text_blank _ Hblank). vm_compute. reflexivity.
  - vm_compute. reflexivity.
Qed.

(** ** The rationale directive *)

Lemma take_while_app_all (p : N -> bool) (a b : pystr) :
  drop_while p a = [] ->
  take_while p (a ++ b) = a ++ take_while p b
  /\ drop_while p (a ++ b) = drop_while p b.
Proof.
  induction a as [|c a IH]; simpl; [now split|].
  destruct (p c); [|discriminate]. intros H. destruct (IH H) as [-> ->]. now split.
Qed.

Lemma drop_while_app_cons (p : N -> bool) (a b : pystr) (c : N) (r : pystr) :
  drop_while p a = c :: r ->
  take_while p (a ++ b) = take_while p a /\ drop_while p (a ++ b) = c :: r ++ b.
Proof.
  induction a as [|d a IH]; simpl; [discriminate|].
  destruct (p d); [|intros [= <- <-]; now split].
  intros H. destruct (IH H) as [-> ->]. now split.
Qed.

Lemma drop_while_no_rbrace (b : pystr) :
  forallb (fun c => negb (c =? rbrace)) b = true ->
  match drop_while is_ident b with
  | c :: _ => (c =? rbrace) = false
  | [] => True
  end.
Proof.
  induction b as [|c b IH]; simpl; [intros _; exact I|].
  intros H. apply andb_true_iff in H. destruct H as [Hc Hb].
  destruct (is_ident c); [now apply IH|]. now apply negb_true_iff.
Qed.

(** A text without closing brace after the scanned text takes part in no
    match. *)
Lemma pat_var_app_no_rbrace (a b : pystr) :
  forallb (fun c => negb (c =? rbrace)) b = true ->
  Re.pat_var (a ++ b) =
  match Re.pat_var a with
  | Some (m, rest) => Some (m, rest ++ b)
  | None => None
  end.
Proof.
  intros Hb. destruct a as [|c a'].
  - simpl app. now rewrite (pat_var_no_rbrace _ Hb).
  - unfold Re.pat_var. change ((c :: a') ++ b) with (c :: (a' ++ b)). cbv beta iota.
    destruct (c =? lbrace) eqn:Ec; rewrite ?Ec; [|reflexivity].
    destruct (drop_while is_ident a') as [|c' r] eqn:Ed.
    + destruct (take_while_app_all is_ident a' b Ed) as [-> ->].
      pose proof (drop_while_no_rbrace b Hb) as Hnr.
      replace (take_while is_ident a') with a'
        by (rewrite <- (take_drop_while is_ident a') at 1; now rewrite Ed, app_nil_r).
      destruct a' as [|x a'']; simpl app.
      * destruct (take_while is_ident b); [reflexivity|].
        destruct (drop_while is_ident b); [reflexivity | now rewrite Hnr].
      * destruct (drop_while is_ident b); [reflexivity | now rewrite Hnr].
    + destruct (drop_while_app_cons is_ident a' b c' r Ed) as [-> ->].
      destruct (take_while is_ident a'); [reflexivity|].
      destruct (c' =? rbrace); reflexivity.
Qed.

Lemma replace_vars_no_rbrace_suffix (a b : pystr) (mapping : gmap (list N) (list N)) :
  forallb (fun c => negb (c =? rbrace)) b = true ->
  replace_vars (a ++ b) mapping = replace_vars a mapping ++ b.
Proof.
  intros Hb. remember (length a) as n eqn:Hn. revert a Hn.
  induction n as [n IH] using lt_wf_ind. intros a Hn.
  destruct a as [|c a'].
  - simpl app. now rewrite (replace_vars_no_rbrace _ _ Hb).
  - rewrite (replace_vars_unfold ((c :: a') ++ b)), (replace_vars_unfold (c :: a')).
    rewrite (pat_var_app_no_rbrace _ _ Hb).
    destruct (Re.pat_var (c :: a')) as [[m rest]|] eqn:E.
    + apply pat_var_consuming in E.
      rewrite (IH (length rest)); [|subst n; exact E|reflexivity].
      now rewrite <- app_assoc.
    + simpl app. cbn iota. f_equal.
      apply (IH (length a')); [subst n; simpl; lia | reflexivity].
Qed.

Lemma collapse_no_nl_suffix (a b : pystr) :
  b <> [] -> forallb (fun c => negb (is_nl c)) b = true ->
  collapse (a ++ b) = collapse a ++ b.
Proof.
  intros Hne Hb.
  assert (Hhead : take_while is_nl b = []).
  { destruct b as [|c b']; [congruence|]. simpl in Hb |- *.
    apply andb_true_iff in Hb. destruct Hb as [Hc _].
    apply negb_true_iff in Hc. now rewrite Hc. }
  assert (Hself : collapse b = b).
  { rewrite <- (app_nil_r b) at 1. rewrite (collapse_no_nl_prefix _ _ Hb).
    now rewrite collapse_nil, app_nil_r. }
  induction a as [|c a E IH|n rest Hn Hrest IH] using newline_run_ind.
  - exact Hself.
  - simpl app. rewrite !(collapse_cons _ _ E). now rewrite IH.
  - rewrite <- app_assoc. rewrite collapse_run, (collapse_run _ _ Hrest).
    + now rewrite IH, app_assoc.
    + destruct rest as [|d rest']; [exact Hhead|].
      simpl in Hrest |- *. now destruct (is_nl d).
Qed.

Lemma lstrip_app_suffix (a b : pystr) :
  lstrip b = b -> exists pre, lstrip (a ++ b) = pre ++ b.
Proof.
  intros Hb. unfold lstrip in *. induction a as [|c a IH]; simpl.
  - exists []. exact Hb.
  - destruct (isspace c); [exact IH | now exists (c :: a)].
Qed.

Lemma clamp_text_suffix (a b : pystr) :
  b <> [] -> lstrip b = b -> rstrip b = b ->
  forallb (fun c => negb (is_nl c)) b = true ->
  exists pre, clamp_text (a ++ b) = pre ++ b.
Proof.
  intros Hne Hl Hr Hb. rewrite clamp_text_eq, (collapse_no_nl_suffix _ _ Hne Hb).
  unfold strip. destruct (lstrip_app_suffix (collapse a) b Hl) as [pre ->].
  exists pre. rewrite rstrip_app_keep; [now rewrite Hr | now rewrite Hr].
Qed.

Lemma join_snoc (sep : pystr) (l : list pystr) (p : pystr) :
  exists pre, join sep (l ++ [p]) = pre ++ p.
Proof.
  induction l as [|q l IH]; [now exists []|].
  destruct IH as [pre IH]. exists (q ++ sep ++ pre).
  change ((q :: l) ++ [p]) with (q :: (l ++ [p])). rewrite join_cons.
  destruct (l ++ [p]) eqn:E; [now destruct l|]. now rewrite IH, <- !app_assoc.
Qed.

Section Rationale.
Context {R : Runtime}.

(** X19. Outside meta mode, when the brief-rationale flag is set the
    prompt ends with the rationale directive, whatever the other fields and
    the variables hold. *)
Theorem build_ends_with_rationale (o : PromptOptions) :
  meta_mode o = false -> ask_brief_rationale o = true ->
  exists pre,
    build o =
    pre ++ str "Begin the final answer with 1-3 concise bullets summarizing key factors. Do not include private chain-of-thought.".
Proof.
  intros M Hr. unfold build. rewrite M.
  set (rat := str "Begin the final answer with 1-3 concise bullets summarizing key factors. Do not include private chain-of-thought.").
  assert (Hj : exists pre, joined o = pre ++ rat).
  { rewrite joined_sections.
    assert (Hs : exists front, sections o = front ++ [rat]).
    { unfold sections. rewrite Hr.
      eexists [_; _; _; _; _; _; _; _; _; _; _; _; _]. reflexivity. }
    destruct Hs as [front ->]. rewrite List.filter_app. cbn [List.filter].
    replace (nonblank rat) with true by (vm_compute; reflexivity).
    apply join_snoc. }
  destruct Hj as [pre ->].
  destruct (clamp_text_suffix pre rat) as [pre' ->];
    [discriminate | vm_compute; reflexivity ..|].
  exists (replace_vars pre' (variables o)).
  apply replace_vars_no_rbrace_suffix. vm_compute. reflexivity.
Qed.

End Rationale.

(** * Instances of the further properties *)

Lemma replace_vars_malformed_key_inert_witness :
  replace_vars (str "Deploy {APP NAME} to {ENV}")
    (<[str "APP NAME" := str "shop"]> {[ str "ENV" := str "staging" ]})
  = replace_vars (str "Deploy {APP NAME} to {ENV}") {[ str "ENV" := str "staging" ]}.
Proof.
  apply (replace_vars_malformed_key_inert (str "Deploy {APP NAME} to {ENV}")
           (str "APP NAME") (str "shop") {[ str "ENV" := str "staging" ]}).
  right. reflexivity.
Defined.

Lemma replace_vars_without_braces_witness :
  replace_vars (str "a set is written { 1, 2") {[ str "a" := str "b" ]}
  = str "a set is written { 1, 2".
Proof.
  apply (replace_vars_without_braces (str "a set is written { 1, 2") {[ str "a" := str "b" ]}).
  right. reflexivity.
Defined.

Lemma build_normalized_without_variables_witness :
  clamp_text (build (R:=posix) (coding_scenario (str "Fix the failing test")))
  = build (R:=posix) (coding_scenario (str "Fix the failing test"))
  /\ (forall c t, build (R:=posix) (coding_scenario (str "Fix the failing test")) = c :: t ->
        isspace c = false)
  /\ (forall c t, build (R:=posix) (coding_scenario (str "Fix the failing test")) = t ++ [c] ->
        isspace c = false)
  /\ (forall a b, build (R:=posix) (coding_scenario (str "Fix the failing test"))
                  <> a ++ [nl; nl; nl] ++ b).
Proof.
  apply (build_normalized_without_variables (R:=posix)
           (coding_scenario (str "Fix the failing test"))).
  reflexivity.
Defined.

Lemma build_ignores_meta_fields_witness :
  build (R:=posix)
    (set_meta_prompt (str "old prompt")
       (set_meta_desired (str "short") (set_meta_undesired (str "long") default_options)))
  = build (R:=posix) default_options.
Proof.
  apply (build_ignores_meta_fields (R:=posix) default_options
           (str "old prompt") (str "short") (str "long")).
  reflexivity.
Defined.

Lemma constraints_block_foreign_separator_witness :
  _constraints_block (R:=windows)
    (set_constraints (str "be brief" ++ [nl] ++ str "cite sources") default_options)
  = str "Constraints:" ++ [nl] ++ str "- "
    ++ clamp_text (constraints
         (set_constraints (str "be brief" ++ [nl] ++ str "cite sources") default_options)).
Proof.
  apply (constraints_block_foreign_separator (R:=windows)
           (set_constraints (str "be brief" ++ [nl] ++ str "cite sources") default_options));
    [discriminate | reflexivity | reflexivity].
Defined.

Lemma collect_variables_round_trip_witness :
  collect_variables (variable_rows {[ str "LANG" := str "Python" ]})
  = {[ str "LANG" := str "Python" ]}
  /\ (forall k,
        is_Some (collect_variables [(Some (str "LANG"), Some (str "Go"))] !! k) ->
        k <> [] /\ strip k = k)
  /\ collect_variables ([(Some (str "LANG"), Some (str "Go"))]
                        ++ [(Some (str " LANG "), Some (str "Rust"))])
     !! strip (str " LANG ") = Some (str "Rust")
  /\ collect_variables ([(Some (str "LANG"), Some (str "Go"))] ++ [(None, Some (str "Rust"))])
     = collect_variables [(Some (str "LANG"), Some (str "Go"))]
  /\ collect_variables ([(Some (str "LANG"), Some (str "Go"))] ++ [(Some (str " LANG "), None)])
     = collect_variables [(Some (str "LANG"), Some (str "Go"))]
  /\ collect_variables ([(Some (str "LANG"), Some (str "Go"))] ++ [(Some [], Some (str "Rust"))])
     = collect_variables [(Some (str "LANG"), Some (str "Go"))].
Proof.
  apply (collect_variables_round_trip [(Some (str "LANG"), Some (str "Go"))]
           {[ str "LANG" := str "Python" ]} (str " LANG ") (str "Rust")).
  - intros k [x Hx]. apply lookup_singleton_Some in Hx. destruct Hx as [<- _].
    split; [discriminate | reflexivity].
  - discriminate.
Defined.

Lemma planning_block_blank_snippet_witness :
  strip (_planning_block
           (set_include_planning true (set_planning_snippet (str "  ") default_options)))
  = (if truthy (planning_snippet
                  (set_include_planning true (set_planning_snippet (str "  ") default_options)))
     then str "Planning:"
     else str "Planning:" ++ [nl]
          ++ str "Plan the steps before producing the final answer. Verify each step. Do not yield until all sub-tasks are complete.").
Proof.
  apply (planning_block_blank_snippet
           (set_include_planning true (set_planning_snippet (str "  ") default_options)));
    reflexivity.
Defined.

Lemma build_ends_with_rationale_witness :
  exists pre,
    build (R:=posix) (set_ask_brief_rationale true default_options) =
    pre ++ str "Begin the final answer with 1-3 concise bullets summarizing key factors. Do not include private chain-of-thought.".
Proof.
  apply (build_ends_with_rationale (R:=posix) (set_ask_brief_rationale true default_options));
    reflexivity.
Defined.

(** * The coding scenario for every record *)

(** ** Segments that the final steps leave alone *)

Lemma collapse_app_head (a : pystr) (c : N) (b : pystr) :
  is_nl c = false -> collapse (a ++ c :: b) = collapse a ++ collapse (c :: b).
Proof.
  intros Ec. induction a as [|x a E IH|n rest Hn Hrest IH] using newline_run_ind.
  - reflexivity.
  - simpl app. rewrite !(collapse_cons _ _ E), IH. reflexivity.
  - rewrite <- app_assoc, collapse_run, (collapse_run _ _ Hrest).
    + now rewrite IH, app_assoc.
    + destruct rest as [|d rest']; simpl in Hrest |- *; [now rewrite Ec|].
      now destruct (is_nl d).
Qed.

Lemma edge_head (s : pystr) :
  s <> [] -> take_while is_nl s = [] -> exists c s', s = c :: s' /\ is_nl c = false.
Proof.
  intros Hne H. destruct s as [|c s']; [congruence|].
  exists c, s'. split; [reflexivity | exact (take_while_nil_head _ _ _ H)].
Qed.

Lemma edge_last (s : pystr) :
  s <> [] -> take_while is_nl (rev s) = [] -> exists s0 d, s = s0 ++ [d] /\ is_nl d = false.
Proof.
  intros Hne H. destruct (snoc_cases s) as [->|(s0 & d & ->)]; [congruence|].
  exists s0, d. split; [reflexivity|].
  rewrite rev_app_distr in H. exact (take_while_nil_head _ _ _ H).
Qed.

(** A text that ends with a character other than a newline and has no three
    consecutive newlines is copied by the collapse, whatever follows. *)
Lemma collapse_closed_prefix (s b : pystr) :
  s <> [] -> take_while is_nl (rev s) = [] -> no_triple_nl s = true ->
  collapse (s ++ b) = s ++ collapse b.
Proof.
  intros Hne Hlast Hnt. destruct (edge_last s Hne Hlast) as (s0 & d & E & Ed).
  rewrite <- (collapse_fixed s Hnt) at 2. rewrite E, <- !app_assoc. cbn [app].
  rewrite (collapse_app_head s0 d b Ed), (collapse_app_head s0 d [] Ed).
  rewrite !(collapse_cons _ _ Ed), collapse_nil, <- app_assoc. reflexivity.
Qed.

(** The same for a text in the middle that also starts with a character
    other than a newline. *)
Lemma collapse_segment (a s b : pystr) :
  s <> [] -> take_while is_nl s = [] -> take_while is_nl (rev s) = [] ->
  no_triple_nl s = true ->
  collapse (a ++ s ++ b) = collapse a ++ s ++ collapse b.
Proof.
  intros Hne Hhead Hlast Hnt.
  destruct (edge_head s Hne Hhead) as (c & s' & E & Ec).
  rewrite <- (collapse_closed_prefix s b Hne Hlast Hnt).
  rewrite E. cbn [app]. apply (collapse_app_head a c (s' ++ b) Ec).
Qed.

Lemma clamp_text_edges (t : pystr) :
  take_while is_nl (clamp_text t) = [] /\ take_while is_nl (rev (clamp_text t)) = [].
Proof.
  split.
  - destruct (clamp_text t) as [|c x] eqn:E; [reflexivity|].
    rewrite clamp_text_eq in E. apply strip_head, isspace_not_nl in E.
    simpl. now rewrite E.
  - destruct (rev (clamp_text t)) as [|d r] eqn:E; [reflexivity|].
    apply (f_equal (@rev N)) in E. rewrite rev_involutive in E. cbn [rev] in E.
    rewrite clamp_text_eq in E. apply strip_last, isspace_not_nl in E.
    simpl. now rewrite E.
Qed.

Lemma strip_prefix_closed (a y : pystr) :
  a <> [] -> lstrip a = a -> rstrip a = a -> strip (a ++ y) = a ++ rstrip y.
Proof.
  intros Hne Hl Hr. unfold strip.
  assert (Hlead : lstrip (a ++ y) = a ++ y).
  { destruct a as [|c a']; [congruence|]. simpl app.
    apply lstrip_fixed_head, (lstrip_head _ _ Hl). }
  rewrite Hlead.
  destruct (snoc_cases a) as [->|(a0 & d & ->)]; [congruence|].
  apply rstrip_app_last, (rstrip_last _ _ Hr).
Qed.

Lemma rstrip_app_closed (a b y : pystr) :
  b <> [] -> rstrip b = b -> rstrip (a ++ b ++ y) = a ++ b ++ rstrip y.
Proof.
  intros Hne Hr. destruct (snoc_cases b) as [->|(b0 & d & ->)]; [congruence|].
  pose proof (rstrip_last _ _ Hr) as Ed.
  rewrite !app_assoc. rewrite (rstrip_app_last (a ++ b0) d y Ed). reflexivity.
Qed.

(** A character that is neither an identifier character nor a brace takes
    part in no match. *)
Lemma pat_var_app_barrier (a : pystr) (c : N) (t : pystr) :
  a <> [] -> is_ident c = false -> (c =? rbrace) = false ->
  Re.pat_var (a ++ c :: t) =
  match Re.pat_var a with
  | Some (m, rest) => Some (m, rest ++ c :: t)
  | None => None
  end.
Proof.
  intros Ha Hid Hr. destruct a as [|x a']; [congruence|].
  unfold Re.pat_var. change ((x :: a') ++ c :: t) with (x :: (a' ++ c :: t)).
  cbv beta iota. destruct (x =? lbrace) eqn:Ex; rewrite ?Ex; [|reflexivity].
  assert (Hstop : take_while is_ident (c :: t) = []) by (simpl; now rewrite Hid).
  rewrite (take_while_app_stop _ _ _ Hstop), (drop_while_app_stop _ _ _ Hstop).
  destruct (take_while is_ident a') as [|k0 k'].
  - reflexivity.
  - destruct (drop_while is_ident a') as [|c' rest']; cbn [app]; [now rewrite Hr|].
    destruct (c' =? rbrace); reflexivity.
Qed.

Lemma replace_vars_barrier (u : pystr) (c : N) (v : pystr)
    (mapping : gmap (list N) (list N)) :
  is_ident c = false -> (c =? rbrace) = false -> (c =? lbrace) = false ->
  replace_vars (u ++ c :: v) mapping = replace_vars u mapping ++ c :: replace_vars v mapping.
Proof.
  intros Hid Hr Hl.
  remember (length u) as n eqn:Hn. revert u Hn.
  induction n as [n IH] using lt_wf_ind. intros u Hn.
  destruct u as [|x u'].
  - cbn [app]. rewrite (replace_vars_unfold (c :: v)). unfold Re.pat_var.
    rewrite Hl. reflexivity.
  - rewrite (replace_vars_unfold ((x :: u') ++ _)), (replace_vars_unfold (x :: u')).
    rewrite pat_var_app_barrier by (assumption || discriminate).
    destruct (Re.pat_var (x :: u')) as [[m rest]|] eqn:E.
    + apply pat_var_consuming in E.
      rewrite (IH (length rest)); [|subst n; exact E|reflexivity].
      now rewrite <- app_assoc.
    + cbn [app]. f_equal.
      apply (IH (length u')); [subst n; simpl; lia|reflexivity].
Qed.

(** A segment without braces that holds such a character is copied by the
    substitution, and the texts on its two sides are substituted on their
    own. *)
Lemma replace_vars_inert (u s1 : pystr) (c : N) (s2 v : pystr)
    (mapping : gmap (list N) (list N)) :
  forallb (fun c => negb (c =? rbrace)) s1 = true ->
  is_ident c = false -> (c =? rbrace) = false -> (c =? lbrace) = false ->
  forallb (fun c => negb (c =? lbrace)) s2 = true ->
  replace_vars (u ++ (s1 ++ c :: s2) ++ v) mapping
  = replace_vars u mapping ++ (s1 ++ c :: s2) ++ replace_vars v mapping.
Proof.
  intros H1 Hid Hr Hl H2.
  replace (u ++ (s1 ++ c :: s2) ++ v) with ((u ++ s1) ++ c :: (s2 ++ v))
    by (rewrite <- !app_assoc; reflexivity).
  rewrite (replace_vars_barrier _ _ _ _ Hid Hr Hl).
  rewrite (replace_vars_no_rbrace_suffix _ _ _ H1).
  rewrite (replace_vars_no_lbrace_prefix _ _ _ H2).
  rewrite <- !app_assoc. reflexivity.
Qed.

Lemma join_cons_app (sep q : pystr) (l1 : list pystr) (p : pystr) (l2 : list pystr) :
  join sep (q :: (l1 ++ p :: l2)) = q ++ sep ++ join sep (l1 ++ p :: l2).
Proof. rewrite join_cons. now destruct l1. Qed.

Lemma join_middle (sep : pystr) (l1 : list pystr) (p : pystr) (l2 : list pystr) :
  exists m1 m2, join sep (l1 ++ p :: l2) = m1 ++ p ++ m2.
Proof.
  induction l1 as [|q l1 IH].
  - cbn [app]. rewrite join_cons. now exists [], (match l2 with
                                                   | [] => []
                                                   | _ :: _ => sep ++ join sep l2
                                                   end).
  - destruct IH as (m1 & m2 & IH).
    change ((q :: l1) ++ p :: l2) with (q :: (l1 ++ p :: l2)).
    rewrite join_cons_app, IH. exists (q ++ sep ++ m1), m2.
    rewrite <- !app_assoc. reflexivity.
Qed.

Lemma nonblank_clamp_text (t : pystr) : nonblank t = true -> clamp_text t <> [].
Proof.
  intros Ht E. unfold nonblank in Ht.
  assert (Hsp : forallb isspace t = true).
  { apply filter_nonspace_nil.
    rewrite <- filter_nonspace_collapse, <- filter_nonspace_strip, <- clamp_text_eq.
    now rewrite E. }
  now rewrite (strip_spaces _ Hsp) in Ht.
Qed.

Lemma lstrip_app_fixed (a y : pystr) : a <> [] -> lstrip a = a -> lstrip (a ++ y) = a ++ y.
Proof.
  intros Hne Hl. destruct a as [|c a']; [congruence|]. simpl app.
  apply lstrip_fixed_head, (lstrip_head _ _ Hl).
Qed.

(** The clamp of a text built around a clamped text [x], a closing segment
    [t1] and a later segment [cp]: the three are kept where they are. *)
Lemma clamp_text_frame (p0 t t1 m cp q : pystr) :
  p0 <> [] -> lstrip p0 = p0 -> no_triple_nl p0 = true ->
  clamp_text t <> [] ->
  t1 <> [] -> take_while is_nl (rev t1) = [] -> no_triple_nl t1 = true ->
  cp <> [] -> take_while is_nl cp = [] -> take_while is_nl (rev cp) = [] ->
  no_triple_nl cp = true -> rstrip cp = cp ->
  clamp_text (p0 ++ clamp_text t ++ t1 ++ m ++ cp ++ q)
  = p0 ++ clamp_text t ++ t1 ++ collapse m ++ cp ++ rstrip (collapse q).
Proof.
  intros Hp0 Hl0 Hnt0 Hx Ht1 Hlast1 Hnt1 Hcp Hhead Hlast Hntc Hrc.
  destruct (clamp_text_edges t) as [Hxh Hxl].
  rewrite (clamp_text_eq (p0 ++ _)).
  rewrite (collapse_segment p0 (clamp_text t) _ Hx Hxh Hxl (no_triple_nl_clamp t)).
  rewrite (collapse_fixed p0 Hnt0).
  rewrite (collapse_closed_prefix t1 _ Ht1 Hlast1 Hnt1).
  rewrite (collapse_segment m cp q Hcp Hhead Hlast Hntc).
  unfold strip. rewrite (lstrip_app_fixed p0 _ Hp0 Hl0).
  replace (p0 ++ clamp_text t ++ t1 ++ collapse m ++ cp ++ collapse q)
    with ((p0 ++ clamp_text t ++ t1 ++ collapse m) ++ cp ++ collapse q)
    by (rewrite <- !app_assoc; reflexivity).
  rewrite (rstrip_app_closed _ cp _ Hcp Hrc). rewrite <- !app_assoc. reflexivity.
Qed.

Lemma strip_join_two (a b : pystr) (rest : list pystr) :
  lstrip (a ++ [nl] ++ b) = a ++ [nl] ++ b ->
  rstrip (a ++ [nl] ++ b) = a ++ [nl] ++ b ->
  exists tc, strip (join [nl] (a :: b :: rest)) = (a ++ [nl] ++ b) ++ tc.
Proof.
  intros Hl Hr. rewrite join_cons. cbv iota. rewrite join_cons.
  exists (rstrip match rest with [] => [] | _ :: _ => [nl] ++ join [nl] rest end).
  rewrite <- (strip_prefix_closed (a ++ [nl] ++ b)); [|now destruct a|exact Hl|exact Hr].
  rewrite <- !app_assoc. reflexivity.
Qed.

Section CodingRecord.
Context {R : Runtime}.

Lemma coding_block_patch (o : PromptOptions) :
  coding_mode o = true -> include_apply_patch_instr o = true ->
  exists tc,
    strip (_coding_block o) =
    (str "Coding mode: enabled. Prefer small, verifiable steps and runnable outputs."
     ++ [nl]
     ++ str "For code edits, prefer unified diffs in an apply_patch block: begin with '*** Begin Patch' and end with '*** End Patch'.")
    ++ tc.
Proof.
  intros Hc Hp. unfold _coding_block. rewrite Hc, Hp. cbv beta iota zeta. cbn [negb app].
  destruct (include_tool_defs o), (truthy (clamp_text (coding_notes o))); cbn [app];
    apply strip_join_two; vm_compute; reflexivity.
Qed.

Lemma role_line_coding (o : PromptOptions) :
  role o = str "Coding assistant" -> _role_line o = str "You are Coding assistant.".
Proof. intros H. unfold _role_line. rewrite H. vm_compute. reflexivity. Qed.

Lemma delim_backticks (o : PromptOptions) :
  delimiters o = str "triple backticks" -> _delim o = (str "```", str "```").
Proof. intros H. unfold _delim. rewrite H. vm_compute. reflexivity. Qed.

Lemma filter_nonblank_cons (p : pystr) (l : list pystr) :
  nonblank p = true -> List.filter nonblank (p :: l) = p :: List.filter nonblank l.
Proof. intros H. cbn [List.filter]. now rewrite H. Qed.

Lemma sections_coding_record (o : PromptOptions) :
  role o = str "Coding assistant" -> nonblank (task o) = true ->
  delimiters o = str "triple backticks" ->
  coding_mode o = true -> include_apply_patch_instr o = true ->
  exists l1 l2 tc,
    List.filter nonblank (sections o) =
    str "You are Coding assistant."
    :: (str "Task ```" ++ [nl] ++ clamp_text (task o) ++ [nl] ++ str "```")
    :: (l1
        ++ ((str "Coding mode: enabled. Prefer small, verifiable steps and runnable outputs."
             ++ [nl]
             ++ str "For code edits, prefer unified diffs in an apply_patch block: begin with '*** Begin Patch' and end with '*** End Patch'.")
            ++ tc)
        :: l2).
Proof.
  intros Hrole Ht Hd Hc Hp.
  destruct (coding_block_patch o Hc Hp) as [tc Htc].
  unfold sections. rewrite Htc, (role_line_coding o Hrole), (delim_backticks o Hd).
  change (truthy (strip (task o))) with (nonblank (task o)). rewrite Ht.
  cbn [fst snd].
  match goal with
  | |- context [List.filter nonblank (?r :: ?t :: ?c :: ?a :: ?k :: ?v :: ?e :: ?g :: ?p :: ?cb :: ?rest)] =>
      change (r :: t :: c :: a :: k :: v :: e :: g :: p :: cb :: rest)
        with (r :: t :: ([c; a; k; v; e; g; p] ++ cb :: rest));
      exists (List.filter nonblank [c; a; k; v; e; g; p]), (List.filter nonblank rest), tc
  end.
  rewrite filter_nonblank_cons by (vm_compute; reflexivity).
  rewrite filter_nonblank_cons
    by (apply (nonblank_prefix (str "Task ```") _ 84 (str "ask ```")); reflexivity).
  rewrite List.filter_app.
  rewrite (filter_nonblank_cons (_ ++ tc))
    by (rewrite <- !app_assoc;
        apply (nonblank_prefix
                 (str "Coding mode: enabled. Prefer small, verifiable steps and runnable outputs.")
                 _ 67
                 (str "oding mode: enabled. Prefer small, verifiable steps and runnable outputs."));
        reflexivity).
  reflexivity.
Qed.

End CodingRecord.

Section CodingTheorem.
Context {R : Runtime}.

Lemma build_coding_record (o : PromptOptions) :
  meta_mode o = false ->
  role o = str "Coding assistant" -> nonblank (task o) = true ->
  delimiters o = str "triple backticks" ->
  coding_mode o = true -> include_apply_patch_instr o = true ->
  exists mid post,
    build o =
      str "You are Coding assistant." ++ [nl; nl]
      ++ str "Task ```" ++ [nl]
      ++ replace_vars (clamp_text (task o)) (variables o)
      ++ [nl] ++ str "```"
      ++ mid
      ++ str "Coding mode: enabled. Prefer small, verifiable steps and runnable outputs."
      ++ [nl]
      ++ str "For code edits, prefer unified diffs in an apply_patch block: begin with '*** Begin Patch' and end with '*** End Patch'."
      ++ post.
Proof.
  intros M Hrole Ht Hd Hc Hp.
  destruct (sections_coding_record o Hrole Ht Hd Hc Hp) as (l1 & l2 & tc & Hs).
  unfold build. rewrite M, joined_sections, Hs.
  rewrite join_cons. cbv iota. rewrite join_cons_app.
  match goal with
  | |- context [join _ (l1 ++ ?p :: l2)] =>
      destruct (join_middle [nl; nl] l1 p l2) as (m1 & m2 & Hj); rewrite Hj; clear Hj
  end.
  set (cp := str "Coding mode: enabled. Prefer small, verifiable steps and runnable outputs."
             ++ [nl]
             ++ str "For code edits, prefer unified diffs in an apply_patch block: begin with '*** Begin Patch' and end with '*** End Patch'.").
  set (p0 := str "You are Coding assistant." ++ [nl; nl] ++ str "Task ```" ++ [nl]).
  set (t1 := [nl] ++ str "```").
  match goal with
  | |- context [clamp_text ?j] =>
      replace j with (p0 ++ clamp_text (task o) ++ t1 ++ ([nl; nl] ++ m1) ++ cp ++ (tc ++ m2))
        by (subst p0 t1; rewrite <- !app_assoc; reflexivity)
  end.
  rewrite (clamp_text_frame p0 (task o) t1 _ cp _);
    [| discriminate | vm_compute; reflexivity | vm_compute; reflexivity
     | now apply nonblank_clamp_text
     | discriminate | vm_compute; reflexivity | vm_compute; reflexivity
     | discriminate | vm_compute; reflexivity | vm_compute; reflexivity
     | vm_compute; reflexivity | vm_compute; reflexivity ].
  rewrite (replace_vars_no_lbrace_prefix p0) by (vm_compute; reflexivity).
  change t1 with ([] ++ nl :: str "```").
  rewrite (replace_vars_inert (clamp_text (task o)) [] nl (str "```"))
    by (vm_compute; reflexivity).
  change cp with (str "Coding" ++ 32 :: str "mode: enabled. Prefer small, verifiable steps and runnable outputs."
                  ++ [nl]
                  ++ str "For code edits, prefer unified diffs in an apply_patch block: begin with '*** Begin Patch' and end with '*** End Patch'.").
  rewrite (replace_vars_inert _ (str "Coding") 32) by (vm_compute; reflexivity).
  eexists (replace_vars _ (variables o)), (replace_vars _ (variables o)).
  subst p0. rewrite <- !app_assoc. reflexivity.
Qed.

(** C8 (as the code has it). Outside meta mode the prompt is made of the
    sections in the specified order.  For every record outside meta mode
    with the role "Coding assistant", a task that is not blank, backtick
    fences, coding mode and the patch instruction, whatever the other
    fields hold, the prompt starts with the role line; then comes the
    clamped task text, with its bound placeholders substituted, between
    backtick fences under its header; later the coding-mode sentence,
    followed by the patch-format instruction.  With no variable bound the
    fenced text is the clamped task text itself, and with every other field
    at its default the prompt is given in full. *)
Theorem build_coding_scenario (o : PromptOptions) :
  meta_mode o = false ->
  build o = replace_vars (clamp_text (join [nl; nl] (List.filter nonblank (sections o))))
              (variables o)
  /\ (role o = str "Coding assistant" -> nonblank (task o) = true ->
      delimiters o = str "triple backticks" ->
      coding_mode o = true -> include_apply_patch_instr o = true ->
      (exists mid post,
        build o =
          str "You are Coding assistant." ++ [nl; nl]
          ++ str "Task ```" ++ [nl]
          ++ replace_vars (clamp_text (task o)) (variables o)
          ++ [nl] ++ str "```"
          ++ mid
          ++ str "Coding mode: enabled. Prefer small, verifiable steps and runnable outputs."
          ++ [nl]
          ++ str "For code edits, prefer unified diffs in an apply_patch block: begin with '*** Begin Patch' and end with '*** End Patch'."
          ++ post)
     /\ ((variables o) = ∅ ->
         exists mid post,
           build o =
             str "You are Coding assistant." ++ [nl; nl]
             ++ str "Task ```" ++ [nl] ++ clamp_text (task o) ++ [nl] ++ str "```"
             ++ mid
             ++ str "Coding mode: enabled. Prefer small, verifiable steps and runnable outputs."
             ++ [nl]
             ++ str "For code edits, prefer unified diffs in an apply_patch block: begin with '*** Begin Patch' and end with '*** End Patch'."
             ++ post)
     /\ build (coding_scenario (task o)) =
          str "You are Coding assistant." ++ [nl; nl]
          ++ str "Task ```" ++ [nl] ++ clamp_text (task o) ++ [nl] ++ str "```" ++ [nl; nl]
          ++ str "Agentic eagerness: medium. Balance proactivity with directness." ++ [nl; nl]
          ++ str "Coding mode: enabled. Prefer small, verifiable steps and runnable outputs."
          ++ [nl]
          ++ str "For code edits, prefer unified diffs in an apply_patch block: begin with '*** Begin Patch' and end with '*** End Patch'.").
Proof.
  intros M. split.
  - unfold build. rewrite M. now rewrite joined_sections.
  - intros Hrole Ht Hd Hc Hp.
    pose proof (build_coding_record o M Hrole Ht Hd Hc Hp) as Hrec.
    split; [exact Hrec|split].
    + intros Hv. rewrite Hv in Hrec. now rewrite replace_vars_empty in Hrec.
    + now apply coding_scenario_defaults_build.
Qed.

End CodingTheorem.

(** C8: a task made of one space is not empty, and the prompt has no task
    block: the role line is followed by the eagerness sentence. *)
Lemma build_coding_scenario_counterexample :
  str " " <> []
  /\ contains (build (R:=posix) (coding_scenario (str " "))) (str "Task") = false
  /\ ~ (exists pre post,
         build (R:=posix) (coding_scenario (str " "))
         = pre ++ (str "Task ```" ++ [nl] ++ str " " ++ [nl] ++ str "```") ++ post)
  /\ build (R:=posix) (coding_scenario (str " "))
     = str "You are Coding assistant." ++ [nl; nl]
       ++ str "Agentic eagerness: medium. Balance proactivity with directness." ++ [nl; nl]
       ++ str "Coding mode: enabled. Prefer small, verifiable steps and runnable outputs."
       ++ [nl]
       ++ str "For code edits, prefer unified diffs in an apply_patch block: begin with '*** Begin Patch' and end with '*** End Patch'.".
Proof.
  split; [discriminate|]. split; [vm_compute; reflexivity|]. split.
  - intros (pre & post & H).
    pose proof (contains_complete pre
                  (str "Task ```" ++ [nl] ++ str " " ++ [nl] ++ str "```") post) as Hc.
    rewrite <- H in Hc. vm_compute in Hc. discriminate Hc.
  - vm_compute. reflexivity.
Qed.

Lemma build_coding_scenario_witness :
  build (R:=posix) (set_task (str "Fix the failing test") (_apply_preset (str "Coding workflow")))
  = replace_vars
      (clamp_text (join [nl; nl]
         (List.filter nonblank (sections (R:=posix) (set_task (str "Fix the failing test") (_apply_preset (str "Coding workflow")))))))
      (variables (set_task (str "Fix the failing test") (_apply_preset (str "Coding workflow"))))
  /\ ((exists mid post,
        build (R:=posix) (set_task (str "Fix the failing test") (_apply_preset (str "Coding workflow"))) =
          str "You are Coding assistant." ++ [nl; nl]
          ++ str "Task ```" ++ [nl]
          ++ replace_vars (clamp_text (task (set_task (str "Fix the failing test") (_apply_preset (str "Coding workflow"))))) (variables (set_task (str "Fix the failing test") (_apply_preset (str "Coding workflow"))))
          ++ [nl] ++ str "```"
          ++ mid
          ++ str "Coding mode: enabled. Prefer small, verifiable steps and runnable outputs."
          ++ [nl]
          ++ str "For code edits, prefer unified diffs in an apply_patch block: begin with '*** Begin Patch' and end with '*** End Patch'."
          ++ post)
     /\ ((variables (set_task (str "Fix the failing test") (_apply_preset (str "Coding workflow")))) = ∅ ->
         exists mid post,
           build (R:=posix) (set_task (str "Fix the failing test") (_apply_preset (str "Coding workflow"))) =
             str "You are Coding assistant." ++ [nl; nl]
             ++ str "Task ```" ++ [nl] ++ clamp_text (task (set_task (str "Fix the failing test") (_apply_preset (str "Coding workflow")))) ++ [nl] ++ str "```"
             ++ mid
             ++ str "Coding mode: enabled. Prefer small, verifiable steps and runnable outputs."
             ++ [nl]
             ++ str "For code edits, prefer unified diffs in an apply_patch block: begin with '*** Begin Patch' and end with '*** End Patch'."
             ++ post)
     /\ build (R:=posix) (coding_scenario (task (set_task (str "Fix the failing test") (_apply_preset (str "Coding workflow"))))) =
          str "You are Coding assistant." ++ [nl; nl]
          ++ str "Task ```" ++ [nl] ++ clamp_text (task (set_task (str "Fix the failing test") (_apply_preset (str "Coding workflow")))) ++ [nl] ++ str "```" ++ [nl; nl]
          ++ str "Agentic eagerness: medium. Balance proactivity with directness." ++ [nl; nl]
          ++ str "Coding mode: enabled. Prefer small, verifiable steps and runnable outputs."
          ++ [nl]
          ++ str "For code edits, prefer unified diffs in an apply_patch block: begin with '*** Begin Patch' and end with '*** End Patch'.").
Proof.
  destruct (build_coding_scenario (R:=posix) (set_task (str "Fix the failing test") (_apply_preset (str "Coding workflow"))) eq_refl) as [Horder Hscenario].
  split; [exact Horder | apply Hscenario; reflexivity].
Defined.

(** The fenced text is the task as the builder rewrites it, not as it was
    entered: four newlines in a row come out as two, and a placeholder that
    is bound comes out as its value. *)
Lemma coding_record_task_rewritten :
  build (R:=posix) (coding_scenario (str "a" ++ [nl; nl; nl; nl] ++ str "b"))
  = str "You are Coding assistant." ++ [nl; nl]
    ++ str "Task ```" ++ [nl] ++ str "a" ++ [nl; nl] ++ str "b" ++ [nl] ++ str "```" ++ [nl; nl]
    ++ str "Agentic eagerness: medium. Balance proactivity with directness." ++ [nl; nl]
    ++ str "Coding mode: enabled. Prefer small, verifiable steps and runnable outputs."
    ++ [nl]
    ++ str "For code edits, prefer unified diffs in an apply_patch block: begin with '*** Begin Patch' and end with '*** End Patch'."
  /\ build (R:=posix)
       (set_variables {[ str "BUG" := str "the login test" ]}
          (coding_scenario (str "Fix {BUG}")))
     = str "You are Coding assistant." ++ [nl; nl]
       ++ str "Task ```" ++ [nl] ++ str "Fix the login test" ++ [nl] ++ str "```" ++ [nl; nl]
       ++ str "Agentic eagerness: medium. Balance proactivity with directness." ++ [nl; nl]
       ++ str "Coding mode: enabled. Prefer small, verifiable steps and runnable outputs."
       ++ [nl]
       ++ str "For code edits, prefer unified diffs in an apply_patch block: begin with '*** Begin Patch' and end with '*** End Patch'.".
Proof. split; vm_compute; reflexivity. Qed.
